(** * Library management service: borrowing, returns, late fees, payments

    A shallow embedding of [services/library_service.py] and proofs of its
    lifecycle properties.  The service is imperative Python: it reads the
    clock, reads and writes the SQLite-backed storage through the helpers of
    [database.py], and talks to an external payment gateway.  Those effects
    are threaded through a small state-and-exception monad over a [World]. *)

From Stdlib Require Import ZArith QArith Qminmax Qround String Ascii DecimalString Lia.
From stdpp Require Import base option list gmap strings.

Open Scope string_scope.
Open Scope Z_scope.

(** ** Python values and built-ins used by the service *)

Module Py.

(** A naive [datetime]: microseconds since 0001-01-01T00:00:00, the
    resolution of Python's type.  A [timedelta] is a signed number of
    microseconds. *)
Definition datetime : Type := Z.
Definition timedelta : Type := Z.

Definition microseconds_per_day : Z := 86400000000.

(** [timedelta(days=n)] *)
Definition timedelta_of_days (n : Z) : timedelta := n * microseconds_per_day.

(** [delta.days]: Python normalises a timedelta so that the seconds and
    microseconds parts are non-negative, so [days] is the floor. *)
Definition days (delta : timedelta) : Z := delta / microseconds_per_day.

(** The exceptions that the modelled code can meet. *)
Inductive exn : Type :=
| ValueError
| TypeError.

(** A timestamp as a query row carries it: a [datetime] object or text.
    The service branches on the two shapes ([isinstance(due, datetime)],
    [isinstance(ret_dt, str)]). *)
Inductive pyts : Type :=
| DT (t : datetime)
| Str (s : string).

(** Truthiness of an optional timestamp value ([x if x else y]). *)
Definition truthy (v : option pyts) : bool :=
  match v with
  | None => false
  | Some (DT _) => true
  | Some (Str s) => negb (String.eqb s "")
  end.

(** [float] amounts are modelled by rationals.  Every amount the fee
    calculator produces is a multiple of 0.50 well below 2^53, which binary
    floating point represents exactly. *)
Definition float : Type := Q.

(** Round half to even, the rule of [round] and of [format]. *)
Definition round_half_even (q : Q) : Z :=
  let f := Qfloor q in
  match (q - inject_Z f ?= 1 # 2)%Q with
  | Lt => f
  | Gt => f + 1
  | Eq => if Z.even f then f else f + 1
  end.

(** [round(x, 2)] *)
Definition round2 (x : float) : float :=
  (inject_Z (round_half_even (x * 100)) / 100)%Q.

(** [str(n)] for an [int]. *)
Definition str_of_int (n : Z) : string := NilZero.string_of_int (Z.to_int n).

Definition two_digits (n : Z) : string :=
  if n <? 10 then "0" +:+ str_of_int n else str_of_int n.

(** [f"{x:.2f}"] *)
Definition format_2f (x : float) : string :=
  let c := round_half_even (x * 100) in
  (if c <? 0 then "-" else "") +:+
  str_of_int (Z.abs c / 100) +:+ "." +:+ two_digits (Z.abs c mod 100).

(** *** Text

    A [str] is held as its UTF-8 encoding.  [chars] splits it into its
    characters, one per code point: a byte opens a character unless it is a
    continuation byte, [10xxxxxx]. *)
Definition is_continuation (b : ascii) : bool :=
  let n := N_of_ascii b in ((128 <=? n) && (n <? 192))%N.

Definition continues (s : string) : bool :=
  match s with
  | EmptyString => false
  | String b _ => is_continuation b
  end.

Fixpoint chars (s : string) : list string :=
  match s with
  | EmptyString => []
  | String b rest =>
      match chars rest with
      | c :: cs =>
          if continues rest then String b c :: cs
          else String b EmptyString :: c :: cs
      | [] => [String b EmptyString]
      end
  end.

Definition join (cs : list string) : string := fold_right String.append EmptyString cs.

(** [len(s)]: the number of code points. *)
Definition len (s : string) : nat := length (chars s).

(** The code point that a character encodes. *)
Definition lead_value (b : ascii) : N :=
  let n := N_of_ascii b in
  (if n <? 128 then n else if n <? 224 then n mod 32
   else if n <? 240 then n mod 16 else n mod 8)%N.

Fixpoint continue (acc : N) (s : string) : N :=
  match s with
  | EmptyString => acc
  | String b rest => continue (acc * 64 + N_of_ascii b mod 64)%N rest
  end.

Definition code_point (c : string) : N :=
  match c with
  | EmptyString => 0%N
  | String b rest => continue (lead_value b) rest
  end.

Definition in_range (n : N) (r : N * N) : bool := ((r.1 <=? n) && (n <=? r.2))%N.

(** The code points that [str.isdigit] accepts, those of numeric type
    Decimal or Digit, as ranges; from the Unicode database, version 14.0,
    of CPython 3.11. *)
Definition digit_ranges : list (N * N) :=
  [(48, 57); (178, 179); (185, 185); (1632, 1641); (1776, 1785); (1984, 1993);
   (2406, 2415); (2534, 2543); (2662, 2671); (2790, 2799); (2918, 2927); (3046, 3055);
   (3174, 3183); (3302, 3311); (3430, 3439); (3558, 3567); (3664, 3673); (3792, 3801);
   (3872, 3881); (4160, 4169); (4240, 4249); (4969, 4977); (6112, 6121); (6160, 6169);
   (6470, 6479); (6608, 6618); (6784, 6793); (6800, 6809); (6992, 7001); (7088, 7097);
   (7232, 7241); (7248, 7257); (8304, 8304); (8308, 8313); (8320, 8329); (9312, 9320);
   (9332, 9340); (9352, 9360); (9450, 9450); (9461, 9469); (9471, 9471);
   (10102, 10110); (10112, 10120); (10122, 10130); (42528, 42537); (43216, 43225);
   (43264, 43273); (43472, 43481); (43504, 43513); (43600, 43609); (44016, 44025);
   (65296, 65305); (66720, 66729); (68160, 68163); (68912, 68921); (69216, 69224);
   (69714, 69722); (69734, 69743); (69872, 69881); (69942, 69951); (70096, 70105);
   (70384, 70393); (70736, 70745); (70864, 70873); (71248, 71257); (71360, 71369);
   (71472, 71481); (71904, 71913); (72016, 72025); (72784, 72793); (73040, 73049);
   (73120, 73129); (92768, 92777); (92864, 92873); (93008, 93017); (120782, 120831);
   (123200, 123209); (123632, 123641); (125264, 125273); (127232, 127242);
   (130032, 130041)]%N.

Definition unicode_digit (n : N) : bool := existsb (in_range n) digit_ranges.

(** [s.isdigit()]: false on the empty string. *)
Definition isdigit (s : string) : bool :=
  negb (String.eqb s "") && forallb (fun c => unicode_digit (code_point c)) (chars s).

(** [needle in hay] on strings. *)
Fixpoint contains (needle hay : string) : bool :=
  String.prefix needle hay
  || match hay with
     | EmptyString => false
     | String _ rest => contains needle rest
     end.

(** [x <= y] and [x > y] on floats. *)
Definition le (x y : float) : bool := Qle_bool x y.
Definition gt (x y : float) : bool := negb (Qle_bool x y).

(** [sum(xs)] starting from [0]. *)
Definition sum (xs : list float) : float := fold_left Qplus xs 0%Q.

(** The code points that [str.isspace] accepts, which [str.strip()]
    removes; from the same database. *)
Definition whitespace : list N :=
  [9; 10; 11; 12; 13; 28; 29; 30; 31; 32; 133; 160; 5760; 8192; 8193; 8194; 8195; 8196;
   8197; 8198; 8199; 8200; 8201; 8202; 8232; 8233; 8239; 8287; 12288]%N.

Definition unicode_space (n : N) : bool := existsb (N.eqb n) whitespace.

Definition is_space (c : string) : bool := unicode_space (code_point c).

Fixpoint drop_spaces (cs : list string) : list string :=
  match cs with
  | [] => []
  | c :: rest => if is_space c then drop_spaces rest else cs
  end.

(** [s.strip()] *)
Definition strip (s : string) : string :=
  join (rev (drop_spaces (rev (drop_spaces (chars s))))).

(** [s.lower()] on ASCII text: [A] to [Z] become [a] to [z]. *)
Fixpoint is_ascii (s : string) : bool :=
  match s with
  | EmptyString => true
  | String b rest => (N_of_ascii b <? 128)%N && is_ascii rest
  end.

Definition lower_char (c : ascii) : ascii :=
  let n := nat_of_ascii c in
  if ((65 <=? n) && (n <=? 90))%nat then ascii_of_nat (n + 32) else c.

Fixpoint ascii_lower (s : string) : string :=
  match s with
  | EmptyString => EmptyString
  | String c rest => String (lower_char c) (ascii_lower rest)
  end.

End Py.

Import Py.

(** ** Data model *)

(** A row of table [books]; the primary key [id] is the key of the map that
    holds the table. *)
Record Book : Type := mkBook {
  bk_title : string;
  bk_author : string;
  bk_isbn : string;
  bk_total_copies : Z;
  bk_available_copies : Z
}.

(** A row of table [borrow_records].  [br_return_date = None] is SQL NULL:
    the loan is active. *)
Record BorrowRecord : Type := mkBorrowRecord {
  br_patron_id : string;
  br_book_id : Z;
  br_borrow_date : datetime;
  br_due_date : datetime;
  br_return_date : option datetime
}.

Record Library : Type := mkLibrary {
  books : gmap Z Book;
  borrow_records : list BorrowRecord
}.

(** ** The payment gateway *)

(** What a call to the gateway does: it returns a value or raises, the
    exception carrying the text of [str(e)]. *)
Inductive gateway_reply (A : Type) : Type :=
| Replies (a : A)
| Raises (what : string).
Arguments Replies {A} a.
Arguments Raises {A} what.

(** The interface of [services.payment_service.PaymentGateway]. *)
Record PaymentGateway : Type := mkGateway {
  process_payment : string -> float -> string -> gateway_reply (bool * option string * string);
  refund_payment : string -> float -> gateway_reply (bool * string)
}.

Inductive gateway_call : Type :=
| ProcessPayment (patron_id : string) (amount : float) (description : string)
| RefundPayment (transaction_id : string) (amount : float).

(** ** The world the service runs in *)

(** [clock n] is what the [n]-th call of [datetime.now()] answers;
    [storage_faults] says for each coming storage write whether it succeeds
    ([true]) or reports failure ([false]), an exhausted list meaning success;
    [gateway_calls] logs the calls made to the gateway, oldest first. *)
Record World : Type := mkWorld {
  library : Library;
  clock : nat -> datetime;
  ticks : nat;
  storage_faults : list bool;
  gateway_calls : list gateway_call
}.

(** ** The monad: state over [World] with Python exceptions *)

Inductive outcome (A : Type) : Type :=
| Return (a : A)
| Raise (e : exn).
Arguments Return {A} a.
Arguments Raise {A} e.

Definition M (A : Type) : Type := World -> outcome A * World.

#[global] Instance M_ret : MRet M := fun A a w => (Return a, w).

#[global] Instance M_bind : MBind M := fun A B f m w =>
  match m w with
  | (Return a, w') => f a w'
  | (Raise e, w') => (Raise e, w')
  end.

Definition raise {A : Type} (e : exn) : M A := fun w => (Raise e, w).

Definition get_library : M Library := fun w => (Return (library w), w).

(** [datetime.now()] *)
Definition datetime_now : M datetime := fun w =>
  (Return (clock w (ticks w)),
   mkWorld (library w) (clock w) (S (ticks w)) (storage_faults w) (gateway_calls w)).

(** Modelled from the spec: a write of the data access interface reports a
    boolean success flag (section 6) and acts on one statement atomically
    (section 5): it takes effect and reports success, or reports failure and
    changes nothing. *)
Definition storage_write (effect : Library -> Library) : M bool := fun w =>
  let ok := hd true (storage_faults w) in
  (Return ok,
   mkWorld (if ok then effect (library w) else library w)
     (clock w) (ticks w) (tl (storage_faults w)) (gateway_calls w)).

Definition log_call (c : gateway_call) : M unit := fun w =>
  (Return tt,
   mkWorld (library w) (clock w) (ticks w) (storage_faults w) (gateway_calls w ++ [c])).

(** [try: body except TypeError: handler] *)
Definition try_except_TypeError {A : Type} (body handler : M A) : M A := fun w =>
  match body w with
  | (Raise TypeError, w') => handler w'
  | r => r
  end.

(** A [for] loop that collects one value per element, in order. *)
Fixpoint for_each {A B : Type} (f : A -> M B) (xs : list A) : M (list B) :=
  match xs with
  | [] => mret []
  | x :: rest => y ← f x; ys ← for_each f rest; mret (y :: ys)
  end.

(** ** Rows as the queries hand them to the service *)

(** [SELECT * FROM borrow_records]: the dict of one record. *)
Record borrow_row : Type := mkBorrowRow {
  row_patron_id : string;
  row_book_id : Z;
  row_borrow_date : pyts;
  row_due_date : pyts;
  row_return_date : option pyts
}.

(** A row of the patron's active loans. *)
Record loan_row : Type := mkLoanRow {
  loan_book_id : Z;
  loan_title : string;
  loan_author : string;
  loan_borrow_date : pyts;
  loan_due_date : pyts
}.

(** A row of the history query: a record joined with its book. *)
Record history_row : Type := mkHistoryRow {
  hrow_book_id : Z;
  hrow_borrow_date : pyts;
  hrow_due_date : pyts;
  hrow_return_date : option pyts;
  hrow_title : string;
  hrow_author : string;
  hrow_isbn : string
}.

(** ** What the service computes *)

(** The dict that [calculate_late_fee_for_book] returns. *)
Record FeeQuote : Type := mkFeeQuote {
  fee_amount : float;
  days_overdue : Z;
  status : string
}.

Record CurrentLoan : Type := mkCurrentLoan {
  cl_book_id : Z;
  cl_title : string;
  cl_author : string;
  cl_borrow_date : string;
  cl_due_date : string;
  cl_is_overdue : bool;
  cl_days_overdue : Z;
  cl_current_fee : float
}.

Record HistoryEntry : Type := mkHistoryEntry {
  he_book_id : Z;
  he_title : string;
  he_author : string;
  he_isbn : string;
  he_borrow_date : string;
  he_due_date : string;
  he_return_date : option string;
  he_days_overdue_at_end : Z;
  he_late_fee_at_end : float
}.

(** The report dict.  The template-friendly keys [currently_borrowed],
    [current_borrow_count] and [total_late_fees_owed] alias the values of
    [current_loans], [current_count] and [total_late_fees]. *)
Record StatusReport : Type := mkStatusReport {
  current_loans : list CurrentLoan;
  current_count : Z;
  total_late_fees : float;
  history : list HistoryEntry;
  report_patron_id : string
}.

Inductive report_result : Type :=
| ReportError (error : string)
| Report (r : StatusReport).

(** The double-quote character, as the messages embed it around a title. *)
Definition dq : string := String (ascii_of_nat 34) EmptyString.

(** [not patron_id or not patron_id.isdigit() or len(patron_id) != 6] *)
Definition invalid_patron_id (patron_id : string) : bool :=
  String.eqb patron_id "" || negb (isdigit patron_id)
  || negb (Nat.eqb (len patron_id) 6).

Definition is_active (r : BorrowRecord) : bool :=
  match br_return_date r with
  | None => true
  | Some _ => false
  end.

(** [patron_id = ? AND book_id = ? AND return_date IS NULL] *)
Definition active_loan_of (patron_id : string) (book_id : Z) (r : BorrowRecord) : bool :=
  String.eqb (br_patron_id r) patron_id && (br_book_id r =? book_id) && is_active r.

(** [patron_id = ? AND return_date IS NULL] *)
Definition active_of_patron (patron_id : string) (r : BorrowRecord) : bool :=
  String.eqb (br_patron_id r) patron_id && is_active r.

(** ** Sample data for the examples *)

Module Sample.

(** Instants of the examples, in microseconds since 0001-01-01T00:00:00. *)
Definition jan_01_0900 : datetime := 63871318800000000.
Definition jan_15_0900 : datetime := 63872528400000000.
Definition jan_25_0900 : datetime := 63873392400000000.
Definition feb_24_0900 : datetime := 63875984400000000.
Definition mar_01_1200 : datetime := 63876427200000000.

(** [isoformat] and [fromisoformat] at those instants. *)
Definition isoformat (t : datetime) : string :=
  if t =? jan_01_0900 then "2025-01-01T09:00:00"
  else if t =? jan_15_0900 then "2025-01-15T09:00:00"
  else if t =? jan_25_0900 then "2025-01-25T09:00:00"
  else if t =? feb_24_0900 then "2025-02-24T09:00:00"
  else if t =? mar_01_1200 then "2025-03-01T12:00:00"
  else "".

Definition fromisoformat (s : string) : option datetime :=
  if String.eqb s "2025-01-01T09:00:00" then Some jan_01_0900
  else if String.eqb s "2025-01-15T09:00:00" then Some jan_15_0900
  else if String.eqb s "2025-01-25T09:00:00" then Some jan_25_0900
  else if String.eqb s "2025-02-24T09:00:00" then Some feb_24_0900
  else if String.eqb s "2025-03-01T12:00:00" then Some mar_01_1200
  else None.

Definition strftime_Ymd (t : datetime) : string :=
  String.substring 0 10 (isoformat t).

(** A driver that hands timestamps back as the ISO text that was stored. *)
Definition text_column (t : datetime) : pyts := Str (isoformat t).

Definition gateway : PaymentGateway :=
  mkGateway (fun _ _ _ => Replies (true, Some "txn_1", "Success"))
    (fun _ _ => Replies (true, "Refund successful")).

Definition clean_code : Book := mkBook "Clean Code" "Robert Martin" "9780132350884" 1 1.

Definition world (lib : Library) (now : datetime) (faults : list bool) : World :=
  mkWorld lib (fun _ => now) 0 faults [].

(** One book with its single copy on the shelf, and no record. *)
Definition shelf : Library := mkLibrary {[ 1 := clean_code ]} [].

(** The copy is out, borrowed on January 1st and due on the 15th. *)
Definition on_loan : Library :=
  mkLibrary {[ 1 := mkBook "Clean Code" "Robert Martin" "9780132350884" 1 0 ]}
    [mkBorrowRecord "123456" 1 jan_01_0900 jan_15_0900 None].

(** The loan came back on February 24th, 40 days late. *)
Definition returned_late : Library :=
  mkLibrary {[ 1 := clean_code ]}
    [mkBorrowRecord "123456" 1 jan_01_0900 jan_15_0900 (Some feb_24_0900)].

(** Patron 123456 holds five active loans, of books 1 to 5; book 6 is on
    the shelf. *)
Definition lent_out : Book := mkBook "Refactoring" "Martin Fowler" "9780201485677" 1 0.

Definition loan_of_book (book_id : Z) : BorrowRecord :=
  mkBorrowRecord "123456" book_id jan_01_0900 jan_15_0900 None.

Definition five_loans : Library :=
  mkLibrary
    (<[1 := lent_out]> (<[2 := lent_out]> (<[3 := lent_out]> (<[4 := lent_out]>
       (<[5 := lent_out]> {[ 6 := clean_code ]})))))
    (map loan_of_book [1; 2; 3; 4; 5]).

(** The rows as SQLite hands them back: in table order from a query
    without [ORDER BY]; under [ORDER BY borrow_date DESC], later loans
    first and the loans of one instant in table order. *)
Definition fetchall (rows : list BorrowRecord) : list BorrowRecord := rows.

Fixpoint insert_by_date (r : BorrowRecord) (sorted : list BorrowRecord)
    : list BorrowRecord :=
  match sorted with
  | [] => [r]
  | x :: rest =>
      if br_borrow_date r <? br_borrow_date x
      then x :: insert_by_date r rest
      else r :: x :: rest
  end.

Definition order_by_borrow_date_desc (rows : list BorrowRecord) : list BorrowRecord :=
  fold_right insert_by_date [] rows.

(** [str.lower] beyond ASCII, as far as the examples go: the capital
    letters of Latin-1, [U+00C0] to [U+00DE] without the sign [U+00D7], and
    those of ASCII. *)
Fixpoint lower_latin1 (after_c3 : bool) (s : string) : string :=
  match s with
  | EmptyString => EmptyString
  | String b rest =>
      let n := N_of_ascii b in
      if (after_c3 && (128 <=? n) && (n <=? 158) && negb (n =? 151))%N
      then String (ascii_of_N (n + 32)) (lower_latin1 false rest)
      else String (lower_char b) (lower_latin1 (n =? 195)%N rest)
  end.

Definition unicode_lower (s : string) : string := lower_latin1 false s.

End Sample.

(** Sample history rows: the late return as a driver with [datetime]
    columns hands it back, and as text; the active loan as text. *)
Module SampleRows.

Definition returned_datetime : history_row :=
  mkHistoryRow 1 (DT Sample.jan_01_0900) (DT Sample.jan_15_0900)
    (Some (DT Sample.feb_24_0900)) "Clean Code" "Robert Martin" "9780132350884".

Definition returned_text : history_row :=
  mkHistoryRow 1 (Str "2025-01-01T09:00:00") (Str "2025-01-15T09:00:00")
    (Some (Str "2025-02-24T09:00:00")) "Clean Code" "Robert Martin" "9780132350884".

Definition active_text : history_row :=
  mkHistoryRow 1 (Str "2025-01-01T09:00:00") (Str "2025-01-15T09:00:00") None
    "Clean Code" "Robert Martin" "9780132350884".

End SampleRows.

Section Service.

(** Python's standard library and the database driver, as far as the
    service relies on them. *)

(** [datetime.fromisoformat]: [None] stands for the [ValueError] it raises
    on text that is not an ISO timestamp. *)
Variable fromisoformat : string -> option datetime.

(** [datetime.isoformat] and [datetime.strftime("%Y-%m-%d")]. *)
Variable isoformat : datetime -> string.
Variable strftime_Ymd : datetime -> string.

(** How a query row carries a stored timestamp: the driver hands back a
    [datetime] object, or the text that was stored. *)
Variable column : datetime -> pyts.

(** [PaymentGateway()], the gateway built when the caller injects none. *)
Variable default_gateway : PaymentGateway.

(** The order in which the database hands back the rows of a query: SQL
    leaves it open for a query without [ORDER BY], and among the rows that
    [ORDER BY borrow_date DESC] ranks equal. *)
Variable fetchall : list BorrowRecord -> list BorrowRecord.
Variable order_by_borrow_date_desc : list BorrowRecord -> list BorrowRecord.

(** [str.lower] on text that is not ASCII: the case mappings of the
    Unicode database, which can change the number of code points and
    depend on the context. *)
Variable unicode_lower : string -> string.

(** [s.lower()] *)
Definition lower (s : string) : string :=
  if is_ascii s then ascii_lower s else unicode_lower s.

(** *** Data access helpers of [database.py] *)

(** Modelled from the spec: [database.py] is not among the sources.  The
    spec (section 6) lists, of the data access interface,
    [getBookById], [getPatronBorrowCount], [insertBorrowRecord],
    [updateBookAvailability(bookId, delta)],
    [updateBorrowRecordReturnDate(patronId, bookId, returnDate)] and
    [getActiveBorrowsByPatron], each returning a structured record or a
    boolean success flag. *)
Definition get_book_by_id (book_id : Z) : M (option Book) :=
  lib ← get_library; mret (books lib !! book_id).

(** Modelled from the spec: the patron's number of active loans. *)
Definition get_patron_borrow_count (patron_id : string) : M Z :=
  lib ← get_library;
  mret (Z.of_nat (length (List.filter (active_of_patron patron_id) (borrow_records lib)))).

(** Modelled from the spec: a new record, active, is added to the table. *)
Definition insert_borrow_record (patron_id : string) (book_id : Z)
    (borrow_date due_date : datetime) : M bool :=
  storage_write (fun lib =>
    mkLibrary (books lib)
      (borrow_records lib ++ [mkBorrowRecord patron_id book_id borrow_date due_date None])).

(** Modelled from the spec: [delta] is added to the book's
    [available_copies], an atomic increment or decrement with no bound of
    its own. *)
Definition update_book_availability (book_id : Z) (delta : Z) : M bool :=
  storage_write (fun lib =>
    mkLibrary
      (alter (fun b => mkBook (bk_title b) (bk_author b) (bk_isbn b) (bk_total_copies b)
                         (bk_available_copies b + delta)) book_id (books lib))
      (borrow_records lib)).

Definition close_record (patron_id : string) (book_id : Z) (return_date : datetime)
    (r : BorrowRecord) : BorrowRecord :=
  if active_loan_of patron_id book_id r
  then mkBorrowRecord (br_patron_id r) (br_book_id r) (br_borrow_date r) (br_due_date r)
         (Some return_date)
  else r.

(** Modelled from the spec: the update is keyed by patron and book, so it
    sets [return_date] on the active record of the pair (on each one, should
    the table hold several). *)
Definition update_borrow_record_return_date (patron_id : string) (book_id : Z)
    (return_date : datetime) : M bool :=
  storage_write (fun lib =>
    mkLibrary (books lib) (map (close_record patron_id book_id return_date) (borrow_records lib))).

Definition loan_row_of (lib : Library) (r : BorrowRecord) : option loan_row :=
  b ← books lib !! br_book_id r;
  Some (mkLoanRow (br_book_id r) (bk_title b) (bk_author b)
          (column (br_borrow_date r)) (column (br_due_date r))).

(** Modelled from the spec: the patron's active loans, each with its
    book's title and author, in the order the database hands them back. *)
Definition get_patron_borrowed_books (patron_id : string) : M (list loan_row) :=
  lib ← get_library;
  mret (omap (loan_row_of lib)
          (fetchall (List.filter (active_of_patron patron_id) (borrow_records lib)))).

(** *** Queries that the service runs itself *)

Definition borrow_row_of (r : BorrowRecord) : borrow_row :=
  mkBorrowRow (br_patron_id r) (br_book_id r) (column (br_borrow_date r))
    (column (br_due_date r)) (column <$> br_return_date r).

(** [get_borrow_record]: [fetchone()] of the active records of the pair. *)
Definition get_borrow_record (patron_id : string) (book_id : Z) : M (option borrow_row) :=
  lib ← get_library;
  mret (borrow_row_of <$> List.find (active_loan_of patron_id book_id) (borrow_records lib)).

Definition history_row_of (lib : Library) (r : BorrowRecord) : option history_row :=
  b ← books lib !! br_book_id r;
  Some (mkHistoryRow (br_book_id r) (column (br_borrow_date r)) (column (br_due_date r))
          (column <$> br_return_date r) (bk_title b) (bk_author b) (bk_isbn b)).

Definition of_patron (patron_id : string) (r : BorrowRecord) : bool :=
  String.eqb (br_patron_id r) patron_id.

(** The history query of [get_patron_status_report]:
    [borrow_records JOIN books ON b.id = br.book_id WHERE br.patron_id = ?
     ORDER BY br.borrow_date DESC]. *)
Definition history_rows (patron_id : string) (lib : Library) : list history_row :=
  omap (history_row_of lib)
    (order_by_borrow_date_desc
       (List.filter (of_patron patron_id) (borrow_records lib))).

Definition history_query (patron_id : string) : M (list history_row) :=
  lib ← get_library; mret (history_rows patron_id lib).

(** *** The fee calculator *)

(** The [borrow_record] argument is a dict of which the function reads the
    key [due_date] only; it is modelled by that entry, [None] when the key
    is absent or null. *)
Definition due_entry : Type := option pyts.

Definition no_fee : FeeQuote := mkFeeQuote 0%Q 0 "ok".

(** [calculate_late_fee_for_book(patron_id, book_id, borrow_record=None, now=None)].
    The module defines no global [get_active_borrow_record], so the lookup
    of that test hook finds nothing and the record comes from
    [get_borrow_record]. *)
Definition calculate_late_fee_for_book (patron_id : string) (book_id : Z)
    (borrow_record : option due_entry) (now : option pyts) : M FeeQuote :=
  borrow_record ← match borrow_record with
                  | None =>
                      rec ← get_borrow_record patron_id book_id;
                      mret (match rec with
                            | Some row => Some (row_due_date row)
                            | None => None
                            end)
                  | Some d => mret d
                  end;
  now ← match now with
        | None => t ← datetime_now; mret (DT t)
        | Some v => mret v
        end;
  match borrow_record with
  | None => mret no_fee
  | Some due =>
      due ← match due with
            | DT t => mret t
            | Str s => match fromisoformat s with
                       | Some t => mret t
                       | None => raise ValueError
                       end
            end;
      match now with
      | Str _ => raise TypeError
      | DT now =>
          let days_overdue := Z.max 0 (days (now - due)) in
          let first := Z.min days_overdue 7 in
          let rest := Z.max 0 (days_overdue - 7) in
          let fee := Qmin (inject_Z first * 0.50 + inject_Z rest * 1.00)%Q 15.00%Q in
          mret (mkFeeQuote (round2 fee) days_overdue "ok")
      end
  end.

(** *** Borrowing and returning *)

(** [book_id] is an [int] by its type, so the [isinstance(book_id, int)]
    tests always pass; of [not book_id], what is left is [book_id == 0]. *)
Definition borrow_book_by_patron (patron_id : string) (book_id : Z) : M (bool * string) :=
  if invalid_patron_id patron_id
  then mret (false, "Invalid patron ID. Must be exactly 6 digits.")
  else
    book ← get_book_by_id book_id;
    match book with
    | None => mret (false, "Book not found.")
    | Some book =>
        if bk_available_copies book <=? 0
        then mret (false, "This book is currently not available.")
        else
          current_borrowed ← get_patron_borrow_count patron_id;
          if 5 <=? current_borrowed
          then mret (false, "You have reached the maximum borrowing limit of 5 books.")
          else
            existing_active ← get_borrow_record patron_id book_id;
            match existing_active with
            | Some _ => mret (false, "You already have this book checked out.")
            | None =>
                borrow_date ← datetime_now;
                let due_date := borrow_date + timedelta_of_days 14 in
                borrow_success ← insert_borrow_record patron_id book_id borrow_date due_date;
                if negb borrow_success
                then mret (false, "Database error occurred while creating borrow record.")
                else
                  availability_success ← update_book_availability book_id (-1);
                  if negb availability_success
                  then
                    now ← datetime_now;
                    _ ← update_borrow_record_return_date patron_id book_id now;
                    mret (false, "Database error occurred while updating book availability.")
                  else
                    mret (true, "Successfully borrowed " +:+ dq +:+ bk_title book +:+ dq
                                +:+ ". Due date: " +:+ strftime_Ymd due_date +:+ ".")
            end
    end.

Definition return_book_by_patron (patron_id : string) (book_id : Z) : M (bool * string) :=
  if invalid_patron_id patron_id
  then mret (false, "Invalid patron ID. Must be exactly 6 digits.")
  else if book_id =? 0
  then mret (false, "Invalid book ID.")
  else
    book ← get_book_by_id book_id;
    match book with
    | None =>
        if Nat.eqb (String.length (str_of_int book_id)) 13
        then mret (false, "Book not found by ISBN. Did you mean to search by ID?")
        else mret (false, "Book not found.")
    | Some book =>
        borrow_record ← get_borrow_record patron_id book_id;
        match borrow_record with
        | None => mret (false, "No active borrow record found for this patron and book.")
        | Some row =>
            now ← datetime_now;
            fee ← calculate_late_fee_for_book patron_id book_id
                    (Some (Some (row_due_date row))) (Some (DT now));
            marked ← update_borrow_record_return_date patron_id book_id now;
            if negb marked
            then mret (false, "Database error occurred while marking return.")
            else
              incremented ← update_book_availability book_id 1;
              if negb incremented
              then mret (false, "Database error occurred while updating book availability.")
              else if gt (fee_amount fee) 0%Q
              then mret (true, "Book returned: " +:+ dq +:+ bk_title book +:+ dq
                               +:+ ". Late fee: $" +:+ format_2f (fee_amount fee)
                               +:+ " (" +:+ str_of_int (days_overdue fee) +:+ " days overdue).")
              else mret (true, "Book returned: " +:+ dq +:+ bk_title book +:+ dq
                               +:+ ". No late fee.")
        end
    end.

(** *** The patron status report *)

(** [v.isoformat() if hasattr(v, "isoformat") else str(v)], which is also
    what the history loop computes after its [isinstance(v, str)] test. *)
Definition show_ts (v : pyts) : string :=
  match v with
  | DT t => isoformat t
  | Str s => s
  end.

(** The body of the loop over the active loans.  The two-argument call
    comes first; its [TypeError] handler passes the row's due date and the
    report's [now]. *)
Definition current_loan_of (patron_id : string) (now : datetime) (a : loan_row)
    : M CurrentLoan :=
  fee_info ← try_except_TypeError
               (calculate_late_fee_for_book patron_id (loan_book_id a) None None)
               (calculate_late_fee_for_book patron_id (loan_book_id a)
                  (Some (Some (loan_due_date a))) (Some (DT now)));
  let fee := fee_amount fee_info in
  let days_overdue := days_overdue fee_info in
  mret (mkCurrentLoan (loan_book_id a) (loan_title a) (loan_author a)
          (show_ts (loan_borrow_date a)) (show_ts (loan_due_date a))
          (0 <? days_overdue) days_overdue fee).

(** The body of the loop over the history rows. *)
Definition history_entry_of (patron_id : string) (now : datetime) (d : history_row)
    : M HistoryEntry :=
  let ret_dt := hrow_return_date d in
  let end_dt := if truthy ret_dt then default (DT now) ret_dt else DT now in
  fee_end ← try_except_TypeError
              (calculate_late_fee_for_book patron_id (hrow_book_id d)
                 (Some (Some (hrow_due_date d))) (Some end_dt))
              (mret (mkFeeQuote 0%Q 0 ""));
  mret (mkHistoryEntry (hrow_book_id d) (hrow_title d) (hrow_author d) (hrow_isbn d)
          (show_ts (hrow_borrow_date d)) (show_ts (hrow_due_date d))
          (show_ts <$> ret_dt)
          (days_overdue fee_end) (fee_amount fee_end)).

(** [get_patron_status_report].  The module defines no global
    [get_active_borrows_by_patron], so the active loans come from
    [get_patron_borrowed_books]. *)
Definition get_patron_status_report (patron_id : string) : M report_result :=
  if invalid_patron_id patron_id
  then mret (ReportError "Invalid patron ID. Must be exactly 6 digits.")
  else
    active ← get_patron_borrowed_books patron_id;
    now ← datetime_now;
    current_loans ← for_each (current_loan_of patron_id now) active;
    let current_count := Z.of_nat (length current_loans) in
    let total_late_fees := round2 (sum (map cl_current_fee current_loans)) in
    rows ← history_query patron_id;
    history ← for_each (history_entry_of patron_id now) rows;
    mret (Report (mkStatusReport current_loans current_count total_late_fees history patron_id)).

(** *** Paying and refunding late fees *)

(** [payment_gateway.process_payment(...)]: the call is logged, then
    answers or raises. *)
Definition call_process_payment (g : PaymentGateway) (patron_id : string)
    (amount : float) (description : string)
    : M (gateway_reply (bool * option string * string)) :=
  _ ← log_call (ProcessPayment patron_id amount description);
  mret (process_payment g patron_id amount description).

Definition call_refund_payment (g : PaymentGateway) (transaction_id : string)
    (amount : float) : M (gateway_reply (bool * string)) :=
  _ ← log_call (RefundPayment transaction_id amount);
  mret (refund_payment g transaction_id amount).

(** [pay_late_fees].  The quote always holds the key [fee_amount], so the
    test [not fee_info or 'fee_amount' not in fee_info] never fires. *)
Definition pay_late_fees (patron_id : string) (book_id : Z)
    (payment_gateway : option PaymentGateway) : M (bool * string * option string) :=
  if invalid_patron_id patron_id
  then mret (false, "Invalid patron ID. Must be exactly 6 digits.", None)
  else
    fee_info ← calculate_late_fee_for_book patron_id book_id None None;
    let fee_amount := fee_amount fee_info in
    if le fee_amount 0%Q
    then mret (false, "No late fees to pay for this book.", None)
    else
      book ← get_book_by_id book_id;
      match book with
      | None => mret (false, "Book not found.", None)
      | Some book =>
          let payment_gateway := default default_gateway payment_gateway in
          reply ← call_process_payment payment_gateway patron_id fee_amount
                    ("Late fees for '" +:+ bk_title book +:+ "'");
          match reply with
          | Replies (success, transaction_id, message) =>
              if (success : bool)
              then mret (true, "Payment successful! " +:+ message, transaction_id)
              else mret (false, "Payment failed: " +:+ message, None)
          | Raises e => mret (false, "Payment processing error: " +:+ e, None)
          end
      end.

(** [refund_late_fee_payment] *)
Definition refund_late_fee_payment (transaction_id : string) (amount : float)
    (payment_gateway : option PaymentGateway) : M (bool * string) :=
  if String.eqb transaction_id "" || negb (String.prefix "txn_" transaction_id)
  then mret (false, "Invalid transaction ID.")
  else if le amount 0%Q
  then mret (false, "Refund amount must be greater than 0.")
  else if gt amount 15.00%Q
  then mret (false, "Refund amount exceeds maximum late fee.")
  else
    let payment_gateway := default default_gateway payment_gateway in
    reply ← call_refund_payment payment_gateway transaction_id amount;
    match reply with
    | Replies (success, message) =>
        if (success : bool)
        then mret (true, message)
        else mret (false, "Refund failed: " +:+ message)
    | Raises e => mret (false, "Refund processing error: " +:+ e)
    end.

(** *** The catalog: adding and searching books *)

(** A row of [SELECT * FROM books]: the id and the other columns. *)
Definition book_row : Type := (Z * Book)%type.

Definition has_isbn (isbn : string) (row : book_row) : bool :=
  String.eqb (bk_isbn row.2) isbn.

(** Modelled from the spec: [getBookByIsbn] of the data access interface,
    the book of that ISBN if the catalog has one. *)
Definition get_book_by_isbn (isbn : string) : M (option book_row) :=
  lib ← get_library; mret (List.find (has_isbn isbn) (map_to_list (books lib))).

(** The id that the table gives its next row: one more than the largest
    id in use. *)
Definition next_book_id (catalog : gmap Z Book) : Z :=
  1 + map_fold (fun id _ largest => Z.max id largest) 0 catalog.

(** Modelled from the spec: [insertBook] stores a new book under an id of
    its own and reports a boolean success flag. *)
Definition insert_book (title author isbn : string) (total_copies available_copies : Z)
    : M bool :=
  storage_write (fun lib =>
    mkLibrary
      (<[next_book_id (books lib) := mkBook title author isbn total_copies available_copies]>
         (books lib))
      (borrow_records lib)).

(** Modelled from the spec: [getAllBooks], the rows of the catalog. *)
Definition get_all_books : M (list book_row) :=
  lib ← get_library; mret (map_to_list (books lib)).

(** [add_book_to_catalog].  [total_copies] is an [int] by its type. *)
Definition add_book_to_catalog (title author isbn : string) (total_copies : Z)
    : M (bool * string) :=
  if String.eqb title "" || String.eqb (strip title) ""
  then mret (false, "Title is required.")
  else if Nat.ltb 200 (len (strip title))
  then mret (false, "Title must be less than 200 characters.")
  else if String.eqb author "" || String.eqb (strip author) ""
  then mret (false, "Author is required.")
  else if Nat.ltb 100 (len (strip author))
  then mret (false, "Author must be less than 100 characters.")
  else if negb (Nat.eqb (len isbn) 13) || negb (isdigit isbn)
  then mret (false, "ISBN must be exactly 13 digits.")
  else if total_copies <=? 0
  then mret (false, "Total copies must be a positive integer.")
  else
    existing ← get_book_by_isbn isbn;
    match existing with
    | Some _ => mret (false, "A book with this ISBN already exists.")
    | None =>
        success ← insert_book (strip title) (strip author) isbn total_copies total_copies;
        if (success : bool)
        then mret (true, "Book " +:+ dq +:+ strip title +:+ dq
                         +:+ " has been successfully added to the catalog.")
        else mret (false, "Database error occurred while adding the book.")
    end.

(** The two statements that the ISBN search runs on the connection:
    [SELECT * FROM books WHERE isbn = ?] and [SELECT * FROM books]. *)
Definition select_books_where_isbn (isbn : string) : M (list book_row) :=
  lib ← get_library; mret (List.filter (has_isbn isbn) (map_to_list (books lib))).

Definition select_all_books : M (list book_row) :=
  lib ← get_library; mret (map_to_list (books lib)).

Definition title_has (needle : string) (row : book_row) : bool :=
  contains needle (lower (bk_title row.2)).

Definition author_has (needle : string) (row : book_row) : bool :=
  contains needle (lower (bk_author row.2)).

(** [search_books_in_catalog].  The module imports [database] when it
    loads, so [_get_books_source] always finds a [get_all_books] and the
    SQL [LIKE] fallback of the title and author searches is never reached;
    the books come from [get_all_books]. *)
Definition search_books_in_catalog (search_term search_type : string)
    : M (list book_row) :=
  let term := strip search_term in
  let stype := lower (strip search_type) in
  if negb (String.eqb stype "title" || String.eqb stype "author" || String.eqb stype "isbn")
  then mret []
  else if String.eqb stype "title" || String.eqb stype "author"
  then
    books ← get_all_books;
    if String.eqb term ""
    then mret books
    else
      let needle := lower term in
      if String.eqb stype "title"
      then mret (List.filter (title_has needle) books)
      else mret (List.filter (author_has needle) books)
  else
    books ← get_all_books;
    let out := List.filter (has_isbn term) books in
    match out with
    | _ :: _ => mret out
    | [] =>
        rows ← select_books_where_isbn term;
        match rows with
        | _ :: _ => mret rows
        | [] =>
            rows ← select_all_books;
            mret (List.filter (has_isbn term) rows)
        end
    end.

(** *** The profile page of [routes/user_routes.py] *)

(** Flask's [request], as far as the route reads it: the method, the form
    fields and the query string. *)
Record Request : Type := mkRequest {
  method : string;
  form : gmap string string;
  args : gmap string string
}.

(** What the route hands to [render_template]: the name of the template
    and the two values of its context. *)
Record Page : Type := mkPage {
  template : string;
  page_patron_id : option string;
  page_report : option report_result
}.

(** [profile]: the patron id comes from the form on a [POST] and from the
    query string, with the default [""], otherwise; the report is computed
    when the id is truthy, that is neither [None] nor empty. *)
Definition profile (request : Request) : M Page :=
  let patron_id :=
    if String.eqb (method request) "POST"
    then form request !! "patron_id"
    else Some (default "" (args request !! "patron_id")) in
  report ← match patron_id with
           | None | Some EmptyString => mret None
           | Some id => r ← get_patron_status_report id; mret (Some r)
           end;
  mret (mkPage "patron_profile.html" patron_id report).

(** ** The fee rule in the words of the specification *)

(** The instant that a due date denotes: itself when it is a [datetime],
    what [fromisoformat] reads when it is text.  A record has a resolvable
    due date when it holds one and the due date denotes an instant. *)
Definition resolve (due : pyts) : option datetime :=
  match due with
  | DT t => Some t
  | Str s => fromisoformat s
  end.

(** Whole days between the evaluation instant and the due date, truncated
    toward zero, and never below [0]. *)
Definition whole_days_overdue (due now : datetime) : Z :=
  Z.max 0 ((now - due) ÷ microseconds_per_day).

(** [min(min(d,7)*0.50 + max(0,d-7)*1.00, 15.00)] *)
Definition tiered_fee (d : Z) : Q :=
  Qmin (inject_Z (Z.min d 7) * 0.50 + inject_Z (Z.max 0 (d - 7)) * 1.00)%Q 15.00%Q.

(** The quote for a due date [d] evaluated at [now]. *)
Definition quote_at (d now : datetime) : FeeQuote :=
  mkFeeQuote (round2 (tiered_fee (whole_days_overdue d now)))
    (whole_days_overdue d now) "ok".

(** The tiered, capped fee in whole cents. *)
Definition fee_cents (d : Z) : Z :=
  Z.min (50 * Z.min d 7 + 100 * Z.max 0 (d - 7)) 1500.

(** The patron's number of active loans. *)
Definition active_loan_count (patron_id : string) (lib : Library) : Z :=
  Z.of_nat (length (List.filter (active_of_patron patron_id) (borrow_records lib))).

(** *** States and runs, for the invariant on copies *)

Definition active_on_book (book_id : Z) (r : BorrowRecord) : bool :=
  (br_book_id r =? book_id) && is_active r.

(** The number of active records of a book. *)
Definition active_count (book_id : Z) (lib : Library) : Z :=
  Z.of_nat (length (List.filter (active_on_book book_id) (borrow_records lib))).

(** [0 <= available_copies <= total_copies] for every book. *)
Definition within_bounds (lib : Library) : Prop :=
  ∀ (id : Z) (book : Book), books lib !! id = Some book →
    0 <= bk_available_copies book <= bk_total_copies book.

(** A valid state: every book is within bounds and its missing copies are
    matched one to one by its active records. *)
Definition valid_state (lib : Library) : Prop :=
  ∀ (id : Z) (book : Book), books lib !! id = Some book →
    0 <= bk_available_copies book <= bk_total_copies book
    ∧ bk_total_copies book - bk_available_copies book = active_count id lib.

(** What the operations keep: every active record stands for a missing
    copy.  (A copy may be missing without a record, after a return whose
    increment failed.) *)
Definition covered (lib : Library) : Prop :=
  ∀ (id : Z) (book : Book), books lib !! id = Some book →
    0 <= bk_available_copies book <= bk_total_copies book
    ∧ active_count id lib <= bk_total_copies book - bk_available_copies book.

Inductive operation : Type :=
| Borrows (patron_id : string) (book_id : Z)
| Returns (patron_id : string) (book_id : Z).

Definition perform (op : operation) : M (bool * string) :=
  match op with
  | Borrows patron_id book_id => borrow_book_by_patron patron_id book_id
  | Returns patron_id book_id => return_book_by_patron patron_id book_id
  end.

(** The world after a sequence of operations, each run to its end. *)
Fixpoint run_ops (ops : list operation) (w : World) : World :=
  match ops with
  | [] => w
  | op :: rest => run_ops rest (perform op w).2
  end.

(** The five checks of a borrow all pass. *)
Definition passes_validation (patron_id : string) (book_id : Z) (lib : Library) : bool :=
  negb (invalid_patron_id patron_id)
  && match books lib !! book_id with
     | Some book => 0 <? bk_available_copies book
     | None => false
     end
  && (active_loan_count patron_id lib <? 5)
  && match List.find (active_loan_of patron_id book_id) (borrow_records lib) with
     | Some _ => false
     | None => true
     end.

(** A borrow meets a double fault: it passes its checks, its insert
    succeeds, its decrement fails, and its compensating close fails too. *)
Definition double_fault (patron_id : string) (book_id : Z) (w : World) : Prop :=
  passes_validation patron_id book_id (library w) = true
  ∧ ∃ rest : list bool, storage_faults w = true :: false :: false :: rest.

(** Along the run, no borrow meets a double fault. *)
Fixpoint compensated (ops : list operation) (w : World) : Prop :=
  match ops with
  | [] => True
  | op :: rest =>
      match op with
      | Borrows patron_id book_id => ¬ double_fault patron_id book_id w
      | Returns _ _ => True
      end
      ∧ compensated rest (perform op w).2
  end.

(** What the two availability updates do to a book, and the record that
    a borrow inserts. *)
Definition decrement (b : Book) : Book :=
  mkBook (bk_title b) (bk_author b) (bk_isbn b) (bk_total_copies b)
    (bk_available_copies b + -1).

Definition increment (b : Book) : Book :=
  mkBook (bk_title b) (bk_author b) (bk_isbn b) (bk_total_copies b)
    (bk_available_copies b + 1).

Definition new_record (patron_id : string) (book_id : Z) (w : World) : BorrowRecord :=
  mkBorrowRecord patron_id book_id (clock w (ticks w))
    (clock w (ticks w) + timedelta_of_days 14) None.

(** The refund result that the gateway's answer maps to. *)
Definition refund_result (reply : gateway_reply (bool * string)) : bool * string :=
  match reply with
  | Replies (true, message) => (true, message)
  | Replies (false, message) => (false, "Refund failed: " +:+ message)
  | Raises e => (false, "Refund processing error: " +:+ e)
  end.

(** The payment result that the gateway's answer maps to. *)
Definition payment_result (reply : gateway_reply (bool * option string * string))
    : bool * string * option string :=
  match reply with
  | Replies (true, transaction_id, message) =>
      (true, "Payment successful! " +:+ message, transaction_id)
  | Replies (false, _, message) => (false, "Payment failed: " +:+ message, None)
  | Raises e => (false, "Payment processing error: " +:+ e, None)
  end.

(** Every record points to a book of the catalog. *)
Definition references_books (lib : Library) : Prop :=
  ∀ r : BorrowRecord, r ∈ borrow_records lib → is_Some (books lib !! br_book_id r).

(** *** The catalog, for the properties of adding and searching *)

(** No two books of the catalog share an ISBN. *)
Definition isbn_unique (lib : Library) : Prop :=
  ∀ (i j : Z) (b1 b2 : Book),
    books lib !! i = Some b1 → books lib !! j = Some b2 →
    bk_isbn b1 = bk_isbn b2 → i = j.

(** A title or an author that [add_book_to_catalog] accepts: not blank
    once stripped, and within its length. *)
Definition accepted_text (limit : nat) (text : string) : Prop :=
  strip text ≠ "" ∧ (len (strip text) <= limit)%nat.

(** An ISBN that it accepts. *)
Definition accepted_isbn (isbn : string) : Prop :=
  len isbn = 13%nat ∧ isdigit isbn = true.

(** *** Runs of the whole service *)

(** A request to the service: a loan operation, or one of the other
    functions of the module with its arguments. *)
Inductive request : Type :=
| Loan (op : operation)
| AddsBook (title author isbn : string) (total_copies : Z)
| Searches (search_term search_type : string)
| Reports (patron_id : string)
| Pays (patron_id : string) (book_id : Z) (payment_gateway : option PaymentGateway)
| Refunds (transaction_id : string) (amount : float)
    (payment_gateway : option PaymentGateway).

(** The world after a request, whatever it returns or raises. *)
Definition serve (rq : request) (w : World) : World :=
  match rq with
  | Loan op => (perform op w).2
  | AddsBook title author isbn total_copies =>
      (add_book_to_catalog title author isbn total_copies w).2
  | Searches search_term search_type => (search_books_in_catalog search_term search_type w).2
  | Reports patron_id => (get_patron_status_report patron_id w).2
  | Pays patron_id book_id payment_gateway =>
      (pay_late_fees patron_id book_id payment_gateway w).2
  | Refunds transaction_id amount payment_gateway =>
      (refund_late_fee_payment transaction_id amount payment_gateway w).2
  end.

Fixpoint run_requests (rqs : list request) (w : World) : World :=
  match rqs with
  | [] => w
  | rq :: rest => run_requests rest (serve rq w)
  end.

(** The writes that reach the storage: a book added under the next id,
    with an ISBN that no book has; a change of a book's available copies;
    a loan recorded for a pair that passes the checks of a borrow; the
    active loans of a pair closed. *)
Inductive write (lib : Library) : Library → Prop :=
| write_book (title author isbn : string) (total_copies : Z) :
    0 < total_copies →
    (∀ (id : Z) (book : Book), books lib !! id = Some book → bk_isbn book ≠ isbn) →
    write lib
      (mkLibrary
         (<[next_book_id (books lib)
            := mkBook title author isbn total_copies total_copies]> (books lib))
         (borrow_records lib))
| write_copies (book_id delta : Z) :
    write lib
      (mkLibrary
         (alter (fun b => mkBook (bk_title b) (bk_author b) (bk_isbn b) (bk_total_copies b)
                            (bk_available_copies b + delta)) book_id (books lib))
         (borrow_records lib))
| write_loan (patron_id : string) (book_id : Z) (t : datetime) :
    passes_validation patron_id book_id lib = true →
    write lib
      (mkLibrary (books lib)
         (borrow_records lib
          ++ [mkBorrowRecord patron_id book_id t (t + timedelta_of_days 14) None]))
| write_return (patron_id : string) (book_id : Z) (t : datetime) :
    write lib
      (mkLibrary (books lib)
         (map (close_record patron_id book_id t) (borrow_records lib))).

(** No patron holds more than 5 active loans. *)
Definition within_limit (lib : Library) : Prop :=
  ∀ patron_id : string, active_loan_count patron_id lib <= 5.

(** No patron holds two active loans of one book. *)
Definition one_loan_per_pair (lib : Library) : Prop :=
  ∀ (patron_id : string) (book_id : Z),
    (length (List.filter (active_loan_of patron_id book_id) (borrow_records lib)) <= 1)%nat.

(** [r'] is the loan [r], as it was or closed since: the patron, the book
    and the two dates are those of [r], and a return date that [r] has is
    kept. *)
Definition same_loan (r r' : BorrowRecord) : Prop :=
  br_patron_id r' = br_patron_id r ∧ br_book_id r' = br_book_id r
  ∧ br_borrow_date r' = br_borrow_date r ∧ br_due_date r' = br_due_date r
  ∧ (is_active r = false → r' = r).

(** [b'] is the book [b], up to its available copies. *)
Definition same_book (b b' : Book) : Prop :=
  bk_title b' = bk_title b ∧ bk_author b' = bk_author b ∧ bk_isbn b' = bk_isbn b
  ∧ bk_total_copies b' = bk_total_copies b.

(** A quote that the calculator can give: the days are not negative and
    the amount is the fee of the days, in whole cents. *)
Definition fee_of_days (fee : float) (days : Z) : Prop :=
  0 <= days ∧ (fee == inject_Z (fee_cents days) / 100)%Q.

(** The fees of the loans of a report, in cents. *)
Definition total_cents (loans : list CurrentLoan) : Z :=
  fold_right Z.add 0 (map (fun cl => fee_cents (cl_days_overdue cl)) loans).

(** The storage is reliable: no write that is coming fails. *)
Definition reliable (w : World) : Prop :=
  Forall (fun ok : bool => ok = true) (storage_faults w).

(** ** Properties of the fee calculator *)

(** Runs the monad: unfolds the binds of the goal and computes. *)
Ltac run :=
  repeat (unfold mbind, mret, M_bind, M_ret, raise, get_library, datetime_now,
            log_call; cbn).

Lemma floor_days_truncate (delta : timedelta) :
  Z.max 0 (days delta) = Z.max 0 (delta ÷ microseconds_per_day).
Proof.
  unfold days.
  assert (Hpos : 0 < microseconds_per_day) by reflexivity.
  destruct (Z.le_gt_cases 0 delta) as [Hge|Hlt].
  - now rewrite Z.quot_div_nonneg.
  - assert (delta / microseconds_per_day < 0) by (apply Z.div_lt_upper_bound; lia).
    assert (delta ÷ microseconds_per_day <= 0)
      by (apply Z.quot_le_upper_bound; lia).
    lia.
Qed.

Lemma Qmin_cents (x y : Z) :
  (Qmin (inject_Z x / 100) (inject_Z y / 100) == inject_Z (Z.min x y) / 100)%Q.
Proof.
  destruct (Z.le_gt_cases x y) as [H|H].
  - rewrite Z.min_l by lia. apply Q.min_l. unfold Qle; cbn. lia.
  - rewrite Z.min_r by lia. apply Q.min_r. unfold Qle; cbn. lia.
Qed.

Lemma round_half_even_cents (x : Q) (c : Z) :
  (x == inject_Z c / 100)%Q → round_half_even (x * 100) = c.
Proof.
  intros Hx.
  assert (Hc : (x * 100 == inject_Z c)%Q) by (rewrite Hx; field).
  unfold round_half_even.
  rewrite (Qfloor_comp _ _ Hc), Qfloor_Z.
  assert (Hlt : (x * 100 - inject_Z c ?= 1 # 2)%Q = Lt).
  { rewrite Hc. assert (Hz : (inject_Z c - inject_Z c == 0)%Q) by ring.
    now rewrite Hz. }
  now rewrite Hlt.
Qed.

(** [round(x, 2)] leaves a whole number of cents as it is. *)
Lemma round2_cents (x : Q) (c : Z) :
  (x == inject_Z c / 100)%Q → (round2 x == x)%Q.
Proof.
  intros Hx. unfold round2.
  rewrite (round_half_even_cents x c Hx). now rewrite Hx.
Qed.

Lemma tiered_fee_cents (d : Z) : (tiered_fee d == inject_Z (fee_cents d) / 100)%Q.
Proof.
  unfold tiered_fee, fee_cents.
  rewrite <- Qmin_cents.
  apply Q.min_compat.
  - unfold Qeq, Qdiv, Qmult, Qplus, Qinv, inject_Z; cbn. lia.
  - reflexivity.
Qed.

(** The fee is a whole number of cents, so rounding it to 2 decimals
    changes nothing. *)
Lemma round2_tiered_fee (d : Z) : (round2 (tiered_fee d) == tiered_fee d)%Q.
Proof. apply (round2_cents _ (fee_cents d)), tiered_fee_cents. Qed.

Lemma tiered_fee_nonneg (d : Z) : 0 <= d → (0 <= round2 (tiered_fee d))%Q.
Proof.
  intros Hd. rewrite round2_tiered_fee, tiered_fee_cents.
  unfold fee_cents, Qle; cbn. lia.
Qed.

Lemma whole_days_overdue_nonneg (due now : datetime) : 0 <= whole_days_overdue due now.
Proof. unfold whole_days_overdue. lia. Qed.

(** With the record and the instant passed in, the calculator reads
    neither storage nor the clock: it parses the due date and applies the
    rule, or raises the parser's [ValueError]. *)
Lemma calculate_explicit (patron_id : string) (book_id : Z) (due : pyts)
    (now : datetime) (w : World) :
  calculate_late_fee_for_book patron_id book_id (Some (Some due)) (Some (DT now)) w
  = match resolve due with
    | Some d => (Return (quote_at d now), w)
    | None => (Raise ValueError, w)
    end.
Proof.
  unfold calculate_late_fee_for_book, quote_at, whole_days_overdue, tiered_fee.
  destruct due as [t|s]; run.
  - now rewrite <- floor_days_truncate.
  - destruct (fromisoformat s); run; [|done].
    now rewrite <- floor_days_truncate.
Qed.

(** C1: for a record whose due date resolves to [d] and an evaluation
    instant [now], [calculate_late_fee_for_book] answers with
    [days_overdue] the whole days from [d] to [now] truncated toward zero and
    floored at 0, and with [fee_amount] the tiered, capped fee of those days
    rounded to 2 decimals; for a record without a due date, and when no record
    is passed and storage holds no active one, it answers fee 0 and 0 days. *)
Theorem C1_calculate_late_fee (patron_id : string) (book_id : Z) (due : pyts)
    (d now : datetime) (w : World) :
  resolve due = Some d →
  calculate_late_fee_for_book patron_id book_id (Some (Some due)) (Some (DT now)) w
    = (Return (mkFeeQuote (round2 (tiered_fee (whole_days_overdue d now)))
                 (whole_days_overdue d now) "ok"), w)
  ∧ calculate_late_fee_for_book patron_id book_id (Some None) (Some (DT now)) w
    = (Return (mkFeeQuote 0%Q 0 "ok"), w)
  ∧ (List.find (active_loan_of patron_id book_id) (borrow_records (library w)) = None →
     calculate_late_fee_for_book patron_id book_id None (Some (DT now)) w
     = (Return (mkFeeQuote 0%Q 0 "ok"), w)).
Proof.
  intros Hdue. unfold whole_days_overdue, tiered_fee.
  rewrite <- floor_days_truncate.
  repeat split.
  - unfold calculate_late_fee_for_book.
    destruct due as [t|s]; cbn in Hdue.
    + inversion Hdue; subst t. now run.
    + run. rewrite Hdue. now run.
  - intros Hnone. unfold calculate_late_fee_for_book, get_borrow_record. run.
    now rewrite Hnone.
Qed.

(** X5: the fee of any number of days is a whole number of cents, the
    cents of [fee_cents], and rounding it to 2 decimals leaves it as it is. *)
Theorem fee_whole_cents (d : Z) :
  (tiered_fee d == inject_Z (fee_cents d) / 100)%Q
  ∧ (round2 (tiered_fee d) == tiered_fee d)%Q.
Proof. split; [apply tiered_fee_cents|apply round2_tiered_fee]. Qed.

(** X6: called with the patron and the book only, the calculator takes the
    due date of the pair's active record in storage and the instant it reads
    from the clock. *)
Theorem calculate_from_storage (patron_id : string) (book_id : Z) (r : BorrowRecord)
    (d : datetime) (w : World) :
  List.find (active_loan_of patron_id book_id) (borrow_records (library w)) = Some r →
  resolve (column (br_due_date r)) = Some d →
  calculate_late_fee_for_book patron_id book_id None None w
  = (Return (quote_at d (clock w (ticks w))),
     mkWorld (library w) (clock w) (S (ticks w)) (storage_faults w) (gateway_calls w)).
Proof.
  intros Hfind Hdue.
  unfold calculate_late_fee_for_book, get_borrow_record, quote_at, whole_days_overdue,
    tiered_fee.
  run. rewrite Hfind. run.
  destruct (column (br_due_date r)) as [t|s]; cbn in Hdue; run.
  - simplify_eq. now rewrite <- floor_days_truncate.
  - rewrite Hdue. run. now rewrite <- floor_days_truncate.
Qed.

(** X8: a due date given as text that [fromisoformat] rejects makes the
    calculator raise [ValueError], whatever the instant, and the world is
    left as it was. *)
Theorem calculate_malformed_due_date (patron_id : string) (book_id : Z) (s : string)
    (now : datetime) (w : World) :
  fromisoformat s = None →
  calculate_late_fee_for_book patron_id book_id (Some (Some (Str s))) (Some (DT now)) w
  = (Raise ValueError, w).
Proof.
  intros Hs. unfold calculate_late_fee_for_book. run. now rewrite Hs.
Qed.

#[local] Arguments calculate_late_fee_for_book : simpl never.

(** ** Properties of borrowing *)

Ltac unfold_storage :=
  unfold get_book_by_id, get_patron_borrow_count, get_borrow_record,
    insert_borrow_record, update_book_availability,
    update_borrow_record_return_date, storage_write.

Lemma find_none_filter {A : Type} (f : A → bool) (l : list A) :
  List.find f l = None → List.filter f l = [].
Proof.
  induction l as [|x l IH]; cbn; [done|].
  destruct (f x); [done|]. exact IH.
Qed.

Lemma active_loan_of_new (patron_id : string) (book_id : Z) (t1 t2 : datetime) :
  active_loan_of patron_id book_id (mkBorrowRecord patron_id book_id t1 t2 None) = true.
Proof.
  unfold active_loan_of; cbn. now rewrite String.eqb_refl, Z.eqb_refl.
Qed.

(** C2: when [borrow_book_by_patron] succeeds, the book has exactly one
    available copy less than before, and the active records of the
    (patron, book) pair are exactly one record, the new one, borrowed at the
    instant the call read the clock and due 14 days after it. *)
Theorem C2_borrow_success (patron_id : string) (book_id : Z) (msg : string)
    (w w' : World) :
  borrow_book_by_patron patron_id book_id w = (Return (true, msg), w') →
  ∃ book : Book,
    books (library w) !! book_id = Some book
    ∧ bk_available_copies <$> books (library w') !! book_id
      = Some (bk_available_copies book - 1)
    ∧ List.filter (active_loan_of patron_id book_id) (borrow_records (library w'))
      = [mkBorrowRecord patron_id book_id (clock w (ticks w))
           (clock w (ticks w) + timedelta_of_days 14) None].
Proof.
  unfold borrow_book_by_patron. unfold_storage. run.
  intros H. repeat case_match; simplify_eq. cbn.
  match goal with Hb : books _ !! _ = Some ?b |- _ => exists b; rename Hb into Hbook end.
  split; [done|]. split.
  - now rewrite lookup_alter_eq, Hbook.
  - match goal with Hf : _ <$> find _ _ = None |- _ => apply fmap_None in Hf; rename Hf into Hfind end.
    rewrite List.filter_app, (find_none_filter _ _ Hfind). cbn.
    now rewrite active_loan_of_new.
Qed.

(** C4: [borrow_book_by_patron] checks, in this order, the format of the
    patron id, that the book exists, that a copy is available, that the
    patron holds fewer than 5 active loans, and that the patron has no
    active loan of this book.  The first check that fails decides the
    message, whatever the later ones would say, and the world is left as it
    was.  A patron with exactly 5 active loans is refused. *)
Theorem C4_borrow_validation_order (patron_id : string) (book_id : Z) (w : World) :
  (invalid_patron_id patron_id = true →
   borrow_book_by_patron patron_id book_id w
   = (Return (false, "Invalid patron ID. Must be exactly 6 digits."), w))
  ∧ (invalid_patron_id patron_id = false →
     books (library w) !! book_id = None →
     borrow_book_by_patron patron_id book_id w
     = (Return (false, "Book not found."), w))
  ∧ (∀ book : Book,
       invalid_patron_id patron_id = false →
       books (library w) !! book_id = Some book →
       bk_available_copies book <= 0 →
       borrow_book_by_patron patron_id book_id w
       = (Return (false, "This book is currently not available."), w))
  ∧ (∀ book : Book,
       invalid_patron_id patron_id = false →
       books (library w) !! book_id = Some book →
       0 < bk_available_copies book →
       5 <= active_loan_count patron_id (library w) →
       borrow_book_by_patron patron_id book_id w
       = (Return (false, "You have reached the maximum borrowing limit of 5 books."), w))
  ∧ (∀ (book : Book) (r : BorrowRecord),
       invalid_patron_id patron_id = false →
       books (library w) !! book_id = Some book →
       0 < bk_available_copies book →
       active_loan_count patron_id (library w) < 5 →
       List.find (active_loan_of patron_id book_id) (borrow_records (library w)) = Some r →
       borrow_book_by_patron patron_id book_id w
       = (Return (false, "You already have this book checked out."), w))
  ∧ (∀ book : Book,
       invalid_patron_id patron_id = false →
       books (library w) !! book_id = Some book →
       0 < bk_available_copies book →
       active_loan_count patron_id (library w) = 5 →
       borrow_book_by_patron patron_id book_id w
       = (Return (false, "You have reached the maximum borrowing limit of 5 books."), w)).
Proof.
  unfold active_loan_count.
  assert (Hlimit : ∀ book : Book,
       invalid_patron_id patron_id = false →
       books (library w) !! book_id = Some book →
       0 < bk_available_copies book →
       5 <= Z.of_nat (length (List.filter (active_of_patron patron_id)
                                 (borrow_records (library w)))) →
       borrow_book_by_patron patron_id book_id w
       = (Return (false, "You have reached the maximum borrowing limit of 5 books."), w)).
  { intros book Hp Hb Ha Hc.
    unfold borrow_book_by_patron. unfold_storage. run. rewrite Hp, Hb.
    destruct (Z.leb_spec (bk_available_copies book) 0); [lia|].
    destruct (Z.leb_spec 5 (Z.of_nat (length (List.filter (active_of_patron patron_id)
                                               (borrow_records (library w)))))); [done|lia]. }
  repeat split.
  - intros Hp. unfold borrow_book_by_patron. now rewrite Hp.
  - intros Hp Hb. unfold borrow_book_by_patron. unfold_storage. run.
    now rewrite Hp, Hb.
  - intros book Hp Hb Ha. unfold borrow_book_by_patron. unfold_storage. run.
    rewrite Hp, Hb.
    destruct (Z.leb_spec (bk_available_copies book) 0); [done|lia].
  - exact Hlimit.
  - intros book r Hp Hb Ha Hc Hr.
    unfold borrow_book_by_patron. unfold_storage. run. rewrite Hp, Hb.
    destruct (Z.leb_spec (bk_available_copies book) 0); [lia|].
    destruct (Z.leb_spec 5 (Z.of_nat (length (List.filter (active_of_patron patron_id)
                                               (borrow_records (library w)))))); [lia|].
    now rewrite Hr.
  - intros book Hp Hb Ha Hc. apply (Hlimit book Hp Hb Ha). lia.
Qed.

(** ** Properties of returning *)

Lemma close_record_inactive (patron_id : string) (book_id : Z) (t : datetime)
    (r : BorrowRecord) :
  active_loan_of patron_id book_id (close_record patron_id book_id t r) = false.
Proof.
  unfold close_record.
  destruct (active_loan_of patron_id book_id r) eqn:E; [|exact E].
  unfold active_loan_of; cbn. now rewrite andb_false_r.
Qed.

Lemma filter_closed (patron_id : string) (book_id : Z) (t : datetime)
    (l : list BorrowRecord) :
  List.filter (active_loan_of patron_id book_id)
    (map (close_record patron_id book_id t) l) = [].
Proof.
  induction l as [|r l IH]; cbn; [done|].
  now rewrite close_record_inactive.
Qed.

(** C3 (amended): when [return_book_by_patron] succeeds, the book has
    exactly one available copy more than before and the (patron, book) pair
    has no active record left.  The fee is the fee at the instant the call
    read the clock, for the due date of the record it found, and is never
    negative.  When it is positive the message gives the amount with two
    decimals and the days overdue; when it is zero the message says
    [No late fee.] and gives no amount. *)
Theorem C3_return_success (patron_id : string) (book_id : Z) (msg : string)
    (w w' : World) :
  return_book_by_patron patron_id book_id w = (Return (true, msg), w') →
  ∃ (book : Book) (r : BorrowRecord) (d : datetime),
    books (library w) !! book_id = Some book
    ∧ List.find (active_loan_of patron_id book_id) (borrow_records (library w)) = Some r
    ∧ resolve (column (br_due_date r)) = Some d
    ∧ bk_available_copies <$> books (library w') !! book_id
      = Some (bk_available_copies book + 1)
    ∧ List.filter (active_loan_of patron_id book_id) (borrow_records (library w')) = []
    ∧ let days := whole_days_overdue d (clock w (ticks w)) in
      let fee := round2 (tiered_fee days) in
      (0 <= fee)%Q
      ∧ msg = if gt fee 0%Q
              then "Book returned: " +:+ dq +:+ bk_title book +:+ dq
                   +:+ ". Late fee: $" +:+ format_2f fee
                   +:+ " (" +:+ str_of_int days +:+ " days overdue)."
              else "Book returned: " +:+ dq +:+ bk_title book +:+ dq
                   +:+ ". No late fee.".
Proof.
  unfold return_book_by_patron. unfold_storage. run.
  intros H.
  destruct (invalid_patron_id patron_id); [done|].
  destruct (book_id =? 0); [done|].
  destruct (books (library w) !! book_id) as [book|] eqn:Hbook; [|by case_match].
  destruct (List.find (active_loan_of patron_id book_id) (borrow_records (library w)))
    as [r|] eqn:Hfind; [|done].
  cbn in H. rewrite calculate_explicit in H.
  destruct (resolve (column (br_due_date r))) as [d|] eqn:Hdue; [|done].
  cbn in H.
  destruct (hd true (storage_faults w)); cbn in H; [|done].
  destruct (hd true (tail (storage_faults w))); cbn in H; [|done].
  exists book, r, d.
  assert (Hfee := tiered_fee_nonneg _ (whole_days_overdue_nonneg d (clock w (ticks w)))).
  destruct (gt (round2 (tiered_fee (whole_days_overdue d (clock w (ticks w))))) 0%Q);
    simplify_eq; cbn; rewrite lookup_alter_eq, Hbook, filter_closed; done.
Qed.

(** ** Partial failure of the two-step mutations *)

Lemma close_record_id (patron_id : string) (book_id : Z) (t : datetime)
    (l : list BorrowRecord) :
  List.find (active_loan_of patron_id book_id) l = None →
  map (close_record patron_id book_id t) l = l.
Proof.
  induction l as [|r l IH]; cbn; [done|].
  unfold close_record at 1.
  destruct (active_loan_of patron_id book_id r); [done|].
  intros H. now rewrite IH.
Qed.


(** ** The invariant on copies *)

(** The library after a borrow: unchanged; or the new record with the
    decrement; or the new record closed by the compensation; or, when the
    compensation fails too, the new record left active. *)
Lemma borrow_library_cases (patron_id : string) (book_id : Z) (w : World) :
  let w' := (borrow_book_by_patron patron_id book_id w).2 in
  library w' = library w
  ∨ (∃ book : Book,
       books (library w) !! book_id = Some book ∧ 0 < bk_available_copies book
       ∧ library w'
         = mkLibrary (alter decrement book_id (books (library w)))
             (borrow_records (library w) ++ [new_record patron_id book_id w]))
  ∨ (∃ t : datetime,
       library w'
       = mkLibrary (books (library w))
           (map (close_record patron_id book_id t)
              (borrow_records (library w) ++ [new_record patron_id book_id w])))
  ∨ (double_fault patron_id book_id w
     ∧ library w'
       = mkLibrary (books (library w))
           (borrow_records (library w) ++ [new_record patron_id book_id w])).
Proof.
  unfold double_fault, passes_validation, active_loan_count.
  unfold borrow_book_by_patron, new_record. unfold_storage. run.
  destruct (invalid_patron_id patron_id); [by left|].
  destruct (books (library w) !! book_id) as [book|] eqn:Hbook; [|by left].
  destruct (Z.leb_spec (bk_available_copies book) 0); [by left|].
  destruct (Z.leb_spec 5 (Z.of_nat (length (List.filter (active_of_patron patron_id)
                                             (borrow_records (library w))))));
    [by left|].
  destruct (List.find _ _); [by left|]. cbn.
  destruct (storage_faults w) as [|[] [|[] fs]] eqn:Hf; cbn;
    try (by left); try (right; left; by exists book).
  destruct fs as [|[] fs]; cbn.
  - right; right; left. by eexists.
  - right; right; left. by eexists.
  - right; right; right. split; [|done]. split; [|by exists fs].
    rewrite !andb_true_iff. repeat split; [by apply Z.ltb_lt..].
Qed.

Lemma close_record_inactive_book (id : Z) (patron_id : string) (book_id : Z)
    (t : datetime) (r : BorrowRecord) :
  active_loan_of patron_id book_id r = true →
  active_on_book id (close_record patron_id book_id t r) = false.
Proof.
  intros E. unfold close_record. rewrite E.
  unfold active_on_book; cbn. now rewrite andb_false_r.
Qed.

(** The library after a return: unchanged; or the pair's record closed
    without the increment; or the record closed and the increment made. *)
Lemma return_library_cases (patron_id : string) (book_id : Z) (w : World) :
  let w' := (return_book_by_patron patron_id book_id w).2 in
  library w' = library w
  ∨ (∃ (r : BorrowRecord) (t : datetime),
       List.find (active_loan_of patron_id book_id) (borrow_records (library w)) = Some r
       ∧ library w'
         = mkLibrary (books (library w))
             (map (close_record patron_id book_id t) (borrow_records (library w))))
  ∨ (∃ (book : Book) (r : BorrowRecord) (t : datetime),
       books (library w) !! book_id = Some book
       ∧ List.find (active_loan_of patron_id book_id) (borrow_records (library w)) = Some r
       ∧ library w'
         = mkLibrary (alter increment book_id (books (library w)))
             (map (close_record patron_id book_id t) (borrow_records (library w)))).
Proof.
  unfold return_book_by_patron. unfold_storage. run.
  destruct (invalid_patron_id patron_id); [by left|].
  destruct (book_id =? 0); [by left|].
  destruct (books (library w) !! book_id) as [book|] eqn:Hbook;
    [|case_match; by left].
  destruct (List.find _ _) as [r|] eqn:Hfind; [|by left]. cbn.
  rewrite calculate_explicit.
  destruct (resolve _); [|by left]. cbn.
  destruct (storage_faults w) as [|[] [|[] fs]] eqn:Hf; cbn;
    try (by left);
    try (right; left; by exists r, (clock w (ticks w)));
    right; right; exists book, r, (clock w (ticks w)); by case_match.
Qed.

Lemma active_count_app (id : Z) (bs : gmap Z Book) (l1 l2 : list BorrowRecord) :
  active_count id (mkLibrary bs (l1 ++ l2))
  = active_count id (mkLibrary bs l1) + active_count id (mkLibrary bs l2).
Proof.
  unfold active_count; cbn. rewrite List.filter_app, length_app. lia.
Qed.

Lemma active_on_book_close (id : Z) (patron_id : string) (book_id : Z)
    (t : datetime) (r : BorrowRecord) :
  active_on_book id (close_record patron_id book_id t r) = true →
  active_on_book id r = true.
Proof.
  unfold close_record.
  destruct (active_loan_of patron_id book_id r); [|done].
  unfold active_on_book; cbn. now rewrite andb_false_r.
Qed.

(** Closing records never adds an active one. *)
Lemma active_count_close_le (id : Z) (bs bs' : gmap Z Book) (patron_id : string)
    (book_id : Z) (t : datetime) (l : list BorrowRecord) :
  active_count id (mkLibrary bs (map (close_record patron_id book_id t) l))
  <= active_count id (mkLibrary bs' l).
Proof.
  unfold active_count; cbn. apply inj_le.
  induction l as [|r l IH]; cbn; [done|].
  destruct (active_on_book id (close_record patron_id book_id t r)) eqn:E.
  - rewrite (active_on_book_close _ _ _ _ _ E). cbn. lia.
  - destruct (active_on_book id r); cbn; lia.
Qed.

(** Closing the records of a pair that has an active one removes at least
    one active record of the book. *)
Lemma active_count_close_lt (bs bs' : gmap Z Book) (patron_id : string)
    (book_id : Z) (t : datetime) (l : list BorrowRecord) (r : BorrowRecord) :
  List.find (active_loan_of patron_id book_id) l = Some r →
  active_count book_id (mkLibrary bs (map (close_record patron_id book_id t) l))
  < active_count book_id (mkLibrary bs' l).
Proof.
  intros Hfind.
  pose proof (active_count_close_le book_id bs bs' patron_id book_id t) as Hle.
  unfold active_count in *; cbn in *. apply inj_lt.
  induction l as [|x l IH]; cbn in *; [done|].
  destruct (active_loan_of patron_id book_id x) eqn:E.
  - rewrite close_record_inactive_book by exact E.
    assert (active_on_book book_id x = true) as ->.
    { unfold active_loan_of in E. unfold active_on_book.
      apply andb_true_iff in E as [E1 E2]. apply andb_true_iff in E1 as [_ E1].
      now rewrite E1, E2. }
    cbn. specialize (Hle l). lia.
  - unfold close_record at 1. rewrite E.
    destruct (active_on_book book_id x); cbn; specialize (IH Hfind); lia.
Qed.

Lemma active_count_new (id : Z) (bs : gmap Z Book) (patron_id : string)
    (book_id : Z) (w : World) :
  active_count id (mkLibrary bs [new_record patron_id book_id w])
  = if book_id =? id then 1 else 0.
Proof.
  unfold active_count, active_on_book; cbn. now destruct (book_id =? id).
Qed.

Lemma active_count_nonneg (id : Z) (lib : Library) : 0 <= active_count id lib.
Proof. unfold active_count. lia. Qed.

Lemma covered_borrow (patron_id : string) (book_id : Z) (w : World) :
  covered (library w) →
  ¬ double_fault patron_id book_id w →
  covered (library (borrow_book_by_patron patron_id book_id w).2).
Proof.
  intros Hcov Hcomp.
  destruct (borrow_library_cases patron_id book_id w)
    as [H|[(book & Hb & Ha & H)|[(t & H)|(Hf & H)]]]; rewrite H; clear H.
  - exact Hcov.
  - intros id bk Hlook; cbn in Hlook.
    rewrite active_count_app, active_count_new.
    destruct (decide (book_id = id)) as [->|Hne].
    + rewrite lookup_alter_eq, Hb in Hlook. cbn in Hlook. injection Hlook as <-. cbn.
      rewrite Z.eqb_refl. destruct (Hcov id book Hb) as [Hbd Hac].
      unfold active_count in *; cbn in *. lia.
    + rewrite lookup_alter_ne in Hlook by done.
      apply Z.eqb_neq in Hne. rewrite Hne.
      destruct (Hcov id bk Hlook) as [Hbd Hac].
      unfold active_count in *; cbn in *. lia.
  - intros id bk Hlook; cbn in Hlook.
    destruct (Hcov id bk Hlook) as [Hbd Hac]. split; [done|].
    rewrite map_app, active_count_app.
    pose proof (active_count_close_le id (books (library w)) (books (library w))
                  patron_id book_id t (borrow_records (library w))) as Hle.
    assert (active_count id
              (mkLibrary (books (library w))
                 (map (close_record patron_id book_id t)
                    [new_record patron_id book_id w])) = 0) as ->.
    { unfold active_count. cbn [borrow_records map List.filter].
      rewrite close_record_inactive_book; [done|apply active_loan_of_new]. }
    unfold active_count in *; cbn in *. lia.
  - destruct (Hcomp Hf).
Qed.

Lemma covered_return (patron_id : string) (book_id : Z) (w : World) :
  covered (library w) →
  covered (library (return_book_by_patron patron_id book_id w).2).
Proof.
  intros Hcov.
  destruct (return_library_cases patron_id book_id w)
    as [H|[(r & t & Hfind & H)|(book & r & t & Hb & Hfind & H)]]; rewrite H; clear H.
  - exact Hcov.
  - intros id bk Hlook; cbn in Hlook.
    destruct (Hcov id bk Hlook) as [Hbd Hac]. split; [done|].
    pose proof (active_count_close_le id (books (library w)) (books (library w))
                  patron_id book_id t (borrow_records (library w))) as Hle.
    unfold active_count in *; cbn in *. lia.
  - intros id bk Hlook; cbn in Hlook.
    destruct (decide (book_id = id)) as [->|Hne].
    + rewrite lookup_alter_eq, Hb in Hlook. cbn in Hlook. injection Hlook as <-. cbn.
      destruct (Hcov id book Hb) as [Hbd Hac].
      pose proof (active_count_close_lt (alter increment id (books (library w)))
                    (books (library w)) patron_id id t _ r Hfind) as Hlt.
      pose proof (active_count_nonneg id
                    (mkLibrary (alter increment id (books (library w)))
                       (map (close_record patron_id id t) (borrow_records (library w)))))
        as Hnn.
      unfold active_count in *; cbn in *. lia.
    + rewrite lookup_alter_ne in Hlook by done.
      destruct (Hcov id bk Hlook) as [Hbd Hac]. split; [done|].
      pose proof (active_count_close_le id (alter increment book_id (books (library w)))
                    (books (library w)) patron_id book_id t (borrow_records (library w)))
        as Hle.
      unfold active_count in *; cbn in *. lia.
Qed.

Lemma covered_run_ops (ops : list operation) (w : World) :
  covered (library w) → compensated ops w → covered (library (run_ops ops w)).
Proof.
  revert w. induction ops as [|op ops IH]; intros w Hcov Hcomp; cbn; [done|].
  destruct Hcomp as [Hop Hrest]. apply IH; [|exact Hrest].
  destruct op; cbn; [now apply covered_borrow|now apply covered_return].
Qed.

Lemma compensated_take (n : nat) (ops : list operation) (w : World) :
  compensated ops w → compensated (take n ops) w.
Proof.
  revert ops w. induction n as [|n IH]; intros [|op ops] w; cbn; try done.
  intros [Hop Hrest]. split; [done|]. now apply IH.
Qed.

(** C6 (amended): from a valid state, after every operation of every
    sequence of borrows and returns, successful or failed, every book has
    [0 <= available_copies <= total_copies], provided no borrow of the
    sequence has both its decrement and its compensating close fail. *)
Theorem C6_copies_within_bounds (ops : list operation) (w : World) (n : nat) :
  valid_state (library w) →
  compensated ops w →
  within_bounds (library (run_ops (take n ops) w)).
Proof.
  intros Hvalid Hcomp.
  assert (Hcov : covered (library w)).
  { intros id bk Hlook. destruct (Hvalid id bk Hlook) as [Hbd Heq]. split; [done|lia]. }
  pose proof (covered_run_ops (take n ops) w Hcov (compensated_take n ops w Hcomp)) as H.
  intros id bk Hlook. now destruct (H id bk Hlook).
Qed.

(** ** Properties of paying and refunding *)

(** The calculator leaves the library, the storage and the gateway log as
    they are: at most it reads the clock. *)
Lemma calculate_frame (patron_id : string) (book_id : Z) (borrow_record : option due_entry)
    (now : option pyts) (w : World) :
  let w' := (calculate_late_fee_for_book patron_id book_id borrow_record now w).2 in
  library w' = library w
  ∧ gateway_calls w' = gateway_calls w
  ∧ storage_faults w' = storage_faults w.
Proof.
  unfold calculate_late_fee_for_book, get_borrow_record. run.
  destruct borrow_record as [[[t|s]|]|], now as [[n|n]|]; run;
    repeat case_match; simplify_eq; run; done.
Qed.

(** C7: whenever the fee computed for the pair is at most 0,
    [pay_late_fees] fails and the gateway is not called; with a well-formed
    patron id the failure is the one that says no fee is due. *)
Theorem C7_no_fee_no_gateway (patron_id : string) (book_id : Z)
    (payment_gateway : option PaymentGateway) (q : FeeQuote) (w w1 : World) :
  calculate_late_fee_for_book patron_id book_id None None w = (Return q, w1) →
  (fee_amount q <= 0)%Q →
  ∃ (msg : string) (w' : World),
    pay_late_fees patron_id book_id payment_gateway w = (Return (false, msg, None), w')
    ∧ gateway_calls w' = gateway_calls w
    ∧ (invalid_patron_id patron_id = false →
       msg = "No late fees to pay for this book." ∧ w' = w1).
Proof.
  intros Hcalc Hfee. unfold pay_late_fees.
  destruct (invalid_patron_id patron_id).
  - eexists _, w. by repeat split.
  - run. rewrite Hcalc. cbn.
    apply Qle_bool_iff in Hfee. unfold le. rewrite Hfee. cbn.
    exists "No late fees to pay for this book.", w1. repeat split.
    pose proof (calculate_frame patron_id book_id None None w) as Hframe.
    rewrite Hcalc in Hframe. now destruct Hframe as (_ & Hg & _).
Qed.

(** C8: [refund_late_fee_payment] fails without calling the gateway when
    the transaction id is empty or lacks the prefix [txn_], or the amount
    is at most 0 or above 15.00; otherwise it calls the gateway's
    [refund_payment] exactly once, with the id and the amount, passes a
    success through, and turns a reported failure or a raised fault into a
    failure result. *)
Theorem C8_refund_validation (transaction_id : string) (amount : float)
    (payment_gateway : option PaymentGateway) (w : World) :
  (transaction_id = "" ∨ String.prefix "txn_" transaction_id = false
   ∨ (amount <= 0)%Q ∨ (15.00 < amount)%Q →
   ∃ msg : string,
     refund_late_fee_payment transaction_id amount payment_gateway w
     = (Return (false, msg), w))
  ∧ (transaction_id ≠ "" → String.prefix "txn_" transaction_id = true →
     (0 < amount)%Q → (amount <= 15.00)%Q →
     ∃ w' : World,
       refund_late_fee_payment transaction_id amount payment_gateway w
       = (Return (refund_result
                    (refund_payment (default default_gateway payment_gateway)
                       transaction_id amount)), w')
       ∧ gateway_calls w' = (gateway_calls w ++ [RefundPayment transaction_id amount])%list
       ∧ library w' = library w).
Proof.
  unfold refund_late_fee_payment, call_refund_payment, le, gt. split.
  - intros Hrej.
    destruct (String.eqb_spec transaction_id "") as [->|Hne]; cbn; [by eexists|].
    destruct (String.prefix "txn_" transaction_id) eqn:Hpre; cbn; [|by eexists].
    destruct (Qle_bool amount 0) eqn:Hle; cbn; [by eexists|].
    destruct (Qle_bool amount 15.00) eqn:Hcap; cbn; [|by eexists].
    destruct Hrej as [H|[H|[H|H]]]; try done.
    + apply Qle_bool_iff in H. congruence.
    + apply Qle_bool_iff in Hcap. apply Qlt_not_le in H. done.
  - intros Hne Hpre Hpos Hcap.
    destruct (String.eqb_spec transaction_id "") as [->|_]; [done|]. cbn.
    rewrite Hpre. cbn.
    destruct (Qle_bool amount 0) eqn:Hle.
    { apply Qle_bool_iff in Hle. apply Qlt_not_le in Hpos. done. }
    apply Qle_bool_iff in Hcap. rewrite Hcap. run.
    unfold refund_result.
    destruct (refund_payment _ _ _) as [[[] message]|e]; by eexists.
Qed.

(** C10: whatever their inputs and whatever comes of them, a validation
    failure, an exception of the fee calculator, no fee due, a missing
    book, or a gateway that accepts, declines or raises, [pay_late_fees]
    and [refund_late_fee_payment] leave the books and the borrow records
    exactly as they were. *)
Theorem C10_payments_frame (patron_id : string) (book_id : Z)
    (transaction_id : string) (amount : float)
    (payment_gateway : option PaymentGateway) (w : World) :
  library (pay_late_fees patron_id book_id payment_gateway w).2 = library w
  ∧ library (refund_late_fee_payment transaction_id amount payment_gateway w).2
    = library w.
Proof.
  split.
  - unfold pay_late_fees, call_process_payment, get_book_by_id.
    destruct (invalid_patron_id patron_id); [done|]. run.
    pose proof (calculate_frame patron_id book_id None None w) as (Hlib & _).
    destruct (calculate_late_fee_for_book patron_id book_id None None w) as [[q|e] w1];
      cbn in *; [|done].
    destruct (le (fee_amount q) 0%Q); [done|]. cbn.
    destruct (books (library w1) !! book_id); [|done]. cbn.
    destruct (process_payment _ _ _ _) as [[[[] txn] message]|e]; done.
  - unfold refund_late_fee_payment, call_refund_payment.
    repeat (case_match; try done); run;
      destruct (refund_payment _ _ _) as [[[] message]|e]; done.
Qed.

(** ** Properties of the status report *)

(** X4: for a history row of an active loan, the snapshot is the fee at the
    report's [now]. *)
Lemma history_entry_active (patron_id : string) (now due : datetime)
    (d : history_row) (w : World) :
  hrow_return_date d = None →
  resolve (hrow_due_date d) = Some due →
  ∃ e : HistoryEntry,
    history_entry_of patron_id now d w = (Return e, w)
    ∧ he_days_overdue_at_end e = whole_days_overdue due now
    ∧ he_late_fee_at_end e = round2 (tiered_fee (whole_days_overdue due now)).
Proof.
  intros Hret Hdue. unfold history_entry_of, try_except_TypeError.
  rewrite Hret. run. rewrite calculate_explicit, Hdue. by eexists.
Qed.

(** X3: for a history row whose return date comes back as a [datetime],
    the snapshot is the fee at the return date. *)
Lemma history_entry_returned (patron_id : string) (now due t : datetime)
    (d : history_row) (w : World) :
  hrow_return_date d = Some (DT t) →
  resolve (hrow_due_date d) = Some due →
  ∃ e : HistoryEntry,
    history_entry_of patron_id now d w = (Return e, w)
    ∧ he_days_overdue_at_end e = whole_days_overdue due t
    ∧ he_late_fee_at_end e = round2 (tiered_fee (whole_days_overdue due t)).
Proof.
  intros Hret Hdue. unfold history_entry_of, try_except_TypeError.
  rewrite Hret. run. rewrite calculate_explicit, Hdue. by eexists.
Qed.

(** X7: for a history row whose return date comes back as text, the
    subtraction [now - due] raises [TypeError] on the text, the handler takes
    over, and the snapshot is 0 whatever the dates. *)
Lemma history_entry_returned_text (patron_id : string) (now due : datetime)
    (s : string) (d : history_row) (w : World) :
  hrow_return_date d = Some (Str s) →
  s ≠ "" →
  resolve (hrow_due_date d) = Some due →
  ∃ e : HistoryEntry,
    history_entry_of patron_id now d w = (Return e, w)
    ∧ he_days_overdue_at_end e = 0
    ∧ he_late_fee_at_end e = 0%Q.
Proof.
  intros Hret Hs Hdue. unfold history_entry_of, try_except_TypeError.
  rewrite Hret. cbn [truthy].
  destruct (String.eqb_spec s "") as [|_]; [done|]. cbn [negb default].
  unfold calculate_late_fee_for_book. run.
  destruct (hrow_due_date d) as [t|s']; cbn in Hdue; run.
  - by eexists.
  - rewrite Hdue. run. by eexists.
Qed.

Lemma for_each_Forall2 {A B : Type} (f : A → M B) (xs : list A) (ys : list B)
    (w w' : World) :
  for_each f xs w = (Return ys, w') →
  Forall2 (λ x y, ∃ w1 w2 : World, f x w1 = (Return y, w2)) xs ys.
Proof.
  revert ys w. induction xs as [|x xs IH]; intros ys w; cbn.
  - unfold mret, M_ret. intros H. simplify_eq. constructor.
  - unfold mbind, M_bind.
    destruct (f x w) as [[y|e] w1] eqn:Hx; [|done].
    destruct (for_each f xs w1) as [[ys'|e] w2] eqn:Hxs; [|done].
    unfold mret, M_ret. intros H. simplify_eq.
    constructor; [by exists w, w1|by eapply IH].
Qed.

Lemma for_each_frame {A B : Type} (f : A → M B) :
  (∀ (x : A) (w : World), library (f x w).2 = library w) →
  ∀ (xs : list A) (w : World), library (for_each f xs w).2 = library w.
Proof.
  intros Hf xs. induction xs as [|x xs IH]; intros w; cbn; [done|].
  unfold mbind, M_bind.
  pose proof (Hf x w) as Hx.
  destruct (f x w) as [[y|e] w1]; cbn in Hx; [|done].
  pose proof (IH w1) as Hxs.
  destruct (for_each f xs w1) as [[ys|e] w2]; cbn in *; congruence.
Qed.

Lemma current_loan_frame (patron_id : string) (now : datetime) (a : loan_row)
    (w : World) :
  library (current_loan_of patron_id now a w).2 = library w.
Proof.
  unfold current_loan_of, try_except_TypeError. run.
  pose proof (calculate_frame patron_id (loan_book_id a) None None w) as (H1 & _).
  destruct (calculate_late_fee_for_book patron_id (loan_book_id a) None None w)
    as [[q|[]] w1]; cbn in *; try done.
  pose proof (calculate_frame patron_id (loan_book_id a)
                (Some (Some (loan_due_date a))) (Some (DT now)) w1) as (H2 & _).
  destruct (calculate_late_fee_for_book patron_id (loan_book_id a)
              (Some (Some (loan_due_date a))) (Some (DT now)) w1) as [[q|e] w2];
    cbn in *; congruence.
Qed.

(** ** Properties of the catalog *)

Lemma blank_check (text : string) :
  (String.eqb text "" || String.eqb (strip text) "") = String.eqb (strip text) "".
Proof. destruct text; reflexivity. Qed.

Lemma next_book_id_above (catalog : gmap Z Book) (id : Z) (book : Book) :
  catalog !! id = Some book → id < next_book_id catalog.
Proof.
  unfold next_book_id. revert id book.
  apply (map_fold_weak_ind
           (fun largest (m : gmap Z Book) =>
              ∀ id book, m !! id = Some book → id < 1 + largest)).
  - intros id book Hlook. by rewrite lookup_empty in Hlook.
  - intros i x m largest Hfresh IH id book Hlook.
    destruct (decide (i = id)) as [->|Hne].
    + lia.
    + rewrite lookup_insert_ne in Hlook by done.
      specialize (IH id book Hlook). lia.
Qed.

Lemma next_book_id_fresh (catalog : gmap Z Book) : catalog !! next_book_id catalog = None.
Proof.
  destruct (catalog !! next_book_id catalog) as [book|] eqn:Hlook; [|done].
  apply next_book_id_above in Hlook. lia.
Qed.

Lemma find_isbn_none (isbn : string) (catalog : gmap Z Book) :
  List.find (has_isbn isbn) (map_to_list catalog) = None →
  ∀ (id : Z) (book : Book), catalog !! id = Some book → bk_isbn book ≠ isbn.
Proof.
  intros Hfind id book Hlook Heq.
  apply elem_of_map_to_list, list_elem_of_In in Hlook.
  pose proof (List.find_none _ _ Hfind _ Hlook) as Hno.
  unfold has_isbn in Hno; cbn in Hno.
  apply String.eqb_neq in Hno. done.
Qed.

(** X9: [add_book_to_catalog] checks, in this order, that the title is not
    blank, that the stripped title has at most 200 characters, the same for
    the author with 100, that the ISBN is 13 digits, that the copies are
    positive, and that no book has the ISBN.  The first check that fails
    decides the message and the world is left as it was: nothing is written
    and, before the last check, nothing is read. *)
Theorem add_book_validation_order (title author isbn : string) (total_copies : Z)
    (w : World) :
  (strip title = "" →
   add_book_to_catalog title author isbn total_copies w
   = (Return (false, "Title is required."), w))
  ∧ (strip title ≠ "" → (200 < len (strip title))%nat →
     add_book_to_catalog title author isbn total_copies w
     = (Return (false, "Title must be less than 200 characters."), w))
  ∧ (accepted_text 200 title → strip author = "" →
     add_book_to_catalog title author isbn total_copies w
     = (Return (false, "Author is required."), w))
  ∧ (accepted_text 200 title → strip author ≠ "" →
     (100 < len (strip author))%nat →
     add_book_to_catalog title author isbn total_copies w
     = (Return (false, "Author must be less than 100 characters."), w))
  ∧ (accepted_text 200 title → accepted_text 100 author →
     len isbn ≠ 13%nat ∨ isdigit isbn = false →
     add_book_to_catalog title author isbn total_copies w
     = (Return (false, "ISBN must be exactly 13 digits."), w))
  ∧ (accepted_text 200 title → accepted_text 100 author → accepted_isbn isbn →
     total_copies <= 0 →
     add_book_to_catalog title author isbn total_copies w
     = (Return (false, "Total copies must be a positive integer."), w))
  ∧ (∀ (id : Z) (book : Book),
       accepted_text 200 title → accepted_text 100 author → accepted_isbn isbn →
       0 < total_copies →
       books (library w) !! id = Some book → bk_isbn book = isbn →
       add_book_to_catalog title author isbn total_copies w
       = (Return (false, "A book with this ISBN already exists."), w)).
Proof.
  unfold accepted_text, accepted_isbn, add_book_to_catalog.
  rewrite !blank_check.
  assert (Hlen : ∀ (n : nat) (text : string),
            (len text <= n)%nat → Nat.ltb n (len text) = false).
  { intros n text H. apply Nat.ltb_ge. exact H. }
  repeat split.
  - intros ->. done.
  - intros Ht Hl. apply String.eqb_neq in Ht. rewrite Ht.
    apply Nat.ltb_lt in Hl. by rewrite Hl.
  - intros [Ht Hl] ->. apply String.eqb_neq in Ht. by rewrite Ht, (Hlen _ _ Hl).
  - intros [Ht Hl] Ha Hal. apply String.eqb_neq in Ht, Ha.
    rewrite Ht, (Hlen _ _ Hl), Ha. apply Nat.ltb_lt in Hal. by rewrite Hal.
  - intros [Ht Hl] [Ha Hal] Hisbn. apply String.eqb_neq in Ht, Ha.
    rewrite Ht, (Hlen _ _ Hl), Ha, (Hlen _ _ Hal).
    destruct Hisbn as [Hn|Hd].
    + apply Nat.eqb_neq in Hn. by rewrite Hn.
    + rewrite Hd. by rewrite orb_true_r.
  - intros [Ht Hl] [Ha Hal] [Hn Hd] Hc. apply String.eqb_neq in Ht, Ha.
    rewrite Ht, (Hlen _ _ Hl), Ha, (Hlen _ _ Hal), Hn, Hd. cbn.
    apply Z.leb_le in Hc. by rewrite Hc.
  - intros id book [Ht Hl] [Ha Hal] [Hn Hd] Hc Hlook Hsame.
    apply String.eqb_neq in Ht, Ha.
    rewrite Ht, (Hlen _ _ Hl), Ha, (Hlen _ _ Hal), Hn, Hd. cbn.
    destruct (Z.leb_spec total_copies 0); [lia|].
    unfold get_book_by_isbn. run.
    destruct (List.find (has_isbn isbn) (map_to_list (books (library w))))
      as [row|] eqn:Hfind; [done|].
    destruct (find_isbn_none _ _ Hfind id book Hlook Hsame).
Qed.

(** Follows a successful [add_book_to_catalog] through its checks: what is
    left is the world after the insert, with the facts that the checks
    established. *)
Ltac add_book_succeeded H title author isbn total_copies w :=
  unfold add_book_to_catalog in H;
  rewrite !blank_check in H;
  destruct (String.eqb_spec (strip title) "") as [|Ht]; [done|];
  destruct (Nat.ltb_spec 200 (len (strip title))) as [|Hl]; [done|];
  destruct (String.eqb_spec (strip author) "") as [|Ha]; [done|];
  destruct (Nat.ltb_spec 100 (len (strip author))) as [|Hal]; [done|];
  destruct (Nat.eqb_spec (len isbn) 13) as [Hn|]; [|done];
  destruct (isdigit isbn) eqn:Hd; [|done]; cbn in H;
  destruct (Z.leb_spec total_copies 0) as [|Hc]; [done|];
  unfold get_book_by_isbn, insert_book, storage_write in H;
  unfold mbind, mret, M_bind, M_ret, get_library in H; cbn in H;
  destruct (List.find (has_isbn isbn) (map_to_list (books (library w))))
    as [row|] eqn:Hfind; [done|]; cbn in H;
  destruct (hd true (storage_faults w)); [|done]; cbn in H;
  simplify_eq; cbn.

(** X10: when [add_book_to_catalog] succeeds, the catalog has one book more,
    under an id that was free: it holds the stripped title and author, the
    ISBN, and as many available copies as total copies.  The inputs were
    acceptable, no book had the ISBN, every other book is as it was, and so
    are the borrow records. *)
Theorem add_book_success (title author isbn : string) (total_copies : Z) (msg : string)
    (w w' : World) :
  add_book_to_catalog title author isbn total_copies w = (Return (true, msg), w') →
  ∃ id : Z,
    books (library w) !! id = None
    ∧ books (library w')
      = <[id := mkBook (strip title) (strip author) isbn total_copies total_copies]>
          (books (library w))
    ∧ borrow_records (library w') = borrow_records (library w)
    ∧ accepted_text 200 title ∧ accepted_text 100 author ∧ accepted_isbn isbn
    ∧ 0 < total_copies
    ∧ (∀ (other : Z) (book : Book),
         books (library w) !! other = Some book → bk_isbn book ≠ isbn)
    ∧ msg = "Book " +:+ dq +:+ strip title +:+ dq
            +:+ " has been successfully added to the catalog.".
Proof.
  unfold accepted_text, accepted_isbn.
  intros H. add_book_succeeded H title author isbn total_copies w.
  exists (next_book_id (books (library w))).
  split; [apply next_book_id_fresh|].
  repeat split; try done. by apply find_isbn_none.
Qed.

(** The library after [add_book_to_catalog]: unchanged, or one book more
    under the next id, of an ISBN that no book had. *)
Lemma add_book_library_cases (title author isbn : string) (total_copies : Z) (w : World) :
  let w' := (add_book_to_catalog title author isbn total_copies w).2 in
  library w' = library w
  ∨ (0 < total_copies
     ∧ (∀ (other : Z) (book : Book),
          books (library w) !! other = Some book → bk_isbn book ≠ isbn)
     ∧ library w'
       = mkLibrary
           (<[next_book_id (books (library w))
              := mkBook (strip title) (strip author) isbn total_copies total_copies]>
              (books (library w)))
           (borrow_records (library w))).
Proof.
  unfold add_book_to_catalog.
  repeat (match goal with
          | |- context [if ?c then mret _ else _] => destruct c eqn:?; [by left|]
          end).
  unfold get_book_by_isbn, insert_book, storage_write. run.
  destruct (List.find (has_isbn isbn) (map_to_list (books (library w))))
    as [row|] eqn:Hfind; [by left|]. cbn.
  destruct (hd true (storage_faults w)); cbn; [|by left].
  right. repeat split; [lia|by apply find_isbn_none].
Qed.

Lemma active_count_unreferenced (id : Z) (lib : Library) :
  (∀ r : BorrowRecord, r ∈ borrow_records lib → br_book_id r ≠ id) →
  active_count id lib = 0.
Proof.
  unfold active_count. intros Hno.
  induction (borrow_records lib) as [|r l IH]; cbn; [done|].
  assert (active_on_book id r = false) as ->.
  { unfold active_on_book.
    assert (br_book_id r ≠ id) as Hne by (apply Hno; left).
    apply Z.eqb_neq in Hne. by rewrite Hne. }
  apply IH. intros r' Hr'. apply Hno. by right.
Qed.

(** X11: whatever its outcome, [add_book_to_catalog] keeps what the catalog
    had: ISBNs that are unique stay unique, records that all point to books
    still do, books within their bounds stay within them, and a valid state
    whose records all point to books stays valid. *)
Theorem add_book_keeps_invariants (title author isbn : string) (total_copies : Z)
    (w : World) :
  let lib' := library (add_book_to_catalog title author isbn total_copies w).2 in
  (isbn_unique (library w) → isbn_unique lib')
  ∧ (references_books (library w) → references_books lib')
  ∧ (within_bounds (library w) → within_bounds lib')
  ∧ (references_books (library w) → valid_state (library w) → valid_state lib').
Proof.
  cbn.
  destruct (add_book_library_cases title author isbn total_copies w)
    as [H|(Hc & Hnew & H)]; rewrite H; clear H; [done|].
  pose proof (next_book_id_fresh (books (library w))) as Hfresh.
  set (id := next_book_id (books (library w))) in *.
  split; [|split; [|split]].
  - intros Huniq i j b1 b2 H1 H2 Hsame. cbn in H1, H2.
    destruct (decide (id = i)) as [<-|Hi], (decide (id = j)) as [<-|Hj]; [done|..].
    + rewrite lookup_insert_eq in H1. rewrite lookup_insert_ne in H2 by done.
      simplify_eq. cbn in Hsame. destruct (Hnew j b2 H2). done.
    + rewrite lookup_insert_eq in H2. rewrite lookup_insert_ne in H1 by done.
      simplify_eq. cbn in Hsame. destruct (Hnew i b1 H1). done.
    + rewrite lookup_insert_ne in H1, H2 by done. by eapply Huniq.
  - intros Href r Hr. cbn in *. destruct (Href r Hr) as [b Hb].
    destruct (decide (id = br_book_id r)) as [Heq|Hne].
    + rewrite <- Heq, Hfresh in Hb. done.
    + rewrite lookup_insert_ne by done. by exists b.
  - intros Hbounds i book Hlook. cbn in Hlook.
    destruct (decide (id = i)) as [<-|Hi].
    + rewrite lookup_insert_eq in Hlook. simplify_eq. cbn. lia.
    + rewrite lookup_insert_ne in Hlook by done. by eapply Hbounds.
  - intros Href Hvalid i book Hlook. cbn in Hlook.
    destruct (decide (id = i)) as [<-|Hi].
    + rewrite lookup_insert_eq in Hlook. simplify_eq. cbn.
      split; [lia|].
      rewrite (active_count_unreferenced id
                 (mkLibrary (<[id := _]> (books (library w))) (borrow_records (library w)))).
      * lia.
      * intros r Hr Heq. cbn in Hr. destruct (Href r Hr) as [b Hb].
        rewrite Heq, Hfresh in Hb. done.
    + rewrite lookup_insert_ne in Hlook by done.
      destruct (Hvalid i book Hlook) as [Hbd Hac]. split; [done|].
      unfold active_count in *; cbn in *. done.
Qed.

(** *** Text helpers *)

(** Splitting a text into its characters loses nothing. *)
Lemma join_chars (s : string) : join (chars s) = s.
Proof.
  induction s as [|b rest IH]; cbn; [done|].
  destruct (chars rest) as [|c cs]; cbn in *; [by rewrite <- IH|].
  destruct (continues rest); cbn; by rewrite <- IH.
Qed.

(** No digit of the Unicode database is whitespace. *)
Lemma digit_not_space (n : N) : unicode_digit n = true → unicode_space n = false.
Proof.
  intros Hdigit. destruct (unicode_space n) eqn:Hspace; [|done].
  unfold unicode_space in Hspace. apply existsb_exists in Hspace as (k & Hin & Heq).
  apply N.eqb_eq in Heq. subst k. unfold whitespace in Hin. cbn in Hin.
  repeat (destruct Hin as [<-|Hin]; [by vm_compute in Hdigit|]). done.
Qed.

Lemma drop_spaces_none (cs : list string) :
  Forall (fun c => is_space c = false) cs → drop_spaces cs = cs.
Proof. destruct 1 as [|c cs Hc _]; [done|]. cbn [drop_spaces]. by rewrite Hc. Qed.

(** Stripping leaves a text of digits as it is. *)
Lemma strip_digits (s : string) : isdigit s = true → strip s = s.
Proof.
  unfold isdigit, strip. intros H. apply andb_true_iff in H as [_ H].
  assert (Hnone : Forall (fun c => is_space c = false) (chars s)).
  { apply List.Forall_forall. intros c Hc.
    apply digit_not_space. by apply (proj1 (forallb_forall _ _) H). }
  rewrite (drop_spaces_none _ Hnone).
  rewrite (drop_spaces_none _ (List.Forall_rev Hnone)).
  rewrite rev_involutive. apply join_chars.
Qed.

Lemma filter_permutation {A : Type} (f : A → bool) (l l' : list A) :
  l ≡ₚ l' → List.filter f l ≡ₚ List.filter f l'.
Proof.
  induction 1 as [|x l l' _ IH|x y l|l1 l2 l3 _ IH1 _ IH2]; cbn.
  - done.
  - destruct (f x); [by constructor|done].
  - destruct (f x), (f y); try done. apply perm_swap.
  - by etrans.
Qed.

Lemma filter_NoDup {A : Type} (f : A → bool) (l : list A) :
  NoDup l → NoDup (List.filter f l).
Proof.
  induction 1 as [|x l Hx _ IH]; cbn; [constructor|].
  destruct (f x); [|done]. constructor; [|done].
  intros Hin. apply Hx.
  apply list_elem_of_In, List.filter_In in Hin as [Hin _]. by apply list_elem_of_In.
Qed.

Lemma filter_catalog (f : book_row → bool) (catalog : gmap Z Book) (id : Z) (book : Book) :
  (id, book) ∈ List.filter f (map_to_list catalog)
  ↔ catalog !! id = Some book ∧ f (id, book) = true.
Proof.
  rewrite list_elem_of_In, List.filter_In, <- list_elem_of_In, elem_of_map_to_list.
  done.
Qed.

(** The three stages of the ISBN search come to one exact-match filter of
    the catalog. *)
Lemma search_isbn_eq (search_term search_type : string) (w : World) :
  lower (strip search_type) = "isbn" →
  search_books_in_catalog search_term search_type w
  = (Return (List.filter (has_isbn (strip search_term)) (map_to_list (books (library w)))),
     w).
Proof.
  intros Hty. unfold search_books_in_catalog, get_all_books, select_books_where_isbn,
    select_all_books.
  rewrite Hty. run.
  destruct (List.filter (has_isbn (strip search_term)) (map_to_list (books (library w))))
    as [|row rows] eqn:Hout; cbn; [|done].
  rewrite Hout. cbn. by rewrite Hout.
Qed.

(** X12: a book that [add_book_to_catalog] has just added is what the
    search by ISBN then finds, and all it finds: one row, with the id the
    book got, the stripped title and author, and all its copies available. *)
Theorem add_then_search_by_isbn (title author isbn : string) (total_copies : Z)
    (msg : string) (w w' : World) :
  add_book_to_catalog title author isbn total_copies w = (Return (true, msg), w') →
  ∃ id : Z,
    search_books_in_catalog isbn "isbn" w'
    = (Return [(id, mkBook (strip title) (strip author) isbn total_copies total_copies)], w')
    ∧ books (library w') !! id
      = Some (mkBook (strip title) (strip author) isbn total_copies total_copies).
Proof.
  intros H. add_book_succeeded H title author isbn total_copies w.
  exists (next_book_id (books (library w))).
  split; [|by rewrite lookup_insert_eq].
  rewrite search_isbn_eq by reflexivity. cbn.
  assert (Hstrip : strip isbn = isbn) by (by apply strip_digits).
  rewrite Hstrip. do 2 f_equal.
  apply Permutation_singleton_r.
  rewrite (filter_permutation _ _ _
             (map_to_list_insert _ _ _ (next_book_id_fresh (books (library w))))).
  pose proof (find_none_filter _ _ Hfind) as Hnone.
  cbn. unfold has_isbn at 1. cbn. rewrite String.eqb_refl.
  by setoid_rewrite Hnone.
Qed.

(** X13: the search by ISBN, under any spelling of the type that strips and
    lowers to [isbn], returns exactly the books of the catalog whose ISBN
    equals the stripped term, each once, and leaves the world as it was;
    where ISBNs are unique that is at most one book. *)
Theorem search_by_isbn_exact (search_term search_type : string) (w : World) :
  lower (strip search_type) = "isbn" →
  ∃ rows : list book_row,
    search_books_in_catalog search_term search_type w = (Return rows, w)
    ∧ NoDup rows
    ∧ (∀ (id : Z) (book : Book),
         (id, book) ∈ rows
         ↔ books (library w) !! id = Some book ∧ bk_isbn book = strip search_term)
    ∧ (isbn_unique (library w) → (length rows <= 1)%nat).
Proof.
  intros Hty. eexists. split; [by apply search_isbn_eq|].
  assert (Hnodup : NoDup (List.filter (has_isbn (strip search_term))
                            (map_to_list (books (library w)))))
    by apply filter_NoDup, NoDup_map_to_list.
  assert (Hmem : ∀ (id : Z) (book : Book),
            (id, book) ∈ List.filter (has_isbn (strip search_term))
                            (map_to_list (books (library w)))
            ↔ books (library w) !! id = Some book ∧ bk_isbn book = strip search_term).
  { intros id book. rewrite filter_catalog. unfold has_isbn. cbn.
    by rewrite String.eqb_eq. }
  split; [done|]. split; [done|].
  intros Huniq.
  destruct (List.filter (has_isbn (strip search_term)) (map_to_list (books (library w))))
    as [|[i1 b1] [|[i2 b2] rest]]; cbn; [lia..|].
  exfalso.
  assert (H1 : (i1, b1) ∈ (i1, b1) :: (i2, b2) :: rest) by left.
  assert (H2 : (i2, b2) ∈ (i1, b1) :: (i2, b2) :: rest) by (right; left).
  apply Hmem in H1 as [H1 E1]. apply Hmem in H2 as [H2 E2].
  assert (i1 = i2) as <- by (eapply Huniq; [done..|congruence]).
  assert (b1 = b2) as <- by congruence.
  apply NoDup_cons in Hnodup as [Hnot _]. apply Hnot. left.
Qed.

(** X14: under any spelling of the type that strips and lowers to [title]
    (or [author]), the search returns exactly the books of the catalog
    whose lowered title (or author) contains the stripped, lowered term,
    and every book when the stripped term is empty; under a type that is
    none of [title], [author] and [isbn] it returns nothing.  The world is
    left as it was. *)
Theorem search_by_text (search_term search_type : string) (w : World) :
  (lower (strip search_type) = "title" →
   ∃ rows : list book_row,
     search_books_in_catalog search_term search_type w = (Return rows, w)
     ∧ NoDup rows
     ∧ ∀ (id : Z) (book : Book),
         (id, book) ∈ rows
         ↔ books (library w) !! id = Some book
           ∧ (strip search_term = ""
              ∨ contains (lower (strip search_term)) (lower (bk_title book)) = true))
  ∧ (lower (strip search_type) = "author" →
     ∃ rows : list book_row,
       search_books_in_catalog search_term search_type w = (Return rows, w)
       ∧ NoDup rows
       ∧ ∀ (id : Z) (book : Book),
           (id, book) ∈ rows
           ↔ books (library w) !! id = Some book
             ∧ (strip search_term = ""
                ∨ contains (lower (strip search_term)) (lower (bk_author book)) = true))
  ∧ (lower (strip search_type) ≠ "title" → lower (strip search_type) ≠ "author" →
     lower (strip search_type) ≠ "isbn" →
     search_books_in_catalog search_term search_type w = (Return [], w)).
Proof.
  unfold search_books_in_catalog, get_all_books.
  split; [|split].
  - intros ->. run.
    destruct (String.eqb_spec (strip search_term) "") as [Hempty|Hterm].
    + eexists. split; [done|]. split; [apply NoDup_map_to_list|].
      intros id book. rewrite elem_of_map_to_list.
      split; [intros Hlook; split; [done|by left] | by intros [Hlook _]].
    + eexists. split; [done|]. split; [apply filter_NoDup, NoDup_map_to_list|].
      intros id book. rewrite filter_catalog. unfold title_has. cbn.
      split; [intros [Hlook Hin]; split; [done|by right]
             | intros [Hlook [Hempty|Hin]]; done].
  - intros ->. run.
    destruct (String.eqb_spec (strip search_term) "") as [Hempty|Hterm].
    + eexists. split; [done|]. split; [apply NoDup_map_to_list|].
      intros id book. rewrite elem_of_map_to_list.
      split; [intros Hlook; split; [done|by left] | by intros [Hlook _]].
    + eexists. split; [done|]. split; [apply filter_NoDup, NoDup_map_to_list|].
      intros id book. rewrite filter_catalog. unfold author_has. cbn.
      split; [intros [Hlook Hin]; split; [done|by right]
             | intros [Hlook [Hempty|Hin]]; done].
  - intros H1 H2 H3. apply String.eqb_neq in H1, H2, H3. by rewrite H1, H2, H3.
Qed.

(** ** Properties of runs of the service *)

(** Each function of the service changes the library by writes only. *)
Lemma passes_validation_intro (patron_id : string) (book_id : Z) (book : Book)
    (lib : Library) :
  invalid_patron_id patron_id = false →
  books lib !! book_id = Some book →
  0 < bk_available_copies book →
  Z.of_nat (length (List.filter (active_of_patron patron_id) (borrow_records lib))) < 5 →
  List.find (active_loan_of patron_id book_id) (borrow_records lib) = None →
  passes_validation patron_id book_id lib = true.
Proof.
  intros Hpid Hbook Hav Hcount Hfind.
  unfold passes_validation, active_loan_count.
  rewrite Hpid, Hbook, Hfind. cbn.
  rewrite !andb_true_iff. repeat split; by apply Z.ltb_lt.
Qed.

Lemma borrow_writes (patron_id : string) (book_id : Z) (w : World) :
  rtc write (library w) (library (borrow_book_by_patron patron_id book_id w).2).
Proof.
  unfold borrow_book_by_patron. unfold_storage. run.
  destruct (invalid_patron_id patron_id) eqn:Hpid; [done|].
  destruct (books (library w) !! book_id) as [book|] eqn:Hbook; [|done].
  destruct (Z.leb_spec (bk_available_copies book) 0); [done|].
  destruct (Z.leb_spec 5 (Z.of_nat (length (List.filter (active_of_patron patron_id)
                                             (borrow_records (library w))))));
    [done|].
  destruct (List.find (active_loan_of patron_id book_id) (borrow_records (library w)))
    as [r|] eqn:Hfind; [done|]. cbn.
  assert (Hpass : passes_validation patron_id book_id (library w) = true)
    by (by eapply passes_validation_intro).
  pose proof (write_loan (library w) patron_id book_id (clock w (ticks w)) Hpass) as Hloan.
  assert (Hboth : rtc write (library w)
            (mkLibrary (alter decrement book_id (books (library w)))
               (borrow_records (library w)
                ++ [mkBorrowRecord patron_id book_id (clock w (ticks w))
                      (clock w (ticks w) + timedelta_of_days 14) None]))).
  { eapply rtc_l; [exact Hloan|]. apply rtc_once.
    exact (write_copies (mkLibrary _ _) book_id (-1)). }
  destruct (storage_faults w) as [|[] [|[] fs]]; cbn; try done.
  destruct fs as [|[] fs]; cbn.
  - eapply rtc_l; [exact Hloan|]. apply rtc_once.
    exact (write_return (mkLibrary _ _) patron_id book_id _).
  - eapply rtc_l; [exact Hloan|]. apply rtc_once.
    exact (write_return (mkLibrary _ _) patron_id book_id _).
  - by apply rtc_once.
Qed.

Lemma return_writes (patron_id : string) (book_id : Z) (w : World) :
  rtc write (library w) (library (return_book_by_patron patron_id book_id w).2).
Proof.
  destruct (return_library_cases patron_id book_id w)
    as [H|[(r & t & _ & H)|(book & r & t & _ & _ & H)]]; cbn in H; rewrite H.
  - done.
  - apply rtc_once. apply write_return.
  - eapply rtc_l; [apply (write_return _ patron_id book_id t)|].
    apply rtc_once. exact (write_copies (mkLibrary _ _) book_id 1).
Qed.

Lemma add_book_writes (title author isbn : string) (total_copies : Z) (w : World) :
  rtc write (library w) (library (add_book_to_catalog title author isbn total_copies w).2).
Proof.
  destruct (add_book_library_cases title author isbn total_copies w)
    as [H|(Hc & Hnew & H)]; cbn in H; rewrite H; [done|].
  apply rtc_once. by apply write_book.
Qed.

Lemma search_frame (search_term search_type : string) (w : World) :
  (search_books_in_catalog search_term search_type w).2 = w.
Proof.
  unfold search_books_in_catalog, get_all_books, select_books_where_isbn,
    select_all_books.
  repeat (case_match; run; try done).
Qed.

Lemma history_entry_frame (patron_id : string) (now : datetime) (d : history_row)
    (w : World) :
  library (history_entry_of patron_id now d w).2 = library w.
Proof.
  unfold history_entry_of, try_except_TypeError. run.
  match goal with
  | |- context [calculate_late_fee_for_book ?p ?b ?r ?n w] =>
      pose proof (calculate_frame p b r n w) as (H1 & _);
      destruct (calculate_late_fee_for_book p b r n w) as [[q|[]] w1]
  end; cbn in *; done.
Qed.

Lemma report_frame (patron_id : string) (w : World) :
  library (get_patron_status_report patron_id w).2 = library w.
Proof.
  unfold get_patron_status_report, get_patron_borrowed_books, history_query.
  destruct (invalid_patron_id patron_id); [done|]. run.
  match goal with
  | |- context [for_each (current_loan_of ?p ?n) ?xs ?w0] =>
      pose proof (for_each_frame _ (current_loan_frame p n) xs w0) as Hloans;
      destruct (for_each (current_loan_of p n) xs w0) as [[cls|e] w1]; [|done]
  end.
  cbn in *.
  match goal with
  | |- context [for_each (history_entry_of ?p ?n) ?xs ?w0] =>
      pose proof (for_each_frame _ (history_entry_frame p n) xs w0) as Hhist;
      destruct (for_each (history_entry_of p n) xs w0) as [[hs|e] w2]
  end; cbn in *; congruence.
Qed.

Lemma pay_frame (patron_id : string) (book_id : Z)
    (payment_gateway : option PaymentGateway) (w : World) :
  library (pay_late_fees patron_id book_id payment_gateway w).2 = library w.
Proof.
  unfold pay_late_fees, call_process_payment, get_book_by_id.
  destruct (invalid_patron_id patron_id); [done|]. run.
  pose proof (calculate_frame patron_id book_id None None w) as (Hlib & _).
  destruct (calculate_late_fee_for_book patron_id book_id None None w) as [[q|e] w1];
    cbn in *; [|done].
  destruct (le (fee_amount q) 0%Q); [done|]. cbn.
  destruct (books (library w1) !! book_id); [|done]. cbn.
  destruct (process_payment _ _ _ _) as [[[[] txn] message]|e]; done.
Qed.

Lemma refund_frame (transaction_id : string) (amount : float)
    (payment_gateway : option PaymentGateway) (w : World) :
  library (refund_late_fee_payment transaction_id amount payment_gateway w).2 = library w.
Proof.
  unfold refund_late_fee_payment, call_refund_payment.
  repeat (case_match; try done); run;
    destruct (refund_payment _ _ _) as [[[] message]|e]; done.
Qed.

Lemma serve_writes (rq : request) (w : World) :
  rtc write (library w) (library (serve rq w)).
Proof.
  destruct rq as [[p b|p b]|title author isbn n|term type|p|p b g|txn amount g]; cbn.
  - apply borrow_writes.
  - apply return_writes.
  - apply add_book_writes.
  - by rewrite search_frame.
  - by rewrite report_frame.
  - by rewrite pay_frame.
  - by rewrite refund_frame.
Qed.

Lemma run_requests_writes (rqs : list request) (w : World) :
  rtc write (library w) (library (run_requests rqs w)).
Proof.
  revert w. induction rqs as [|rq rqs IH]; intros w; cbn; [done|].
  etrans; [apply serve_writes|apply IH].
Qed.

(** What a closed record is: the record itself, or the record with a
    return date, which no query for active loans selects. *)
Lemma filter_close_le (P : BorrowRecord → bool) (patron_id : string) (book_id : Z)
    (t : datetime) (l : list BorrowRecord) :
  (∀ r : BorrowRecord, is_active r = false → P r = false) →
  (length (List.filter P (map (close_record patron_id book_id t) l))
   <= length (List.filter P l))%nat.
Proof.
  intros Hactive. induction l as [|r l IH]; cbn; [done|].
  unfold close_record at 1.
  destruct (active_loan_of patron_id book_id r).
  - rewrite Hactive by done. destruct (P r); cbn; lia.
  - destruct (P r); cbn; lia.
Qed.

Lemma active_of_patron_active (patron_id : string) (r : BorrowRecord) :
  is_active r = false → active_of_patron patron_id r = false.
Proof. unfold active_of_patron. intros ->. apply andb_false_r. Qed.

Lemma active_loan_of_active (patron_id : string) (book_id : Z) (r : BorrowRecord) :
  is_active r = false → active_loan_of patron_id book_id r = false.
Proof. unfold active_loan_of. intros ->. apply andb_false_r. Qed.

Lemma write_within_limit (lib lib' : Library) :
  write lib lib' → within_limit lib → within_limit lib'.
Proof.
  unfold within_limit, active_loan_count.
  intros [title author isbn n Hn Hnew|book_id delta|p b t Hpass|p b t] Hlimit q; cbn;
    try apply Hlimit.
  - rewrite List.filter_app, length_app. cbn.
    unfold passes_validation, active_loan_count in Hpass.
    rewrite !andb_true_iff in Hpass. destruct Hpass as [[[_ _] Hcount] _].
    apply Z.ltb_lt in Hcount.
    unfold active_of_patron at 2. cbn. rewrite andb_true_r.
    destruct (String.eqb_spec p q) as [->|Hne]; cbn; [lia|].
    specialize (Hlimit q). lia.
  - pose proof (filter_close_le (active_of_patron q) p b t (borrow_records lib)
                  (active_of_patron_active q)).
    specialize (Hlimit q). lia.
Qed.

Lemma write_one_loan_per_pair (lib lib' : Library) :
  write lib lib' → one_loan_per_pair lib → one_loan_per_pair lib'.
Proof.
  unfold one_loan_per_pair.
  intros [title author isbn n Hn Hnew|book_id delta|p b t Hpass|p b t] Hone q c; cbn;
    try apply Hone.
  - rewrite List.filter_app, length_app. cbn.
    unfold passes_validation in Hpass.
    rewrite !andb_true_iff in Hpass. destruct Hpass as [_ Hfind].
    destruct (List.find (active_loan_of p b) (borrow_records lib)) eqn:Hnone; [done|].
    unfold active_loan_of at 2. cbn. rewrite andb_true_r.
    destruct (String.eqb_spec p q) as [->|Hne]; cbn.
    + destruct (Z.eqb_spec b c) as [->|Hne]; cbn.
      * by rewrite (find_none_filter _ _ Hnone).
      * specialize (Hone q c). lia.
    + specialize (Hone q c). lia.
  - pose proof (filter_close_le (active_loan_of q c) p b t (borrow_records lib)
                  (active_loan_of_active q c)).
    specialize (Hone q c). lia.
Qed.

Lemma close_record_same (patron_id : string) (book_id : Z) (t : datetime)
    (r : BorrowRecord) :
  same_loan r (close_record patron_id book_id t r).
Proof.
  unfold close_record, same_loan, active_loan_of.
  destruct (is_active r) eqn:Hactive.
  - destruct (_ && _ && _); cbn; by repeat split.
  - rewrite andb_false_r. by repeat split.
Qed.

Lemma write_references (lib lib' : Library) :
  write lib lib' → references_books lib → references_books lib'.
Proof.
  unfold references_books.
  intros [title author isbn n Hn Hnew|book_id delta|p b t Hpass|p b t] Href r Hr;
    cbn in *.
  - destruct (Href r Hr) as [book Hbook].
    destruct (decide (next_book_id (books lib) = br_book_id r)) as [Heq|Hne].
    + rewrite <- Heq, lookup_insert_eq. by eexists.
    + rewrite lookup_insert_ne by done. by exists book.
  - destruct (Href r Hr) as [book Hbook].
    destruct (decide (book_id = br_book_id r)) as [Heq|Hne].
    + subst book_id. rewrite lookup_alter_eq, Hbook. by eexists.
    + rewrite lookup_alter_ne by done. by exists book.
  - apply elem_of_app in Hr as [Hr|Hr]; [by apply Href|].
    apply list_elem_of_singleton in Hr. subst r. cbn.
    unfold passes_validation in Hpass.
    destruct (books lib !! b) as [book|]; [by eexists|].
    by rewrite andb_false_r in Hpass.
  - apply list_elem_of_fmap in Hr as (r0 & -> & Hr0).
    destruct (close_record_same p b t r0) as (_ & -> & _).
    by apply Href.
Qed.

Lemma alter_copies_lookup (book_id delta id : Z) (book' : Book) (catalog : gmap Z Book) :
  alter (fun b => mkBook (bk_title b) (bk_author b) (bk_isbn b) (bk_total_copies b)
                    (bk_available_copies b + delta)) book_id catalog !! id = Some book' →
  ∃ book : Book, catalog !! id = Some book ∧ same_book book book'.
Proof.
  destruct (decide (book_id = id)) as [->|Hne].
  - rewrite lookup_alter_eq.
    destruct (catalog !! id) as [book|]; cbn; [|done].
    intros H. simplify_eq. by exists book.
  - rewrite lookup_alter_ne by done. intros H. by exists book'.
Qed.

Lemma write_isbn_unique (lib lib' : Library) :
  write lib lib' → isbn_unique lib → isbn_unique lib'.
Proof.
  unfold isbn_unique.
  intros [title author isbn n Hn Hnew|book_id delta|p b t Hpass|p b t] Huniq;
    cbn; try done.
  - set (id := next_book_id (books lib)).
    intros i j b1 b2 H1 H2 Hsame.
    destruct (decide (id = i)) as [<-|Hi], (decide (id = j)) as [<-|Hj]; [done|..].
    + rewrite lookup_insert_eq in H1. rewrite lookup_insert_ne in H2 by done.
      simplify_eq. cbn in Hsame. destruct (Hnew j b2 H2). done.
    + rewrite lookup_insert_eq in H2. rewrite lookup_insert_ne in H1 by done.
      simplify_eq. cbn in Hsame. destruct (Hnew i b1 H1). done.
    + rewrite lookup_insert_ne in H1, H2 by done. by eapply Huniq.
  - intros i j b1 b2 H1 H2 Hsame.
    apply alter_copies_lookup in H1 as (b1' & H1 & _ & _ & E1 & _).
    apply alter_copies_lookup in H2 as (b2' & H2 & _ & _ & E2 & _).
    eapply Huniq; [done..|congruence].
Qed.

Lemma same_loan_trans (r1 r2 r3 : BorrowRecord) :
  same_loan r1 r2 → same_loan r2 r3 → same_loan r1 r3.
Proof.
  unfold same_loan.
  intros (P1 & B1 & D1 & E1 & K1) (P2 & B2 & D2 & E2 & K2).
  repeat split; try congruence.
  intros Hret. specialize (K1 Hret). subst r2. by apply K2.
Qed.

Lemma write_same_loan (lib lib' : Library) (i : nat) (r : BorrowRecord) :
  write lib lib' → borrow_records lib !! i = Some r →
  ∃ r' : BorrowRecord, borrow_records lib' !! i = Some r' ∧ same_loan r r'.
Proof.
  intros [title author isbn n Hn Hnew|book_id delta|p b t Hpass|p b t] Hr; cbn.
  - exists r. by repeat split.
  - exists r. by repeat split.
  - exists r. split; [by apply lookup_app_l_Some|by repeat split].
  - exists (close_record p b t r). split; [|apply close_record_same].
    by rewrite list_lookup_fmap, Hr.
Qed.

Lemma write_same_book (lib lib' : Library) (id : Z) (book : Book) :
  write lib lib' → books lib !! id = Some book →
  ∃ book' : Book, books lib' !! id = Some book' ∧ same_book book book'.
Proof.
  intros [title author isbn n Hn Hnew|book_id delta|p b t Hpass|p b t] Hbook; cbn;
    try (exists book; by repeat split).
  - exists book. split; [|by repeat split].
    rewrite lookup_insert_ne; [done|].
    intros Heq. rewrite <- Heq, next_book_id_fresh in Hbook. done.
  - destruct (decide (book_id = id)) as [->|Hne].
    + rewrite lookup_alter_eq, Hbook. cbn. eexists. split; [done|]. by repeat split.
    + rewrite lookup_alter_ne by done. exists book. by repeat split.
Qed.

(** X16: along any run of requests to the service, whatever each returns or
    raises and whichever storage writes fail, the library keeps four
    properties that it has at the start: no patron holds more than 5
    active loans, no patron holds two active loans of one book, every
    record points to a book of the catalog, and no two books share an
    ISBN. *)
Theorem service_keeps_loan_invariants (rqs : list request) (w : World) :
  let lib' := library (run_requests rqs w) in
  (within_limit (library w) → within_limit lib')
  ∧ (one_loan_per_pair (library w) → one_loan_per_pair lib')
  ∧ (references_books (library w) → references_books lib')
  ∧ (isbn_unique (library w) → isbn_unique lib').
Proof.
  cbn. pose proof (run_requests_writes rqs w) as Hrun.
  induction Hrun as [lib|lib1 lib2 lib3 Hstep _ IH].
  - done.
  - destruct IH as (IH1 & IH2 & IH3 & IH4).
    split; [|split; [|split]]; intros H.
    + by eapply IH1, write_within_limit.
    + by eapply IH2, write_one_loan_per_pair.
    + by eapply IH3, write_references.
    + by eapply IH4, write_isbn_unique.
Qed.

(** X17: no request deletes or rewrites a borrow record.  Along any run, a
    record stays at its place in the table with its patron, its book, its
    borrow date and its due date; the one change it can see is that it
    gets a return date, and once it has one it never changes again. *)
Theorem records_are_kept (rqs : list request) (w : World) (i : nat) (r : BorrowRecord) :
  borrow_records (library w) !! i = Some r →
  ∃ r' : BorrowRecord,
    borrow_records (library (run_requests rqs w)) !! i = Some r' ∧ same_loan r r'.
Proof.
  pose proof (run_requests_writes rqs w) as Hrun. revert r.
  induction Hrun as [lib|lib1 lib2 lib3 Hstep _ IH]; intros r Hr.
  - exists r. by repeat split.
  - destruct (write_same_loan _ _ _ _ Hstep Hr) as (r2 & Hr2 & Hsame2).
    destruct (IH r2 Hr2) as (r3 & Hr3 & Hsame3).
    exists r3. split; [done|]. by eapply same_loan_trans.
Qed.

(** X18: no request removes a book or renames it.  Along any run, a book
    of the catalog stays under its id with its title, its author, its
    ISBN and its total copies: only its available copies change. *)
Theorem books_are_kept (rqs : list request) (w : World) (id : Z) (book : Book) :
  books (library w) !! id = Some book →
  ∃ book' : Book,
    books (library (run_requests rqs w)) !! id = Some book' ∧ same_book book book'.
Proof.
  pose proof (run_requests_writes rqs w) as Hrun. revert book.
  induction Hrun as [lib|lib1 lib2 lib3 Hstep _ IH]; intros book Hbook.
  - exists book. by repeat split.
  - destruct (write_same_book _ _ _ _ Hstep Hbook) as (b2 & Hb2 & S2).
    destruct (IH b2 Hb2) as (b3 & Hb3 & S3).
    exists b3. split; [done|].
    unfold same_book in *. destruct S2 as (?&?&?&?), S3 as (?&?&?&?).
    repeat split; congruence.
Qed.

(** ** Further properties of borrowing and returning *)

Lemma filter_nil_find_none {A : Type} (f : A → bool) (l : list A) :
  List.filter f l = [] → List.find f l = None.
Proof.
  induction l as [|x l IH]; cbn; [done|].
  destruct (f x); [done|]. exact IH.
Qed.

Lemma return_without_loan (patron_id : string) (book_id : Z) (w : World) :
  invalid_patron_id patron_id = false → book_id ≠ 0 →
  is_Some (books (library w) !! book_id) →
  List.find (active_loan_of patron_id book_id) (borrow_records (library w)) = None →
  return_book_by_patron patron_id book_id w
  = (Return (false, "No active borrow record found for this patron and book."), w).
Proof.
  unfold return_book_by_patron. unfold_storage.
  intros -> Hid [book Hbook] Hfind. apply Z.eqb_neq in Hid. rewrite Hid. run.
  by rewrite Hbook, Hfind.
Qed.

(** X19: [return_book_by_patron] checks, in this order, the format of the
    patron id, that the book id is not 0, that the book exists, and that
    the pair has an active loan.  The first check that fails decides the
    message and the world is left as it was.  Book id 0 is refused even
    when the catalog has a book 0; a missing book whose id prints as 13
    characters gets the message about ISBNs.  When the loan's due date is
    text that does not parse, the call raises [ValueError] after reading
    the clock, and writes nothing. *)
Theorem return_validation_order (patron_id : string) (book_id : Z) (w : World) :
  (invalid_patron_id patron_id = true →
   return_book_by_patron patron_id book_id w
   = (Return (false, "Invalid patron ID. Must be exactly 6 digits."), w))
  ∧ (invalid_patron_id patron_id = false →
     return_book_by_patron patron_id 0 w = (Return (false, "Invalid book ID."), w))
  ∧ (invalid_patron_id patron_id = false → book_id ≠ 0 →
     books (library w) !! book_id = None →
     return_book_by_patron patron_id book_id w
     = (Return (false,
                if Nat.eqb (String.length (str_of_int book_id)) 13
                then "Book not found by ISBN. Did you mean to search by ID?"
                else "Book not found."), w))
  ∧ (invalid_patron_id patron_id = false → book_id ≠ 0 →
     is_Some (books (library w) !! book_id) →
     List.find (active_loan_of patron_id book_id) (borrow_records (library w)) = None →
     return_book_by_patron patron_id book_id w
     = (Return (false, "No active borrow record found for this patron and book."), w))
  ∧ (∀ r : BorrowRecord,
       invalid_patron_id patron_id = false → book_id ≠ 0 →
       is_Some (books (library w) !! book_id) →
       List.find (active_loan_of patron_id book_id) (borrow_records (library w)) = Some r →
       resolve (column (br_due_date r)) = None →
       return_book_by_patron patron_id book_id w
       = (Raise ValueError,
          mkWorld (library w) (clock w) (S (ticks w)) (storage_faults w)
            (gateway_calls w))).
Proof.
  unfold return_book_by_patron. unfold_storage.
  split; [|split; [|split; [|split]]].
  - by intros ->.
  - by intros ->.
  - intros -> Hid Hbook. apply Z.eqb_neq in Hid. rewrite Hid. run. rewrite Hbook.
    by case_match.
  - intros Hpid Hid Hbook Hfind. fold (return_book_by_patron patron_id book_id).
    by apply return_without_loan.
  - intros r -> Hid [book Hbook] Hfind Hdue. apply Z.eqb_neq in Hid. rewrite Hid. run.
    rewrite Hbook, Hfind. cbn. rewrite calculate_explicit. by rewrite Hdue.
Qed.

(** X20: when the first write of a borrow fails, the insert of the record,
    the borrow reports the failure and attempts no other write: the
    library is as it was.  When in a return the return date is set and
    the increment of the copies then fails, the return reports the
    failure with the loan closed and the copies as they were; tried again,
    the return finds no active loan and changes nothing, so the copy stays
    counted out. *)
Theorem first_or_last_write_fails (patron_id : string) (book_id : Z) (w : World) :
  (∀ (book : Book) (rest : list bool),
     invalid_patron_id patron_id = false →
     books (library w) !! book_id = Some book →
     0 < bk_available_copies book →
     active_loan_count patron_id (library w) < 5 →
     List.find (active_loan_of patron_id book_id) (borrow_records (library w)) = None →
     storage_faults w = false :: rest →
     borrow_book_by_patron patron_id book_id w
     = (Return (false, "Database error occurred while creating borrow record."),
        mkWorld (library w) (clock w) (S (ticks w)) rest (gateway_calls w)))
  ∧ (∀ (book : Book) (r : BorrowRecord) (d : datetime) (rest : list bool),
       invalid_patron_id patron_id = false →
       book_id ≠ 0 →
       books (library w) !! book_id = Some book →
       List.find (active_loan_of patron_id book_id) (borrow_records (library w)) = Some r →
       resolve (column (br_due_date r)) = Some d →
       storage_faults w = true :: false :: rest →
       ∃ w' : World,
         return_book_by_patron patron_id book_id w
         = (Return (false, "Database error occurred while updating book availability."), w')
         ∧ books (library w') = books (library w)
         ∧ borrow_records (library w')
           = map (close_record patron_id book_id (clock w (ticks w)))
               (borrow_records (library w))
         ∧ List.filter (active_loan_of patron_id book_id) (borrow_records (library w')) = []
         ∧ return_book_by_patron patron_id book_id w'
           = (Return (false, "No active borrow record found for this patron and book."),
              w')).
Proof.
  split.
  - intros book rest Hpid Hbook Hav Hcount Hfind Hfaults.
    unfold active_loan_count in Hcount.
    unfold borrow_book_by_patron. unfold_storage. run.
    rewrite Hpid, Hbook. cbn.
    destruct (Z.leb_spec (bk_available_copies book) 0); [lia|].
    destruct (Z.leb_spec 5 (Z.of_nat (length (List.filter (active_of_patron patron_id)
                                               (borrow_records (library w))))));
      [lia|].
    rewrite Hfind. cbn. by rewrite Hfaults.
  - intros book r d rest Hpid Hid Hbook Hfind Hdue Hfaults.
    pose proof (filter_closed patron_id book_id (clock w (ticks w))
                  (borrow_records (library w))) as Hclosed.
    exists (mkWorld
              (mkLibrary (books (library w))
                 (map (close_record patron_id book_id (clock w (ticks w)))
                    (borrow_records (library w))))
              (clock w) (S (ticks w)) rest (gateway_calls w)).
    split; [|split; [done|split; [done|split; [exact Hclosed|]]]].
    + apply Z.eqb_neq in Hid.
      unfold return_book_by_patron. unfold_storage. run.
      rewrite Hpid, Hid, Hbook, Hfind. cbn.
      rewrite calculate_explicit, Hdue. cbn. by rewrite Hfaults.
    + apply return_without_loan; cbn; [done|done|by eexists|].
      by apply filter_nil_find_none.
Qed.

(** The world after a borrow that succeeds, and the facts that its checks
    established. *)
Lemma borrow_success_world (patron_id : string) (book_id : Z) (msg : string)
    (w w1 : World) :
  borrow_book_by_patron patron_id book_id w = (Return (true, msg), w1) →
  ∃ book : Book,
    invalid_patron_id patron_id = false
    ∧ books (library w) !! book_id = Some book
    ∧ 0 < bk_available_copies book
    ∧ active_loan_count patron_id (library w) < 5
    ∧ List.find (active_loan_of patron_id book_id) (borrow_records (library w)) = None
    ∧ w1 = mkWorld
             (mkLibrary (alter decrement book_id (books (library w)))
                (borrow_records (library w) ++ [new_record patron_id book_id w]))
             (clock w) (S (ticks w)) (tl (tl (storage_faults w))) (gateway_calls w).
Proof.
  unfold borrow_book_by_patron, active_loan_count, new_record. unfold_storage. run.
  intros H.
  destruct (invalid_patron_id patron_id); [done|].
  destruct (books (library w) !! book_id) as [book|] eqn:Hbook; [|done].
  destruct (Z.leb_spec (bk_available_copies book) 0); [done|].
  destruct (Z.leb_spec 5 (Z.of_nat (length (List.filter (active_of_patron patron_id)
                                             (borrow_records (library w))))));
    [done|].
  destruct (List.find (active_loan_of patron_id book_id) (borrow_records (library w)))
    as [r|] eqn:Hfind; [done|]. cbn in H.
  destruct (hd true (storage_faults w)); cbn in H; [|done].
  destruct (hd true (tl (storage_faults w))); cbn in H; [|done].
  exists book. simplify_eq. done.
Qed.

(** The world after a return that succeeds. *)
Lemma return_success_world (patron_id : string) (book_id : Z) (msg : string)
    (w w1 : World) :
  return_book_by_patron patron_id book_id w = (Return (true, msg), w1) →
  ∃ book : Book,
    invalid_patron_id patron_id = false
    ∧ book_id ≠ 0
    ∧ books (library w) !! book_id = Some book
    ∧ w1 = mkWorld
             (mkLibrary (alter increment book_id (books (library w)))
                (map (close_record patron_id book_id (clock w (ticks w)))
                   (borrow_records (library w))))
             (clock w) (S (ticks w)) (tl (tl (storage_faults w))) (gateway_calls w).
Proof.
  unfold return_book_by_patron. unfold_storage. run.
  intros H.
  destruct (invalid_patron_id patron_id); [done|].
  destruct (Z.eqb_spec book_id 0); [done|].
  destruct (books (library w) !! book_id) as [book|] eqn:Hbook; [|by case_match].
  destruct (List.find (active_loan_of patron_id book_id) (borrow_records (library w)))
    as [r|] eqn:Hfind; [|done].
  cbn in H. rewrite calculate_explicit in H.
  destruct (resolve (column (br_due_date r))) as [d|] eqn:Hdue; [|done].
  cbn in H.
  destruct (hd true (storage_faults w)); cbn in H; [|done].
  destruct (hd true (tail (storage_faults w))); cbn in H; [|done].
  exists book.
  destruct (gt _ _); simplify_eq; done.
Qed.

Lemma find_app_new {A : Type} (f : A → bool) (l : list A) (x : A) :
  List.find f l = None → f x = true → List.find f (l ++ [x]) = Some x.
Proof.
  intros Hnone Hx. induction l as [|y l IH]; cbn in *; [by rewrite Hx|].
  destruct (f y); [done|]. by apply IH.
Qed.

Lemma increment_decrement (book_id : Z) (catalog : gmap Z Book) :
  alter increment book_id (alter decrement book_id catalog) = catalog.
Proof.
  rewrite alter_alter_eq. apply alter_id.
  intros [title author isbn total available] _. unfold increment, decrement; cbn.
  f_equal. lia.
Qed.

Lemma grace_period (borrowed now : datetime) :
  now < borrowed + timedelta_of_days 15 →
  whole_days_overdue (borrowed + timedelta_of_days 14) now = 0.
Proof.
  unfold whole_days_overdue, timedelta_of_days, microseconds_per_day. intros Hnow.
  destruct (Z.le_gt_cases 0 (now - (borrowed + 14 * 86400000000))) as [Hge|Hlt].
  - rewrite Z.quot_small; lia.
  - assert ((now - (borrowed + 14 * 86400000000)) ÷ 86400000000 <= 0)
      by (apply Z.quot_le_upper_bound; lia).
    lia.
Qed.

(** A return whose checks pass and whose two writes succeed. *)
Lemma return_succeeds (patron_id : string) (book_id : Z) (book : Book)
    (r : BorrowRecord) (d : datetime) (w : World) :
  invalid_patron_id patron_id = false → book_id ≠ 0 →
  books (library w) !! book_id = Some book →
  List.find (active_loan_of patron_id book_id) (borrow_records (library w)) = Some r →
  resolve (column (br_due_date r)) = Some d →
  hd true (storage_faults w) = true →
  hd true (tl (storage_faults w)) = true →
  let days := whole_days_overdue d (clock w (ticks w)) in
  let fee := round2 (tiered_fee days) in
  return_book_by_patron patron_id book_id w
  = (Return (true,
             if gt fee 0%Q
             then "Book returned: " +:+ dq +:+ bk_title book +:+ dq
                  +:+ ". Late fee: $" +:+ format_2f fee
                  +:+ " (" +:+ str_of_int days +:+ " days overdue)."
             else "Book returned: " +:+ dq +:+ bk_title book +:+ dq
                  +:+ ". No late fee."),
     mkWorld
       (mkLibrary (alter increment book_id (books (library w)))
          (map (close_record patron_id book_id (clock w (ticks w)))
             (borrow_records (library w))))
       (clock w) (S (ticks w)) (tl (tl (storage_faults w))) (gateway_calls w)).
Proof.
  intros Hpid Hid Hbook Hfind Hdue Hw1 Hw2. cbn.
  apply Z.eqb_neq in Hid.
  unfold return_book_by_patron. unfold_storage. run.
  rewrite Hpid, Hid, Hbook, Hfind. cbn.
  rewrite calculate_explicit, Hdue. cbn.
  rewrite Hw1. cbn. rewrite Hw2. cbn.
  by destruct (gt _ _).
Qed.

(** X21: a book that was borrowed can be returned, and the two cancel out.
    After a borrow that succeeds, of a book whose id is not 0 and with the
    due date read back as it was stored, a return whose two writes
    succeed succeeds too: the books are as before the borrow, and the
    records are those of before with one more, the loan, closed at the
    instant of the return.  When the return comes less than 15 days after
    the borrow, no late fee is charged. *)
Theorem borrow_then_return (patron_id : string) (book_id : Z) (msg : string)
    (w w1 : World) :
  borrow_book_by_patron patron_id book_id w = (Return (true, msg), w1) →
  book_id ≠ 0 →
  resolve (column (clock w (ticks w) + timedelta_of_days 14))
  = Some (clock w (ticks w) + timedelta_of_days 14) →
  hd true (storage_faults w1) = true →
  hd true (tl (storage_faults w1)) = true →
  ∃ (book : Book) (msg' : string) (w2 : World),
    books (library w) !! book_id = Some book
    ∧ return_book_by_patron patron_id book_id w1 = (Return (true, msg'), w2)
    ∧ books (library w2) = books (library w)
    ∧ borrow_records (library w2)
      = (borrow_records (library w)
         ++ [mkBorrowRecord patron_id book_id (clock w (ticks w))
               (clock w (ticks w) + timedelta_of_days 14)
               (Some (clock w (S (ticks w))))])%list
    ∧ (clock w (S (ticks w)) < clock w (ticks w) + timedelta_of_days 15 →
       msg' = "Book returned: " +:+ dq +:+ bk_title book +:+ dq +:+ ". No late fee.").
Proof.
  intros Hborrow Hid Hdue Hw1 Hw2.
  destruct (borrow_success_world _ _ _ _ _ Hborrow)
    as (book & Hpid & Hbook & Hav & Hcount & Hfind & ->).
  cbn in Hw1, Hw2.
  exists book.
  assert (Hnew : List.find (active_loan_of patron_id book_id)
                   (borrow_records (library w) ++ [new_record patron_id book_id w])
                 = Some (new_record patron_id book_id w))
    by (apply find_app_new; [done|apply active_loan_of_new]).
  assert (Hbook1 : alter decrement book_id (books (library w)) !! book_id
                   = Some (decrement book))
    by (by rewrite lookup_alter_eq, Hbook).
  pose proof (return_succeeds patron_id book_id (decrement book)
                (new_record patron_id book_id w) _
                (mkWorld
                   (mkLibrary (alter decrement book_id (books (library w)))
                      (borrow_records (library w) ++ [new_record patron_id book_id w]))
                   (clock w) (S (ticks w)) (tl (tl (storage_faults w))) (gateway_calls w))
                Hpid Hid Hbook1 Hnew Hdue Hw1 Hw2) as Hreturn.
  cbn in Hreturn.
  eexists _, _. split; [done|]. split; [exact Hreturn|]. cbn.
  split; [apply increment_decrement|]. split.
  - rewrite map_app, (close_record_id _ _ _ _ Hfind). cbn.
    unfold close_record, new_record. by rewrite active_loan_of_new.
  - intros Hsoon. by rewrite (grace_period _ _ Hsoon).
Qed.

(** A borrow by a patron who holds the book: which refusal it gets. *)
Lemma borrow_refused (patron_id : string) (book_id : Z) (book : Book) (w : World) :
  invalid_patron_id patron_id = false →
  books (library w) !! book_id = Some book →
  is_Some (List.find (active_loan_of patron_id book_id) (borrow_records (library w))) →
  borrow_book_by_patron patron_id book_id w
  = (Return (false,
             if bk_available_copies book <=? 0
             then "This book is currently not available."
             else if 5 <=? active_loan_count patron_id (library w)
             then "You have reached the maximum borrowing limit of 5 books."
             else "You already have this book checked out."), w).
Proof.
  intros Hpid Hbook [r Hfind].
  unfold borrow_book_by_patron, active_loan_count. unfold_storage. run.
  rewrite Hpid, Hbook. cbn.
  destruct (bk_available_copies book <=? 0); [done|].
  destruct (5 <=? _); [done|].
  by rewrite Hfind.
Qed.

(** X22: a loan cannot be taken twice nor given back twice.  Right after a
    borrow that succeeds, the same borrow is refused and changes nothing:
    for want of a copy when the book had one copy left, else for the limit
    when the patron had 4 loans, else as a loan the patron already has.
    Right after a return that succeeds, the same return is refused for
    want of an active loan, and changes nothing. *)
Theorem loan_not_repeated (patron_id : string) (book_id : Z) (msg : string)
    (w w1 : World) :
  (borrow_book_by_patron patron_id book_id w = (Return (true, msg), w1) →
   ∃ book : Book,
     books (library w) !! book_id = Some book
     ∧ borrow_book_by_patron patron_id book_id w1
       = (Return (false,
                  if bk_available_copies book =? 1
                  then "This book is currently not available."
                  else if active_loan_count patron_id (library w) =? 4
                  then "You have reached the maximum borrowing limit of 5 books."
                  else "You already have this book checked out."), w1))
  ∧ (return_book_by_patron patron_id book_id w = (Return (true, msg), w1) →
     return_book_by_patron patron_id book_id w1
     = (Return (false, "No active borrow record found for this patron and book."), w1)).
Proof.
  split.
  - intros Hborrow.
    destruct (borrow_success_world _ _ _ _ _ Hborrow)
      as (book & Hpid & Hbook & Hav & Hcount & Hfind & ->).
    exists book. split; [done|].
    assert (Hnew : List.find (active_loan_of patron_id book_id)
                     (borrow_records (library w) ++ [new_record patron_id book_id w])
                   = Some (new_record patron_id book_id w))
      by (apply find_app_new; [done|apply active_loan_of_new]).
    assert (Hbook1 : alter decrement book_id (books (library w)) !! book_id
                     = Some (decrement book))
      by (by rewrite lookup_alter_eq, Hbook).
    erewrite borrow_refused; [|done|exact Hbook1|by eexists].
    unfold active_loan_count in *. cbn.
    rewrite List.filter_app, length_app. cbn.
    unfold active_of_patron at 2. cbn. rewrite String.eqb_refl. cbn.
    do 2 f_equal.
    destruct (Z.eqb_spec (bk_available_copies book) 1),
      (Z.leb_spec (bk_available_copies book + -1) 0); try lia; [done|].
    destruct (Z.eqb_spec (Z.of_nat (length (List.filter (active_of_patron patron_id)
                                              (borrow_records (library w))))) 4),
      (Z.leb_spec 5 (Z.of_nat (length (List.filter (active_of_patron patron_id)
                                         (borrow_records (library w))) + 1)));
      try lia; done.
  - intros Hreturn.
    destruct (return_success_world _ _ _ _ _ Hreturn) as (book & Hpid & Hid & Hbook & ->).
    apply return_without_loan; cbn; [done|done| |].
    + rewrite lookup_alter_eq, Hbook. by eexists.
    + apply filter_nil_find_none, filter_closed.
Qed.

(** ** Bounds of the fee, and paying it *)

Lemma cents_le (x y : Z) : (inject_Z x / 100 <= inject_Z y / 100)%Q ↔ x <= y.
Proof. unfold Qle, Qdiv, Qmult, Qinv, inject_Z; cbn. lia. Qed.

Lemma cents_bounds (x : Z) :
  ((0 <= inject_Z x / 100)%Q ↔ 0 <= x) ∧ ((inject_Z x / 100 <= 15.00)%Q ↔ x <= 1500)
  ∧ ((inject_Z x / 100 == 0)%Q ↔ x = 0) ∧ ((inject_Z x / 100 == 15.00)%Q ↔ x = 1500)
  ∧ ((0 < inject_Z x / 100)%Q ↔ 0 < x).
Proof. unfold Qle, Qlt, Qeq, Qdiv, Qmult, Qinv, inject_Z; cbn. lia. Qed.

Lemma fee_in_cents (d : Z) : (round2 (tiered_fee d) == inject_Z (fee_cents d) / 100)%Q.
Proof. by rewrite round2_tiered_fee, tiered_fee_cents. Qed.

Lemma whole_days_overdue_floor (due now : datetime) :
  whole_days_overdue due now = Z.max 0 ((now - due) / microseconds_per_day).
Proof.
  unfold whole_days_overdue.
  pose proof (floor_days_truncate (now - due)) as H. unfold days in H. lia.
Qed.

(** X23: the fee that the calculator quotes for a due date and an instant
    lies between 0 and 15.00; it is 0 exactly when the instant comes less
    than one full day after the due date, and 15.00 exactly from 19 full
    days on; and it never decreases as the instant moves on, nor do the
    days overdue. *)
Theorem late_fee_bounds (patron_id : string) (book_id : Z) (due : pyts)
    (d now later : datetime) (w : World) :
  resolve due = Some d →
  ∃ q q' : FeeQuote,
    calculate_late_fee_for_book patron_id book_id (Some (Some due)) (Some (DT now)) w
    = (Return q, w)
    ∧ calculate_late_fee_for_book patron_id book_id (Some (Some due)) (Some (DT later)) w
      = (Return q', w)
    ∧ (0 <= fee_amount q)%Q ∧ (fee_amount q <= 15.00)%Q
    ∧ ((fee_amount q == 0)%Q ↔ now < d + timedelta_of_days 1)
    ∧ ((fee_amount q == 15.00)%Q ↔ d + timedelta_of_days 19 <= now)
    ∧ (now <= later →
       days_overdue q <= days_overdue q' ∧ (fee_amount q <= fee_amount q')%Q).
Proof.
  intros Hdue. exists (quote_at d now), (quote_at d later).
  rewrite !calculate_explicit, Hdue.
  split; [done|]. split; [done|]. cbn.
  rewrite !fee_in_cents, !whole_days_overdue_floor.
  destruct (cents_bounds (fee_cents (Z.max 0 ((now - d) / microseconds_per_day))))
    as (-> & -> & -> & -> & _).
  rewrite cents_le.
  unfold fee_cents, timedelta_of_days, microseconds_per_day.
  pose proof (Z.div_mod (now - d) 86400000000 ltac:(lia)) as E1.
  pose proof (Z.mod_pos_bound (now - d) 86400000000 ltac:(lia)) as B1.
  pose proof (Z.div_mod (later - d) 86400000000 ltac:(lia)) as E2.
  pose proof (Z.mod_pos_bound (later - d) 86400000000 ltac:(lia)) as B2.
  repeat split; lia.
Qed.

(** The calculator with its defaults: the due date of the pair's active
    record in storage, evaluated at the instant read from the clock. *)
Lemma calculate_default (patron_id : string) (book_id : Z) (w : World) :
  calculate_late_fee_for_book patron_id book_id None None w
  = (match List.find (active_loan_of patron_id book_id) (borrow_records (library w)) with
     | None => Return no_fee
     | Some r =>
         match resolve (column (br_due_date r)) with
         | Some d => Return (quote_at d (clock w (ticks w)))
         | None => Raise ValueError
         end
     end,
     mkWorld (library w) (clock w) (S (ticks w)) (storage_faults w) (gateway_calls w)).
Proof.
  unfold calculate_late_fee_for_book, get_borrow_record, quote_at, whole_days_overdue,
    tiered_fee.
  run.
  destruct (List.find (active_loan_of patron_id book_id) (borrow_records (library w)))
    as [r|]; run; [|done].
  destruct (column (br_due_date r)) as [t|s]; run.
  - by rewrite <- floor_days_truncate.
  - destruct (fromisoformat s); run; [|done].
    by rewrite <- floor_days_truncate.
Qed.

(** X24: when the pair has an active loan that is at least one full day
    overdue and the book is in the catalog, [pay_late_fees] calls the
    gateway's [process_payment] exactly once, for the patron, with the fee
    of the loan at the instant read from the clock and a description that
    names the book, and answers with what the gateway's reply maps to.  The
    amount charged is above 0 and at most 15.00, so
    [refund_late_fee_payment] accepts it for any transaction id with the
    prefix [txn_]: it passes the refund on to the gateway. *)
Theorem pay_charges_the_fee (patron_id : string) (book_id : Z)
    (payment_gateway : option PaymentGateway) (r : BorrowRecord) (d : datetime)
    (book : Book) (w : World) :
  invalid_patron_id patron_id = false →
  List.find (active_loan_of patron_id book_id) (borrow_records (library w)) = Some r →
  resolve (column (br_due_date r)) = Some d →
  d + timedelta_of_days 1 <= clock w (ticks w) →
  books (library w) !! book_id = Some book →
  let fee := round2 (tiered_fee (whole_days_overdue d (clock w (ticks w)))) in
  let description := "Late fees for '" +:+ bk_title book +:+ "'" in
  ∃ w' : World,
    pay_late_fees patron_id book_id payment_gateway w
    = (Return (payment_result
                 (process_payment (default default_gateway payment_gateway)
                    patron_id fee description)), w')
    ∧ gateway_calls w'
      = (gateway_calls w ++ [ProcessPayment patron_id fee description])%list
    ∧ (0 < fee)%Q ∧ (fee <= 15.00)%Q
    ∧ ∀ (transaction_id : string) (refund_gateway : option PaymentGateway),
        String.prefix "txn_" transaction_id = true →
        ∃ w'' : World,
          refund_late_fee_payment transaction_id fee refund_gateway w'
          = (Return (refund_result
                       (refund_payment (default default_gateway refund_gateway)
                          transaction_id fee)), w'')
          ∧ gateway_calls w''
            = (gateway_calls w' ++ [RefundPayment transaction_id fee])%list.
Proof.
  intros Hpid Hfind Hdue Hlate Hbook. cbn.
  set (days := whole_days_overdue d (clock w (ticks w))).
  assert (Hdays : 1 <= days).
  { unfold days. rewrite whole_days_overdue_floor.
    unfold timedelta_of_days, microseconds_per_day in *.
    pose proof (Z.div_mod (clock w (ticks w) - d) 86400000000 ltac:(lia)).
    pose proof (Z.mod_pos_bound (clock w (ticks w) - d) 86400000000 ltac:(lia)).
    lia. }
  assert (Hpos : (0 < round2 (tiered_fee days))%Q).
  { rewrite fee_in_cents. apply cents_bounds. unfold fee_cents. lia. }
  assert (Hmax : (round2 (tiered_fee days) <= 15.00)%Q).
  { rewrite fee_in_cents. apply cents_bounds. unfold fee_cents. lia. }
  assert (Hle : le (round2 (tiered_fee days)) 0%Q = false).
  { unfold le. apply not_true_is_false. rewrite Qle_bool_iff.
    by apply Qlt_not_le. }
  assert (Hgt : gt (round2 (tiered_fee days)) 15.00%Q = false).
  { unfold gt. apply negb_false_iff. by apply Qle_bool_iff. }
  eexists. split; [|split; [|split; [exact Hpos|split; [exact Hmax|]]]].
  - unfold pay_late_fees, call_process_payment, get_book_by_id.
    rewrite Hpid. run.
    rewrite calculate_default, Hfind, Hdue. cbn.
    fold days. rewrite Hle. cbn. rewrite Hbook. cbn.
    by destruct (process_payment _ _ _ _) as [[[[] txn] message]|e].
  - done.
  - intros transaction_id refund_gateway Hprefix.
    unfold refund_late_fee_payment, call_refund_payment.
    assert (String.eqb transaction_id "" = false) as ->
      by (destruct transaction_id; [cbn in Hprefix; done|done]).
    rewrite Hprefix, Hle, Hgt. run.
    destruct (refund_payment _ _ _) as [[[] message]|e];
      (eexists; split; [reflexivity|done]).
Qed.

(** ** The report and the fees *)

Lemma fee_of_days_quote (d : Z) : 0 <= d → fee_of_days (round2 (tiered_fee d)) d.
Proof. intros Hd. split; [done|apply fee_in_cents]. Qed.

Lemma fee_of_days_zero : fee_of_days 0%Q 0.
Proof. split; [done|reflexivity]. Qed.

(** Whatever it is called with, a quote of the calculator holds the fee of
    its days. *)
Lemma calculate_quote (patron_id : string) (book_id : Z)
    (borrow_record : option due_entry) (now : option pyts) (q : FeeQuote) (w w' : World) :
  calculate_late_fee_for_book patron_id book_id borrow_record now w = (Return q, w') →
  fee_of_days (fee_amount q) (days_overdue q).
Proof.
  unfold calculate_late_fee_for_book, get_borrow_record. run.
  destruct borrow_record as [[[t|s]|]|], now as [[n|n]|]; run;
    repeat case_match; run; intros Hq; simplify_eq; cbn;
    try apply fee_of_days_zero;
    apply (fee_of_days_quote (Z.max 0 _)); lia.
Qed.

Lemma current_loan_fee (patron_id : string) (now : datetime) (a : loan_row)
    (cl : CurrentLoan) (w w' : World) :
  current_loan_of patron_id now a w = (Return cl, w') →
  fee_of_days (cl_current_fee cl) (cl_days_overdue cl)
  ∧ cl_is_overdue cl = (0 <? cl_days_overdue cl).
Proof.
  unfold current_loan_of, try_except_TypeError. run.
  destruct (calculate_late_fee_for_book patron_id (loan_book_id a) None None w)
    as [[q|[]] w1] eqn:Hq; cbn; try done.
  - intros H. simplify_eq. cbn. split; [by eapply calculate_quote|done].
  - destruct (calculate_late_fee_for_book _ _ _ _ w1) as [[q|e] w2] eqn:Hq2; cbn; [|done].
    intros H. simplify_eq. cbn. split; [by eapply calculate_quote|done].
Qed.

Lemma history_entry_fee (patron_id : string) (now : datetime) (d : history_row)
    (e : HistoryEntry) (w w' : World) :
  history_entry_of patron_id now d w = (Return e, w') →
  fee_of_days (he_late_fee_at_end e) (he_days_overdue_at_end e).
Proof.
  unfold history_entry_of, try_except_TypeError. run.
  match goal with
  | |- context [calculate_late_fee_for_book ?p ?b ?r ?n w] =>
      destruct (calculate_late_fee_for_book p b r n w) as [[q|[]] w1] eqn:Hq
  end; cbn; try done; intros H; simplify_eq; cbn.
  - by eapply calculate_quote.
  - apply fee_of_days_zero.
Qed.

Lemma for_each_Forall {A B : Type} (f : A → M B) (P : B → Prop) (xs : list A)
    (ys : list B) (w w' : World) :
  (∀ (x : A) (y : B) (w1 w2 : World), f x w1 = (Return y, w2) → P y) →
  for_each f xs w = (Return ys, w') → Forall P ys.
Proof.
  intros Hf Hrun. apply for_each_Forall2 in Hrun.
  induction Hrun as [|x y xs ys (w1 & w2 & Hy) _ IH]; constructor; [|done].
  by eapply Hf.
Qed.

Lemma cents_plus (x y : Q) (a b : Z) :
  (x == inject_Z a / 100)%Q → (y == inject_Z b / 100)%Q →
  (x + y == inject_Z (a + b) / 100)%Q.
Proof.
  intros -> ->. unfold Qeq, Qdiv, Qmult, Qplus, Qinv, inject_Z; cbn. lia.
Qed.

(** The sum of the fees of the loans is their fees in cents, exactly. *)
Lemma sum_in_cents (loans : list CurrentLoan) :
  Forall (fun cl => fee_of_days (cl_current_fee cl) (cl_days_overdue cl)) loans →
  (sum (map cl_current_fee loans) == inject_Z (total_cents loans) / 100)%Q.
Proof.
  unfold sum, total_cents. intros Hall.
  assert (Hacc : ∀ (acc : Q) (c : Z),
            (acc == inject_Z c / 100)%Q →
            (fold_left Qplus (map cl_current_fee loans) acc
             == inject_Z (c + fold_right Z.add 0%Z
                               (map (fun cl => fee_cents (cl_days_overdue cl)) loans))%Z
                / 100)%Q).
  { induction Hall as [|cl loans [_ Hcl] _ IH]; intros acc c Hacc; cbn.
    - by rewrite Z.add_0_r.
    - rewrite (IH _ (c + fee_cents (cl_days_overdue cl))) by (by apply cents_plus).
      by rewrite Z.add_assoc. }
  apply (Hacc 0%Q 0). reflexivity.
Qed.

Lemma total_cents_bounds (loans : list CurrentLoan) :
  Forall (fun cl => fee_of_days (cl_current_fee cl) (cl_days_overdue cl)) loans →
  0 <= total_cents loans <= 1500 * Z.of_nat (length loans).
Proof.
  unfold total_cents.
  induction 1 as [|cl loans [Hd _] _ IH]; cbn [map fold_right length]; [lia|].
  assert (0 <= fee_cents (cl_days_overdue cl) <= 1500) by (unfold fee_cents; lia).
  lia.
Qed.

(** X1: in a report, each active loan carries the fee of its days overdue,
    a whole number of cents, and is flagged overdue exactly when its days
    are positive; so does each history entry carry the fee of its days.
    The total is exactly the sum of the fees of the active loans, which
    rounding to 2 decimals leaves as it is, and lies between 0 and 15.00
    times the number of loans that the report counts. *)
Theorem report_totals (patron_id : string) (rep : StatusReport) (w w' : World) :
  get_patron_status_report patron_id w = (Return (Report rep), w') →
  Forall (fun cl => fee_of_days (cl_current_fee cl) (cl_days_overdue cl)
                    ∧ cl_is_overdue cl = (0 <? cl_days_overdue cl))
    (current_loans rep)
  ∧ Forall (fun e => fee_of_days (he_late_fee_at_end e) (he_days_overdue_at_end e))
      (history rep)
  ∧ (total_late_fees rep == sum (map cl_current_fee (current_loans rep)))%Q
  ∧ (total_late_fees rep == inject_Z (total_cents (current_loans rep)) / 100)%Q
  ∧ (0 <= total_late_fees rep)%Q
  ∧ (total_late_fees rep <= 15.00 * inject_Z (current_count rep))%Q.
Proof.
  unfold get_patron_status_report, get_patron_borrowed_books, history_query.
  destruct (invalid_patron_id patron_id); [done|]. run.
  match goal with
  | |- context [for_each (current_loan_of ?p ?n) ?xs ?w0] =>
      destruct (for_each (current_loan_of p n) xs w0) as [[cls|e] w1] eqn:Hloans;
      [|done]
  end.
  cbn.
  destruct (for_each (history_entry_of _ _) _ w1) as [[hs|e] w2] eqn:Hhist; [|done].
  cbn. intros H. simplify_eq. cbn.
  pose proof (for_each_Forall _ _ _ _ _ _ (current_loan_fee _ _) Hloans) as Hcls.
  pose proof (for_each_Forall _ _ _ _ _ _ (history_entry_fee _ _) Hhist) as Hhs.
  assert (Hfees : Forall (fun cl => fee_of_days (cl_current_fee cl) (cl_days_overdue cl))
                    cls)
    by (eapply Forall_impl; [exact Hcls|by intros cl [Hcl _]]).
  pose proof (sum_in_cents cls Hfees) as Hsum.
  pose proof (total_cents_bounds cls Hfees) as Hbounds.
  assert (Hround : (round2 (sum (map cl_current_fee cls))
                    == sum (map cl_current_fee cls))%Q)
    by (by apply (round2_cents _ (total_cents cls))).
  split; [exact Hcls|]. split; [exact Hhs|]. split; [exact Hround|].
  rewrite Hround, Hsum.
  split; [reflexivity|]. split.
  - apply cents_bounds. lia.
  - unfold Qle, Qdiv, Qmult, Qinv, inject_Z; cbn. lia.
Qed.

(** ** Runs over a reliable storage *)

Lemma for_each_keeps {A B C : Type} (proj : World → C) (f : A → M B) :
  (∀ (x : A) (w : World), proj (f x w).2 = proj w) →
  ∀ (xs : list A) (w : World), proj (for_each f xs w).2 = proj w.
Proof.
  intros Hf xs. induction xs as [|x xs IH]; intros w; cbn; [done|].
  unfold mbind, M_bind.
  pose proof (Hf x w) as Hx.
  destruct (f x w) as [[y|e] w1]; cbn in Hx; [|done].
  pose proof (IH w1) as Hxs.
  destruct (for_each f xs w1) as [[ys|e] w2]; cbn in *; congruence.
Qed.

Lemma current_loan_storage (patron_id : string) (now : datetime) (a : loan_row)
    (w : World) :
  storage_faults (current_loan_of patron_id now a w).2 = storage_faults w.
Proof.
  unfold current_loan_of, try_except_TypeError. run.
  pose proof (calculate_frame patron_id (loan_book_id a) None None w) as (_ & _ & H1).
  destruct (calculate_late_fee_for_book patron_id (loan_book_id a) None None w)
    as [[q|[]] w1]; cbn in *; try done.
  pose proof (calculate_frame patron_id (loan_book_id a)
                (Some (Some (loan_due_date a))) (Some (DT now)) w1) as (_ & _ & H2).
  destruct (calculate_late_fee_for_book patron_id (loan_book_id a)
              (Some (Some (loan_due_date a))) (Some (DT now)) w1) as [[q|e] w2];
    cbn in *; congruence.
Qed.

Lemma history_entry_storage (patron_id : string) (now : datetime) (d : history_row)
    (w : World) :
  storage_faults (history_entry_of patron_id now d w).2 = storage_faults w.
Proof.
  unfold history_entry_of, try_except_TypeError. run.
  match goal with
  | |- context [calculate_late_fee_for_book ?p ?b ?r ?n w] =>
      pose proof (calculate_frame p b r n w) as (_ & _ & H1);
      destruct (calculate_late_fee_for_book p b r n w) as [[q|[]] w1]
  end; cbn in *; done.
Qed.

Lemma report_storage (patron_id : string) (w : World) :
  storage_faults (get_patron_status_report patron_id w).2 = storage_faults w.
Proof.
  unfold get_patron_status_report, get_patron_borrowed_books, history_query.
  destruct (invalid_patron_id patron_id); [done|]. run.
  match goal with
  | |- context [for_each (current_loan_of ?p ?n) ?xs ?w0] =>
      pose proof (for_each_keeps storage_faults _ (current_loan_storage p n) xs w0)
        as Hloans;
      destruct (for_each (current_loan_of p n) xs w0) as [[cls|e] w1]; [|done]
  end.
  cbn in *.
  match goal with
  | |- context [for_each (history_entry_of ?p ?n) ?xs ?w0] =>
      pose proof (for_each_keeps storage_faults _ (history_entry_storage p n) xs w0)
        as Hhist;
      destruct (for_each (history_entry_of p n) xs w0) as [[hs|e] w2]
  end; cbn in *; congruence.
Qed.

Lemma pay_storage (patron_id : string) (book_id : Z)
    (payment_gateway : option PaymentGateway) (w : World) :
  storage_faults (pay_late_fees patron_id book_id payment_gateway w).2 = storage_faults w.
Proof.
  unfold pay_late_fees, call_process_payment, get_book_by_id.
  destruct (invalid_patron_id patron_id); [done|]. run.
  pose proof (calculate_frame patron_id book_id None None w) as (_ & _ & Hst).
  destruct (calculate_late_fee_for_book patron_id book_id None None w) as [[q|e] w1];
    cbn in *; [|done].
  destruct (le (fee_amount q) 0%Q); [done|]. cbn.
  destruct (books (library w1) !! book_id); [|done]. cbn.
  destruct (process_payment _ _ _ _) as [[[[] txn] message]|e]; done.
Qed.

Lemma refund_storage (transaction_id : string) (amount : float)
    (payment_gateway : option PaymentGateway) (w : World) :
  storage_faults (refund_late_fee_payment transaction_id amount payment_gateway w).2
  = storage_faults w.
Proof.
  unfold refund_late_fee_payment, call_refund_payment.
  repeat (case_match; try done); run;
    destruct (refund_payment _ _ _) as [[[] message]|e]; done.
Qed.

(** Over a reliable storage a borrow changes nothing or makes its two
    writes, and so does a return; the storage stays reliable. *)
Lemma borrow_reliable (patron_id : string) (book_id : Z) (w : World) :
  reliable w →
  let w' := (borrow_book_by_patron patron_id book_id w).2 in
  reliable w'
  ∧ (library w' = library w
     ∨ (passes_validation patron_id book_id (library w) = true
        ∧ library w'
          = mkLibrary (alter decrement book_id (books (library w)))
              (borrow_records (library w) ++ [new_record patron_id book_id w]))).
Proof.
  unfold reliable. intros Hrel.
  unfold borrow_book_by_patron, new_record. unfold_storage. run.
  destruct (invalid_patron_id patron_id) eqn:Hpid; [by split; [|left]|].
  destruct (books (library w) !! book_id) as [book|] eqn:Hbook; [|by split; [|left]].
  destruct (Z.leb_spec (bk_available_copies book) 0); [by split; [|left]|].
  destruct (Z.leb_spec 5 (Z.of_nat (length (List.filter (active_of_patron patron_id)
                                             (borrow_records (library w))))));
    [by split; [|left]|].
  destruct (List.find (active_loan_of patron_id book_id) (borrow_records (library w)))
    as [r|] eqn:Hfind; [by split; [|left]|]. cbn.
  assert (Hpass : passes_validation patron_id book_id (library w) = true)
    by (by eapply passes_validation_intro).
  destruct (storage_faults w) as [|ok1 [|ok2 fs]]; cbn.
  - split; [done|]. by right.
  - apply Forall_cons in Hrel as [-> _]. cbn. split; [done|]. by right.
  - apply Forall_cons in Hrel as [-> Hrel]. apply Forall_cons in Hrel as [-> Hrel].
    cbn. split; [done|]. by right.
Qed.

Lemma return_reliable (patron_id : string) (book_id : Z) (w : World) :
  reliable w →
  let w' := (return_book_by_patron patron_id book_id w).2 in
  reliable w'
  ∧ (library w' = library w
     ∨ ∃ (book : Book) (r : BorrowRecord) (t : datetime),
         books (library w) !! book_id = Some book
         ∧ List.find (active_loan_of patron_id book_id) (borrow_records (library w))
           = Some r
         ∧ library w'
           = mkLibrary (alter increment book_id (books (library w)))
               (map (close_record patron_id book_id t) (borrow_records (library w)))).
Proof.
  unfold reliable. intros Hrel.
  unfold return_book_by_patron. unfold_storage. run.
  destruct (invalid_patron_id patron_id); [by split; [|left]|].
  destruct (book_id =? 0); [by split; [|left]|].
  destruct (books (library w) !! book_id) as [book|] eqn:Hbook;
    [|case_match; by split; [|left]].
  destruct (List.find _ _) as [r|] eqn:Hfind; [|by split; [|left]]. cbn.
  rewrite calculate_explicit.
  destruct (resolve _); [|by split; [|left]]. cbn.
  destruct (storage_faults w) as [|ok1 [|ok2 fs]]; cbn.
  - split; [by case_match|]. right. exists book, r, (clock w (ticks w)). by case_match.
  - apply Forall_cons in Hrel as [-> _]. cbn.
    split; [by case_match|]. right. exists book, r, (clock w (ticks w)). by case_match.
  - apply Forall_cons in Hrel as [-> Hrel]. apply Forall_cons in Hrel as [-> Hrel]. cbn.
    split; [by case_match|]. right. exists book, r, (clock w (ticks w)). by case_match.
Qed.

Lemma add_book_reliable (title author isbn : string) (total_copies : Z) (w : World) :
  reliable w → reliable (add_book_to_catalog title author isbn total_copies w).2.
Proof.
  unfold reliable. intros Hrel. unfold add_book_to_catalog.
  repeat (match goal with
          | |- context [if ?c then mret _ else _] => destruct c eqn:?; [done|]
          end).
  unfold get_book_by_isbn, insert_book, storage_write. run.
  destruct (List.find (has_isbn isbn) (map_to_list (books (library w)))); [done|]. cbn.
  destruct (storage_faults w) as [|ok fs]; cbn; [done|].
  apply Forall_cons in Hrel as [-> Hrel]. done.
Qed.

Lemma serve_reliable (rq : request) (w : World) : reliable w → reliable (serve rq w).
Proof.
  intros Hrel.
  destruct rq as [[p b|p b]|title author isbn n|term type|p|p b g|txn amount g]; cbn.
  - by apply borrow_reliable.
  - by apply return_reliable.
  - by apply add_book_reliable.
  - by rewrite search_frame.
  - unfold reliable. by rewrite report_storage.
  - unfold reliable. by rewrite pay_storage.
  - unfold reliable. by rewrite refund_storage.
Qed.

(** Closing the loans of a pair removes, from the active records of the
    pair's book, exactly the active loans of the pair, and none from the
    active records of the other books. *)
Lemma active_count_close_exact (id : Z) (patron_id : string) (book_id : Z)
    (t : datetime) (l : list BorrowRecord) :
  (length (List.filter (active_on_book id) (map (close_record patron_id book_id t) l))
   + (if Z.eqb book_id id
      then length (List.filter (active_loan_of patron_id book_id) l)
      else 0)
   = length (List.filter (active_on_book id) l))%nat.
Proof.
  induction l as [|r l IH]; cbn; [by destruct (book_id =? id)|].
  destruct (active_loan_of patron_id book_id r) eqn:E.
  - rewrite (close_record_inactive_book id _ _ _ _ E).
    assert (active_on_book id r = (book_id =? id)) as ->.
    { unfold active_loan_of in E. unfold active_on_book.
      apply andb_true_iff in E as [E1 E2]. apply andb_true_iff in E1 as [_ E1].
      apply Z.eqb_eq in E1. rewrite E1, E2. apply andb_true_r. }
    destruct (book_id =? id); cbn in *; lia.
  - unfold close_record at 1. rewrite E.
    destruct (active_on_book id r); destruct (book_id =? id); cbn in *; lia.
Qed.

Lemma valid_state_insert (lib : Library) (id : Z) (title author isbn : string)
    (total_copies : Z) :
  references_books lib → valid_state lib → books lib !! id = None → 0 < total_copies →
  valid_state
    (mkLibrary (<[id := mkBook title author isbn total_copies total_copies]> (books lib))
       (borrow_records lib)).
Proof.
  intros Href Hvalid Hfresh Hc i book Hlook. cbn in Hlook.
  destruct (decide (id = i)) as [<-|Hi].
  - rewrite lookup_insert_eq in Hlook. simplify_eq. cbn.
    split; [lia|].
    rewrite (active_count_unreferenced id
               (mkLibrary (<[id := _]> (books lib)) (borrow_records lib))).
    + lia.
    + intros r Hr Heq. cbn in Hr. destruct (Href r Hr) as [b Hb].
      rewrite Heq, Hfresh in Hb. done.
  - rewrite lookup_insert_ne in Hlook by done.
    destruct (Hvalid i book Hlook) as [Hbd Hac]. split; [done|].
    unfold active_count in *; cbn in *. done.
Qed.

Lemma valid_state_borrow (lib : Library) (patron_id : string) (book_id : Z)
    (w : World) :
  valid_state lib → passes_validation patron_id book_id lib = true →
  valid_state
    (mkLibrary (alter decrement book_id (books lib))
       (borrow_records lib ++ [new_record patron_id book_id w])).
Proof.
  intros Hvalid Hpass i book' Hlook. cbn in Hlook.
  rewrite active_count_app, active_count_new.
  unfold passes_validation in Hpass. rewrite !andb_true_iff in Hpass.
  destruct Hpass as [[[_ Hav] _] _].
  destruct (decide (book_id = i)) as [<-|Hne].
  - rewrite lookup_alter_eq in Hlook.
    destruct (books lib !! book_id) as [book|] eqn:Hbook; [|done].
    cbn in Hlook. simplify_eq. apply Z.ltb_lt in Hav.
    destruct (Hvalid book_id book Hbook) as [Hbd Hac].
    rewrite Z.eqb_refl. unfold active_count in *. cbn in *. lia.
  - rewrite lookup_alter_ne in Hlook by done.
    destruct (Hvalid i book' Hlook) as [Hbd Hac].
    apply Z.eqb_neq in Hne. rewrite Hne. unfold active_count in *. cbn in *. lia.
Qed.

Lemma valid_state_return (lib : Library) (patron_id : string) (book_id : Z)
    (t : datetime) (r : BorrowRecord) :
  valid_state lib → one_loan_per_pair lib →
  List.find (active_loan_of patron_id book_id) (borrow_records lib) = Some r →
  valid_state
    (mkLibrary (alter increment book_id (books lib))
       (map (close_record patron_id book_id t) (borrow_records lib))).
Proof.
  intros Hvalid Hone Hfind i book' Hlook. cbn in Hlook.
  pose proof (active_count_close_exact i patron_id book_id t (borrow_records lib))
    as Hexact.
  assert (Hpair : length (List.filter (active_loan_of patron_id book_id)
                            (borrow_records lib)) = 1%nat).
  { specialize (Hone patron_id book_id).
    destruct (List.filter (active_loan_of patron_id book_id) (borrow_records lib))
      as [|x rest] eqn:Hfilter; cbn in *; [|lia].
    apply filter_nil_find_none in Hfilter. congruence. }
  rewrite Hpair in Hexact.
  destruct (decide (book_id = i)) as [<-|Hne].
  - rewrite lookup_alter_eq in Hlook.
    destruct (books lib !! book_id) as [book|] eqn:Hbook; [|done].
    cbn in Hlook. simplify_eq.
    destruct (Hvalid book_id book Hbook) as [Hbd Hac].
    rewrite Z.eqb_refl in Hexact. unfold active_count in *. cbn in *. lia.
  - rewrite lookup_alter_ne in Hlook by done.
    destruct (Hvalid i book' Hlook) as [Hbd Hac].
    apply Z.eqb_neq in Hne. rewrite Hne in Hexact.
    unfold active_count in *. cbn in *. lia.
Qed.

Lemma writes_keep (lib lib' : Library) :
  rtc write lib lib' →
  (within_limit lib → within_limit lib')
  ∧ (one_loan_per_pair lib → one_loan_per_pair lib')
  ∧ (references_books lib → references_books lib')
  ∧ (isbn_unique lib → isbn_unique lib').
Proof.
  induction 1 as [lib|lib1 lib2 lib3 Hstep _ IH]; [done|].
  destruct IH as (IH1 & IH2 & IH3 & IH4).
  split; [|split; [|split]]; intros H.
  - by eapply IH1, write_within_limit.
  - by eapply IH2, write_one_loan_per_pair.
  - by eapply IH3, write_references.
  - by eapply IH4, write_isbn_unique.
Qed.

Lemma serve_valid_state (rq : request) (w : World) :
  reliable w → valid_state (library w) → one_loan_per_pair (library w) →
  references_books (library w) → valid_state (library (serve rq w)).
Proof.
  intros Hrel Hvalid Hone Href.
  destruct rq as [[p b|p b]|title author isbn n|term type|p|p b g|txn amount g]; cbn.
  - destruct (borrow_reliable p b w Hrel) as (_ & [H|[Hpass H]]); cbn in H; rewrite H;
      [done|]. by apply valid_state_borrow.
  - destruct (return_reliable p b w Hrel) as (_ & [H|(book & r & t & _ & Hfind & H)]);
      cbn in H; rewrite H; [done|]. by eapply valid_state_return.
  - destruct (add_book_library_cases title author isbn n w) as [H|(Hc & _ & H)];
      cbn in H; rewrite H; [done|].
    apply valid_state_insert; [done|done|apply next_book_id_fresh|done].
  - by rewrite search_frame.
  - by rewrite report_frame.
  - by rewrite pay_frame.
  - by rewrite refund_frame.
Qed.

(** X27: over a storage that does not fail, the books never lose count of
    their copies.  From a library in which every book's missing copies are
    matched one to one by its active loans, no patron holds two active
    loans of one book and every record points to a book, any run of
    requests leads to a library of which the same holds: for every book,
    [0 <= available_copies <= total_copies] and
    [total_copies - available_copies] is the number of its active loans. *)
Theorem reliable_storage_keeps_count (rqs : list request) (w : World) :
  reliable w →
  valid_state (library w) → one_loan_per_pair (library w) →
  references_books (library w) →
  let lib' := library (run_requests rqs w) in
  valid_state lib' ∧ one_loan_per_pair lib' ∧ references_books lib'.
Proof.
  cbn. revert w. induction rqs as [|rq rqs IH]; intros w Hrel Hvalid Hone Href; cbn;
    [done|].
  destruct (writes_keep _ _ (serve_writes rq w)) as (_ & H2 & H3 & _).
  apply IH; [by apply serve_reliable|by apply serve_valid_state|by apply H2|by apply H3].
Qed.

(** X28: when a borrow and a return succeed.  [borrow_book_by_patron]
    succeeds exactly when its five checks pass and its two writes succeed;
    [return_book_by_patron] succeeds exactly when the patron id is well
    formed, the book id is not 0, the book exists, the pair has an active
    loan whose due date can be read, and its two writes succeed. *)
Theorem success_conditions (patron_id : string) (book_id : Z) (w : World) :
  ((∃ (msg : string) (w' : World),
      borrow_book_by_patron patron_id book_id w = (Return (true, msg), w'))
   ↔ passes_validation patron_id book_id (library w) = true
     ∧ hd true (storage_faults w) = true
     ∧ hd true (tl (storage_faults w)) = true)
  ∧ ((∃ (msg : string) (w' : World),
        return_book_by_patron patron_id book_id w = (Return (true, msg), w'))
     ↔ invalid_patron_id patron_id = false
       ∧ book_id ≠ 0
       ∧ is_Some (books (library w) !! book_id)
       ∧ (∃ (r : BorrowRecord) (d : datetime),
            List.find (active_loan_of patron_id book_id) (borrow_records (library w))
            = Some r
            ∧ resolve (column (br_due_date r)) = Some d)
       ∧ hd true (storage_faults w) = true
       ∧ hd true (tl (storage_faults w)) = true).
Proof.
  split.
  - unfold passes_validation, active_loan_count.
    unfold borrow_book_by_patron. unfold_storage. run.
    destruct (invalid_patron_id patron_id); cbn; [split; [by intros (? & ? & ?)|by intros []]|].
    destruct (books (library w) !! book_id) as [book|]; cbn;
      [|split; [by intros (? & ? & ?)|by intros []]].
    destruct (Z.leb_spec (bk_available_copies book) 0) as [Hle|Hlt].
    { split; [by intros (? & ? & ?)|]. intros [H _].
      rewrite !andb_true_iff in H. destruct H as [[H _] _]. apply Z.ltb_lt in H. lia. }
    assert ((0 <? bk_available_copies book) = true) as -> by (by apply Z.ltb_lt).
    destruct (Z.leb_spec 5 (Z.of_nat (length (List.filter (active_of_patron patron_id)
                                               (borrow_records (library w))))))
      as [Hfive|Hless].
    { split; [by intros (? & ? & ?)|]. intros [H _].
      rewrite !andb_true_iff in H. destruct H as [[_ H] _]. apply Z.ltb_lt in H. lia. }
    assert ((Z.of_nat (length (List.filter (active_of_patron patron_id)
                                 (borrow_records (library w)))) <? 5) = true) as ->
      by (by apply Z.ltb_lt).
    destruct (List.find (active_loan_of patron_id book_id) (borrow_records (library w)));
      cbn; [split; [by intros (? & ? & ?)|by intros []]|].
    destruct (hd true (storage_faults w)); cbn;
      [|split; [by intros (? & ? & ?)|by intros (_ & ? & _)]].
    destruct (hd true (tl (storage_faults w))); cbn;
      [|split; [by intros (? & ? & ?)|by intros (_ & _ & ?)]].
    split; [done|]. intros _. by eexists _, _.
  - split.
    + intros (msg & w' & H).
      destruct (return_success_world _ _ _ _ _ H) as (book & Hpid & Hid & Hbook & _).
      revert H. unfold return_book_by_patron. unfold_storage. run.
      apply Z.eqb_neq in Hid. rewrite Hpid, Hid, Hbook. cbn.
      destruct (List.find (active_loan_of patron_id book_id) (borrow_records (library w)))
        as [r|] eqn:Hfind; [|done].
      cbn. rewrite calculate_explicit.
      destruct (resolve (column (br_due_date r))) as [d|] eqn:Hdue; [|done]. cbn.
      destruct (hd true (storage_faults w)); cbn; [|done].
      destruct (hd true (tail (storage_faults w))); cbn; [|done].
      intros _. apply Z.eqb_neq in Hid.
      split; [done|]. split; [done|]. split; [by eexists|].
      split; [by exists r, d|done].
    + intros (Hpid & Hid & [book Hbook] & (r & d & Hfind & Hdue) & Hw1 & Hw2).
      eexists _, _. by eapply return_succeeds.
Qed.

(** ** The profile page *)

(** X26: the profile page never changes the library.  Without a patron id,
    none in the form of a [POST], none or an empty one in the query string
    otherwise, it renders without a report and reads neither the storage
    nor the clock, whatever the other source of fields holds.  With a
    patron id that is not empty it shows what [get_patron_status_report]
    answers for it, which for a malformed id is the error report, and it
    raises when the report raises. *)
Theorem profile_shows_report (request : Request) (id : string) (w : World) :
  library (profile request w).2 = library w
  ∧ (method request = "POST" → form request !! "patron_id" = None →
     profile request w = (Return (mkPage "patron_profile.html" None None), w))
  ∧ (method request ≠ "POST" →
     args request !! "patron_id" = None ∨ args request !! "patron_id" = Some "" →
     profile request w = (Return (mkPage "patron_profile.html" (Some "") None), w))
  ∧ (id ≠ "" →
     (method request = "POST" ∧ form request !! "patron_id" = Some id)
     ∨ (method request ≠ "POST" ∧ args request !! "patron_id" = Some id) →
     profile request w
     = match get_patron_status_report id w with
       | (Return r, w') => (Return (mkPage "patron_profile.html" (Some id) (Some r)), w')
       | (Raise e, w') => (Raise e, w')
       end
     ∧ (invalid_patron_id id = true →
        profile request w
        = (Return (mkPage "patron_profile.html" (Some id)
                     (Some (ReportError "Invalid patron ID. Must be exactly 6 digits."))),
           w))).
Proof.
  split; [|split; [|split]].
  - unfold profile.
    destruct (if String.eqb (method request) "POST"
              then form request !! "patron_id"
              else Some (default "" (args request !! "patron_id"))) as [[|c rest]|];
      run; try done.
    pose proof (report_frame (String c rest) w) as Hframe.
    by destruct (get_patron_status_report (String c rest) w) as [[r|e] w'].
  - intros Hm Hform. unfold profile. by rewrite Hm, Hform.
  - intros Hm Hargs. apply String.eqb_neq in Hm. unfold profile. rewrite Hm.
    by destruct Hargs as [-> | ->].
  - intros Hid Hsource.
    assert (Hprofile : profile request w
                       = match get_patron_status_report id w with
                         | (Return r, w') =>
                             (Return (mkPage "patron_profile.html" (Some id) (Some r)), w')
                         | (Raise e, w') => (Raise e, w')
                         end).
    { unfold profile.
      destruct Hsource as [[Hm Hform]|[Hm Hargs]].
      - rewrite Hm, Hform. cbn. destruct id as [|c rest]; [done|]. run.
        by destruct (get_patron_status_report (String c rest) w) as [[r|e] w'].
      - apply String.eqb_neq in Hm. rewrite Hm, Hargs. cbn.
        destruct id as [|c rest]; [done|]. run.
        by destruct (get_patron_status_report (String c rest) w) as [[r|e] w']. }
    split; [exact Hprofile|].
    intros Hinvalid. rewrite Hprofile.
    unfold get_patron_status_report. by rewrite Hinvalid.
Qed.

End Service.

(** * Examples on sample data

    The theorems above hold for every [fromisoformat], [isoformat],
    [strftime] and driver.  The examples run the service on the data of
    [Sample]. *)

(** The scenario of the specification: due on January 15th at 9:00,
    evaluated on January 25th at 9:00, 10 days overdue and a fee of 6.50. *)
Lemma C1_calculate_late_fee_witness :
  resolve Sample.fromisoformat (Str "2025-01-15T09:00:00") = Some Sample.jan_15_0900
  ∧ calculate_late_fee_for_book Sample.fromisoformat Sample.text_column "123456" 1
      (Some (Some (Str "2025-01-15T09:00:00"))) (Some (DT Sample.jan_25_0900))
      (Sample.world Sample.on_loan Sample.jan_25_0900 [])
    = (Return (mkFeeQuote 6.50%Q 10 "ok"),
       Sample.world Sample.on_loan Sample.jan_25_0900 []).
Proof.
  split; [reflexivity|].
  destruct (C1_calculate_late_fee Sample.fromisoformat Sample.text_column "123456" 1
              (Str "2025-01-15T09:00:00") Sample.jan_15_0900 Sample.jan_25_0900
              (Sample.world Sample.on_loan Sample.jan_25_0900 []) eq_refl) as [H _].
  exact H.
Defined.

(** A borrow that succeeds: the single copy leaves the shelf. *)
Lemma C2_borrow_success_witness :
  borrow_book_by_patron Sample.strftime_Ymd Sample.text_column "123456" 1
    (Sample.world Sample.shelf Sample.jan_01_0900 [])
  = (Return (true, "Successfully borrowed " +:+ dq +:+ "Clean Code" +:+ dq
                   +:+ ". Due date: 2025-01-15."),
     mkWorld Sample.on_loan (fun _ => Sample.jan_01_0900) 1 [] [])
  ∧ ∃ book : Book,
      books Sample.shelf !! 1 = Some book
      ∧ bk_available_copies <$> books Sample.on_loan !! 1
        = Some (bk_available_copies book - 1)
      ∧ List.filter (active_loan_of "123456" 1) (borrow_records Sample.on_loan)
        = [mkBorrowRecord "123456" 1 Sample.jan_01_0900
             (Sample.jan_01_0900 + timedelta_of_days 14) None].
Proof.
  assert (H : borrow_book_by_patron Sample.strftime_Ymd Sample.text_column "123456" 1
                (Sample.world Sample.shelf Sample.jan_01_0900 [])
              = (Return (true, "Successfully borrowed " +:+ dq +:+ "Clean Code" +:+ dq
                               +:+ ". Due date: 2025-01-15."),
                 mkWorld Sample.on_loan (fun _ => Sample.jan_01_0900) 1 [] []))
    by (vm_compute; reflexivity).
  split; [exact H|].
  exact (C2_borrow_success _ _ _ _ _ _ _ H).
Defined.

(** A return 10 days late: the message gives the amount and the days. *)
Lemma C3_return_success_witness :
  return_book_by_patron Sample.fromisoformat Sample.text_column "123456" 1
    (Sample.world Sample.on_loan Sample.jan_25_0900 [])
  = (Return (true, "Book returned: " +:+ dq +:+ "Clean Code" +:+ dq
                   +:+ ". Late fee: $6.50 (10 days overdue)."),
     mkWorld (mkLibrary (books Sample.shelf)
                [mkBorrowRecord "123456" 1 Sample.jan_01_0900 Sample.jan_15_0900
                   (Some Sample.jan_25_0900)])
       (fun _ => Sample.jan_25_0900) 1 [] [])
  ∧ ∃ (book : Book) (r : BorrowRecord) (d : datetime),
      books Sample.on_loan !! 1 = Some book
      ∧ List.find (active_loan_of "123456" 1) (borrow_records Sample.on_loan) = Some r
      ∧ resolve Sample.fromisoformat (Sample.text_column (br_due_date r)) = Some d
      ∧ bk_available_copies <$> books Sample.shelf !! 1
        = Some (bk_available_copies book + 1)
      ∧ List.filter (active_loan_of "123456" 1)
          [mkBorrowRecord "123456" 1 Sample.jan_01_0900 Sample.jan_15_0900
             (Some Sample.jan_25_0900)] = []
      ∧ let days := whole_days_overdue d Sample.jan_25_0900 in
        let fee := round2 (tiered_fee days) in
        (0 <= fee)%Q
        ∧ "Book returned: " +:+ dq +:+ "Clean Code" +:+ dq
          +:+ ". Late fee: $6.50 (10 days overdue)."
          = if gt fee 0%Q
            then "Book returned: " +:+ dq +:+ bk_title book +:+ dq
                 +:+ ". Late fee: $" +:+ format_2f fee
                 +:+ " (" +:+ str_of_int days +:+ " days overdue)."
            else "Book returned: " +:+ dq +:+ bk_title book +:+ dq
                 +:+ ". No late fee.".
Proof.
  assert (H : return_book_by_patron Sample.fromisoformat Sample.text_column "123456" 1
                (Sample.world Sample.on_loan Sample.jan_25_0900 [])
              = (Return (true, "Book returned: " +:+ dq +:+ "Clean Code" +:+ dq
                               +:+ ". Late fee: $6.50 (10 days overdue)."),
                 mkWorld (mkLibrary (books Sample.shelf)
                            [mkBorrowRecord "123456" 1 Sample.jan_01_0900 Sample.jan_15_0900
                               (Some Sample.jan_25_0900)])
                   (fun _ => Sample.jan_25_0900) 1 [] []))
    by (vm_compute; reflexivity).
  split; [exact H|].
  exact (C3_return_success _ _ _ _ _ _ _ H).
Defined.

(** C3, counterexample to the message holding the amount whatever the fee:
    a return at the due instant succeeds with a fee of 0, and its message
    holds neither [0.00] nor any [0]. *)
Lemma C3_no_amount_in_message :
  (return_book_by_patron Sample.fromisoformat Sample.text_column "123456" 1
     (Sample.world Sample.on_loan Sample.jan_15_0900 [])).1
  = Return (true, "Book returned: " +:+ dq +:+ "Clean Code" +:+ dq +:+ ". No late fee.")
  ∧ fee_amount (quote_at Sample.jan_15_0900 Sample.jan_15_0900) = 0.00%Q
  ∧ contains (format_2f 0.00%Q)
      ("Book returned: " +:+ dq +:+ "Clean Code" +:+ dq +:+ ". No late fee.") = false
  ∧ contains "0"
      ("Book returned: " +:+ dq +:+ "Clean Code" +:+ dq +:+ ". No late fee.") = false.
Proof. repeat split; vm_compute; reflexivity. Qed.

(** A patron with exactly 5 active loans asks for a sixth book, which is on
    the shelf: refused, and the world is as it was. *)
Lemma C4_borrow_validation_order_witness :
  invalid_patron_id "123456" = false
  ∧ books Sample.five_loans !! 6 = Some Sample.clean_code
  ∧ 0 < bk_available_copies Sample.clean_code
  ∧ active_loan_count "123456" Sample.five_loans = 5
  ∧ borrow_book_by_patron Sample.strftime_Ymd Sample.text_column "123456" 6
      (Sample.world Sample.five_loans Sample.jan_25_0900 [])
    = (Return (false, "You have reached the maximum borrowing limit of 5 books."),
       Sample.world Sample.five_loans Sample.jan_25_0900 []).
Proof.
  destruct (C4_borrow_validation_order Sample.strftime_Ymd Sample.text_column "123456" 6
              (Sample.world Sample.five_loans Sample.jan_25_0900 []))
    as (_ & _ & _ & _ & _ & H).
  refine (conj eq_refl (conj eq_refl (conj eq_refl (conj eq_refl _)))).
  apply (H Sample.clean_code); reflexivity.
Defined.



Lemma shelf_valid (now : datetime) (faults : list bool) :
  valid_state (library (Sample.world Sample.shelf now faults)).
Proof.
  intros id book Hlook. cbn in Hlook.
  apply lookup_singleton_Some in Hlook as [<- <-]. by vm_compute.
Qed.

(** A borrow whose decrement fails and is compensated, then a borrow and a
    return that succeed: the book stays within bounds after every one. *)
Lemma C6_copies_within_bounds_witness :
  valid_state (library (Sample.world Sample.shelf Sample.jan_01_0900 [true; false; true]))
  ∧ compensated Sample.fromisoformat Sample.strftime_Ymd Sample.text_column
      [Borrows "123456" 1; Borrows "123456" 1; Returns "123456" 1]
      (Sample.world Sample.shelf Sample.jan_01_0900 [true; false; true])
  ∧ within_bounds
      (library
         (run_ops Sample.fromisoformat Sample.strftime_Ymd Sample.text_column
            (take 3 [Borrows "123456" 1; Borrows "123456" 1; Returns "123456" 1])
            (Sample.world Sample.shelf Sample.jan_01_0900 [true; false; true]))).
Proof.
  assert (Hcomp : compensated Sample.fromisoformat Sample.strftime_Ymd Sample.text_column
                    [Borrows "123456" 1; Borrows "123456" 1; Returns "123456" 1]
                    (Sample.world Sample.shelf Sample.jan_01_0900 [true; false; true])).
  { repeat split; intros [_ [rest Hf]]; vm_compute in Hf; discriminate. }
  split; [apply shelf_valid|]. split; [exact Hcomp|].
  exact (C6_copies_within_bounds _ _ _ _ _ 3 (shelf_valid _ _) Hcomp).
Defined.

(** C6, counterexample to the bounds holding along every sequence: the
    state is valid, the borrow loses both its decrement and its compensating
    close, so its record stays active with the copy still on the shelf, and
    the return that follows raises [available_copies] to 2 for a book of 1
    copy. *)
Lemma C6_double_fault_breaks_bounds :
  valid_state (library (Sample.world Sample.shelf Sample.jan_01_0900 [true; false; false]))
  ∧ double_fault "123456" 1 (Sample.world Sample.shelf Sample.jan_01_0900 [true; false; false])
  ∧ bk_available_copies
      <$> books (library
            (run_ops Sample.fromisoformat Sample.strftime_Ymd Sample.text_column
               [Borrows "123456" 1; Returns "123456" 1]
               (Sample.world Sample.shelf Sample.jan_01_0900 [true; false; false]))) !! 1
    = Some 2
  ∧ ¬ within_bounds
        (library
           (run_ops Sample.fromisoformat Sample.strftime_Ymd Sample.text_column
              [Borrows "123456" 1; Returns "123456" 1]
              (Sample.world Sample.shelf Sample.jan_01_0900 [true; false; false]))).
Proof.
  split; [apply shelf_valid|].
  split; [split; [by vm_compute|by exists []]|].
  split; [by vm_compute|].
  intros Hbounds.
  specialize (Hbounds 1 (mkBook "Clean Code" "Robert Martin" "9780132350884" 1 2)).
  assert (H : 0 <= 2 <= 1) by (apply Hbounds; by vm_compute).
  lia.
Qed.

(** A loan evaluated at its due instant: no fee, so nothing to pay and no
    call to the gateway. *)
Lemma C7_no_fee_no_gateway_witness :
  calculate_late_fee_for_book Sample.fromisoformat Sample.text_column "123456" 1 None None
    (Sample.world Sample.on_loan Sample.jan_15_0900 [])
  = (Return (mkFeeQuote 0.00%Q 0 "ok"),
     mkWorld Sample.on_loan (fun _ => Sample.jan_15_0900) 1 [] [])
  ∧ (fee_amount (mkFeeQuote 0.00%Q 0 "ok") <= 0)%Q
  ∧ ∃ (msg : string) (w' : World),
      pay_late_fees Sample.fromisoformat Sample.text_column Sample.gateway "123456" 1
        (Some Sample.gateway) (Sample.world Sample.on_loan Sample.jan_15_0900 [])
      = (Return (false, msg, None), w')
      ∧ gateway_calls w' = []
      ∧ (invalid_patron_id "123456" = false →
         msg = "No late fees to pay for this book."
         ∧ w' = mkWorld Sample.on_loan (fun _ => Sample.jan_15_0900) 1 [] []).
Proof.
  assert (Hfee : (fee_amount (mkFeeQuote 0.00%Q 0 "ok") <= 0)%Q) by (by vm_compute).
  split; [by vm_compute|]. split; [exact Hfee|].
  exact (C7_no_fee_no_gateway Sample.fromisoformat Sample.text_column Sample.gateway
           "123456" 1 (Some Sample.gateway) (mkFeeQuote 0.00%Q 0 "ok")
           (Sample.world Sample.on_loan Sample.jan_15_0900 [])
           (mkWorld Sample.on_loan (fun _ => Sample.jan_15_0900) 1 [] [])
           eq_refl Hfee).
Defined.

(** A refund of 5.00 on a well-formed transaction id: one call, and the
    gateway's success passed through. *)
Lemma C8_refund_validation_witness :
  "txn_ABC123" ≠ ""
  ∧ String.prefix "txn_" "txn_ABC123" = true
  ∧ (0 < 5.00)%Q
  ∧ (5.00 <= 15.00)%Q
  ∧ ∃ w' : World,
      refund_late_fee_payment Sample.gateway "txn_ABC123" 5.00%Q None
        (Sample.world Sample.shelf Sample.jan_25_0900 [])
      = (Return (true, "Refund successful"), w')
      ∧ gateway_calls w' = [RefundPayment "txn_ABC123" 5.00%Q]
      ∧ library w' = Sample.shelf.
Proof.
  assert (H1 : "txn_ABC123" ≠ "") by discriminate.
  assert (H2 : (0 < 5.00)%Q) by reflexivity.
  assert (H3 : (5.00 <= 15.00)%Q) by (by vm_compute).
  refine (conj H1 (conj eq_refl (conj H2 (conj H3 _)))).
  destruct (C8_refund_validation Sample.gateway "txn_ABC123" 5.00%Q None
              (Sample.world Sample.shelf Sample.jan_25_0900 [])) as [_ H].
  exact (H H1 eq_refl H2 H3).
Defined.

(** C9: a loan due on January 15th that came back on February 24th, 40 days
    late, read through a driver that hands timestamps back as text.  The fee
    against the return date is 15.00 for 40 days; the report's history entry
    says 0 days and a fee of 0, because [now - due] raises [TypeError] on the
    text of the return date and the handler puts zeros in its place. *)
Lemma C9_history_fee_of_text_return_date :
  (get_patron_status_report Sample.fromisoformat Sample.isoformat Sample.text_column
     Sample.fetchall Sample.order_by_borrow_date_desc
     "123456" (Sample.world Sample.returned_late Sample.mar_01_1200 [])).1
  = Return (Report (mkStatusReport [] 0 0.00%Q
              [mkHistoryEntry 1 "Clean Code" "Robert Martin" "9780132350884"
                 "2025-01-01T09:00:00" "2025-01-15T09:00:00" (Some "2025-02-24T09:00:00")
                 0 0%Q]
              "123456"))
  ∧ quote_at Sample.jan_15_0900 Sample.feb_24_0900 = mkFeeQuote 15.00%Q 40 "ok".
Proof. split; vm_compute; reflexivity. Qed.

(** The active loan of the sample, read from storage on March 1st: 45 days
    overdue, at the cap. *)
Lemma calculate_from_storage_witness :
  List.find (active_loan_of "123456" 1) (borrow_records Sample.on_loan)
  = Some (mkBorrowRecord "123456" 1 Sample.jan_01_0900 Sample.jan_15_0900 None)
  ∧ resolve Sample.fromisoformat (Sample.text_column Sample.jan_15_0900)
    = Some Sample.jan_15_0900
  ∧ calculate_late_fee_for_book Sample.fromisoformat Sample.text_column "123456" 1 None None
      (Sample.world Sample.on_loan Sample.mar_01_1200 [])
    = (Return (mkFeeQuote 15.00%Q 45 "ok"),
       mkWorld Sample.on_loan (fun _ => Sample.mar_01_1200) 1 [] []).
Proof.
  refine (conj eq_refl (conj eq_refl _)).
  exact (calculate_from_storage Sample.fromisoformat Sample.text_column "123456" 1
           (mkBorrowRecord "123456" 1 Sample.jan_01_0900 Sample.jan_15_0900 None)
           Sample.jan_15_0900 (Sample.world Sample.on_loan Sample.mar_01_1200 [])
           eq_refl eq_refl).
Defined.

(** The history row of the late return, read through a driver that hands
    back [datetime] objects: 40 days and the cap, against the return date. *)
Lemma history_entry_returned_witness :
  hrow_return_date
    SampleRows.returned_datetime
  = Some (DT Sample.feb_24_0900)
  ∧ resolve Sample.fromisoformat (DT Sample.jan_15_0900) = Some Sample.jan_15_0900
  ∧ ∃ e : HistoryEntry,
      history_entry_of Sample.fromisoformat Sample.isoformat Sample.text_column "123456"
        Sample.mar_01_1200
        SampleRows.returned_datetime
        (Sample.world Sample.returned_late Sample.mar_01_1200 [])
      = (Return e, Sample.world Sample.returned_late Sample.mar_01_1200 [])
      ∧ he_days_overdue_at_end e = 40
      ∧ he_late_fee_at_end e = 15.00%Q.
Proof.
  refine (conj eq_refl (conj eq_refl _)).
  exact (history_entry_returned Sample.fromisoformat Sample.isoformat Sample.text_column
           "123456" Sample.mar_01_1200 Sample.jan_15_0900 Sample.feb_24_0900
           SampleRows.returned_datetime _ eq_refl eq_refl).
Defined.

(** The history row of the active loan on March 1st: 45 days and the cap,
    against the report's instant. *)
Lemma history_entry_active_witness :
  hrow_return_date
    SampleRows.active_text
  = None
  ∧ resolve Sample.fromisoformat (Str "2025-01-15T09:00:00") = Some Sample.jan_15_0900
  ∧ ∃ e : HistoryEntry,
      history_entry_of Sample.fromisoformat Sample.isoformat Sample.text_column "123456"
        Sample.mar_01_1200
        SampleRows.active_text
        (Sample.world Sample.on_loan Sample.mar_01_1200 [])
      = (Return e, Sample.world Sample.on_loan Sample.mar_01_1200 [])
      ∧ he_days_overdue_at_end e = 45
      ∧ he_late_fee_at_end e = 15.00%Q.
Proof.
  refine (conj eq_refl (conj eq_refl _)).
  exact (history_entry_active Sample.fromisoformat Sample.isoformat Sample.text_column
           "123456" Sample.mar_01_1200 Sample.jan_15_0900 SampleRows.active_text _
           eq_refl eq_refl).
Defined.

(** The history row of the late return, read as text: zeros. *)
Lemma history_entry_returned_text_witness :
  hrow_return_date
    SampleRows.returned_text
  = Some (Str "2025-02-24T09:00:00")
  ∧ "2025-02-24T09:00:00" ≠ ""
  ∧ resolve Sample.fromisoformat (Str "2025-01-15T09:00:00") = Some Sample.jan_15_0900
  ∧ ∃ e : HistoryEntry,
      history_entry_of Sample.fromisoformat Sample.isoformat Sample.text_column "123456"
        Sample.mar_01_1200
        SampleRows.returned_text
        (Sample.world Sample.returned_late Sample.mar_01_1200 [])
      = (Return e, Sample.world Sample.returned_late Sample.mar_01_1200 [])
      ∧ he_days_overdue_at_end e = 0
      ∧ he_late_fee_at_end e = 0%Q.
Proof.
  assert (H : "2025-02-24T09:00:00" ≠ "") by discriminate.
  refine (conj eq_refl (conj H (conj eq_refl _))).
  exact (history_entry_returned_text Sample.fromisoformat Sample.isoformat
           Sample.text_column "123456" Sample.mar_01_1200 Sample.jan_15_0900
           "2025-02-24T09:00:00" SampleRows.returned_text _ eq_refl H eq_refl).
Defined.

(** Text that is not a timestamp, as due date. *)
Lemma calculate_malformed_due_date_witness :
  Sample.fromisoformat "next week" = None
  ∧ calculate_late_fee_for_book Sample.fromisoformat Sample.text_column "123456" 1
      (Some (Some (Str "next week"))) (Some (DT Sample.jan_25_0900))
      (Sample.world Sample.on_loan Sample.jan_25_0900 [])
    = (Raise ValueError, Sample.world Sample.on_loan Sample.jan_25_0900 []).
Proof.
  split; [reflexivity|].
  exact (calculate_malformed_due_date Sample.fromisoformat Sample.text_column "123456" 1
           "next week" Sample.jan_25_0900
           (Sample.world Sample.on_loan Sample.jan_25_0900 []) eq_refl).
Defined.

(** ** Examples for the catalog, the runs and the pages *)

(** Properties of the sample shelf, for the examples of the catalog and of
    the runs. *)
Lemma shelf_isbn_unique : isbn_unique Sample.shelf.
Proof.
  intros i j b1 b2 H1 H2 _. cbn in H1, H2.
  apply lookup_singleton_Some in H1 as [<- _].
  by apply lookup_singleton_Some in H2 as [<- _].
Qed.

Lemma shelf_references_books : references_books Sample.shelf.
Proof. intros r Hr. cbn in Hr. by apply elem_of_nil in Hr. Qed.

Lemma shelf_within_bounds : within_bounds Sample.shelf.
Proof.
  intros id book Hlook. cbn in Hlook.
  apply lookup_singleton_Some in Hlook as [<- <-]. by vm_compute.
Qed.

Lemma shelf_within_limit : within_limit Sample.shelf.
Proof. intros patron_id. by vm_compute. Qed.

Lemma shelf_one_loan_per_pair : one_loan_per_pair Sample.shelf.
Proof. intros patron_id book_id. cbn. lia. Qed.

(** A second copy of a book that the catalog has is refused for its ISBN. *)
Lemma add_book_validation_order_witness :
  accepted_text 200 "Clean Code" ∧ accepted_text 100 "Robert Martin"
  ∧ accepted_isbn "9780132350884" ∧ 0 < 3
  ∧ books Sample.shelf !! 1 = Some Sample.clean_code
  ∧ bk_isbn Sample.clean_code = "9780132350884"
  ∧ add_book_to_catalog "Clean Code" "Robert Martin" "9780132350884" 3
      (Sample.world Sample.shelf Sample.jan_01_0900 [])
    = (Return (false, "A book with this ISBN already exists."),
       Sample.world Sample.shelf Sample.jan_01_0900 []).
Proof.
  assert (Ht : accepted_text 200 "Clean Code") by (split; [done|vm_compute; lia]).
  assert (Ha : accepted_text 100 "Robert Martin") by (split; [done|vm_compute; lia]).
  assert (Hi : accepted_isbn "9780132350884") by (split; reflexivity).
  assert (Hc : 0 < 3) by lia.
  destruct (add_book_validation_order "Clean Code" "Robert Martin" "9780132350884" 3
              (Sample.world Sample.shelf Sample.jan_01_0900 []))
    as (_ & _ & _ & _ & _ & _ & H).
  refine (conj Ht (conj Ha (conj Hi (conj Hc (conj eq_refl (conj eq_refl _)))))).
  exact (H 1 Sample.clean_code Ht Ha Hi Hc eq_refl eq_refl).
Defined.

(** A book added to the sample shelf gets id 2, with its title stripped. *)
Lemma add_book_success_witness :
  add_book_to_catalog "  Refactoring " "Martin Fowler" "9780201485677" 2
    (Sample.world Sample.shelf Sample.jan_01_0900 [])
  = (Return (true, "Book " +:+ dq +:+ "Refactoring" +:+ dq
                   +:+ " has been successfully added to the catalog."),
     Sample.world
       (mkLibrary
          (<[2 := mkBook "Refactoring" "Martin Fowler" "9780201485677" 2 2]>
             (books Sample.shelf)) [])
       Sample.jan_01_0900 [])
  ∧ ∃ id : Z,
      books Sample.shelf !! id = None
      ∧ <[2 := mkBook "Refactoring" "Martin Fowler" "9780201485677" 2 2]> (books Sample.shelf)
        = <[id := mkBook (strip "  Refactoring ") (strip "Martin Fowler")
                    "9780201485677" 2 2]> (books Sample.shelf).
Proof.
  assert (H : add_book_to_catalog "  Refactoring " "Martin Fowler" "9780201485677" 2
                (Sample.world Sample.shelf Sample.jan_01_0900 [])
              = (Return (true, "Book " +:+ dq +:+ "Refactoring" +:+ dq
                               +:+ " has been successfully added to the catalog."),
                 Sample.world
                   (mkLibrary
                      (<[2 := mkBook "Refactoring" "Martin Fowler" "9780201485677" 2 2]>
                         (books Sample.shelf)) [])
                   Sample.jan_01_0900 []))
    by (vm_compute; reflexivity).
  split; [exact H|].
  destruct (add_book_success _ _ _ _ _ _ _ H) as (id & Hfree & Hbooks & _).
  exists id. split; [exact Hfree|exact Hbooks].
Defined.

(** The sample shelf keeps its invariants when a book is added. *)
Lemma add_book_keeps_invariants_witness :
  isbn_unique Sample.shelf ∧ references_books Sample.shelf
  ∧ within_bounds Sample.shelf ∧ valid_state Sample.shelf
  ∧ let lib' := library (add_book_to_catalog "Refactoring" "Martin Fowler"
                           "9780201485677" 2
                           (Sample.world Sample.shelf Sample.jan_01_0900 [])).2 in
    isbn_unique lib' ∧ references_books lib' ∧ within_bounds lib' ∧ valid_state lib'.
Proof.
  pose proof shelf_isbn_unique as Hu. pose proof shelf_references_books as Hr.
  pose proof shelf_within_bounds as Hb.
  pose proof (shelf_valid Sample.jan_01_0900 []) as Hv.
  destruct (add_book_keeps_invariants "Refactoring" "Martin Fowler" "9780201485677" 2
              (Sample.world Sample.shelf Sample.jan_01_0900 []))
    as (H1 & H2 & H3 & H4).
  refine (conj Hu (conj Hr (conj Hb (conj Hv _)))).
  exact (conj (H1 Hu) (conj (H2 Hr) (conj (H3 Hb) (H4 Hr Hv)))).
Defined.

(** The book just added is what the search by its ISBN finds. *)
Lemma add_then_search_by_isbn_witness :
  add_book_to_catalog "  Refactoring " "Martin Fowler" "9780201485677" 2
    (Sample.world Sample.shelf Sample.jan_01_0900 [])
  = (Return (true, "Book " +:+ dq +:+ "Refactoring" +:+ dq
                   +:+ " has been successfully added to the catalog."),
     Sample.world
       (mkLibrary
          (<[2 := mkBook "Refactoring" "Martin Fowler" "9780201485677" 2 2]>
             (books Sample.shelf)) [])
       Sample.jan_01_0900 [])
  ∧ ∃ id : Z,
      search_books_in_catalog Sample.unicode_lower "9780201485677" "isbn"
        (Sample.world
           (mkLibrary
              (<[2 := mkBook "Refactoring" "Martin Fowler" "9780201485677" 2 2]>
                 (books Sample.shelf)) [])
           Sample.jan_01_0900 [])
      = (Return [(id, mkBook (strip "  Refactoring ") (strip "Martin Fowler")
                        "9780201485677" 2 2)],
         Sample.world
           (mkLibrary
              (<[2 := mkBook "Refactoring" "Martin Fowler" "9780201485677" 2 2]>
                 (books Sample.shelf)) [])
           Sample.jan_01_0900 []).
Proof.
  assert (H : add_book_to_catalog "  Refactoring " "Martin Fowler" "9780201485677" 2
                (Sample.world Sample.shelf Sample.jan_01_0900 [])
              = (Return (true, "Book " +:+ dq +:+ "Refactoring" +:+ dq
                               +:+ " has been successfully added to the catalog."),
                 Sample.world
                   (mkLibrary
                      (<[2 := mkBook "Refactoring" "Martin Fowler" "9780201485677" 2 2]>
                         (books Sample.shelf)) [])
                   Sample.jan_01_0900 []))
    by (vm_compute; reflexivity).
  split; [exact H|].
  destruct (add_then_search_by_isbn Sample.unicode_lower _ _ _ _ _ _ _ H) as (id & Hsearch & _).
  exists id. exact Hsearch.
Defined.

(** A search by ISBN, the type and the term given with spaces and capitals. *)
Lemma search_by_isbn_exact_witness :
  lower Sample.unicode_lower (strip " ISBN ") = "isbn" ∧ isbn_unique Sample.shelf
  ∧ ∃ rows : list book_row,
      search_books_in_catalog Sample.unicode_lower " 9780132350884 " " ISBN "
        (Sample.world Sample.shelf Sample.jan_01_0900 [])
      = (Return rows, Sample.world Sample.shelf Sample.jan_01_0900 [])
      ∧ (length rows <= 1)%nat.
Proof.
  pose proof shelf_isbn_unique as Hu.
  destruct (search_by_isbn_exact Sample.unicode_lower " 9780132350884 " " ISBN "
              (Sample.world Sample.shelf Sample.jan_01_0900 []) eq_refl)
    as (rows & Hsearch & _ & _ & Hlen).
  refine (conj eq_refl (conj Hu _)).
  exists rows. exact (conj Hsearch (Hlen Hu)).
Defined.

(** A search by title, and a search of a type that is not known. *)
Lemma search_by_text_witness :
  lower Sample.unicode_lower (strip " Title ") = "title"
  ∧ (∃ rows : list book_row,
       search_books_in_catalog Sample.unicode_lower "CLEAN" " Title "
         (Sample.world Sample.shelf Sample.jan_01_0900 [])
       = (Return rows, Sample.world Sample.shelf Sample.jan_01_0900 [])
       ∧ NoDup rows)
  ∧ search_books_in_catalog Sample.unicode_lower "CLEAN" "publisher"
      (Sample.world Sample.shelf Sample.jan_01_0900 [])
    = (Return [], Sample.world Sample.shelf Sample.jan_01_0900 []).
Proof.
  destruct (search_by_text Sample.unicode_lower "CLEAN" " Title "
              (Sample.world Sample.shelf Sample.jan_01_0900 [])) as (Htitle & _ & _).
  destruct (search_by_text Sample.unicode_lower "CLEAN" "publisher"
              (Sample.world Sample.shelf Sample.jan_01_0900 [])) as (_ & _ & Hother).
  destruct (Htitle eq_refl) as (rows & Hsearch & Hnodup & _).
  refine (conj eq_refl (conj _ _)).
  - exists rows. exact (conj Hsearch Hnodup).
  - apply Hother; discriminate.
Defined.

(** A day at the sample library: a book is added, the patron borrows,
    searches, asks for the report, tries to pay, returns and asks for a
    refund, with the second storage write failing. *)
Lemma service_keeps_loan_invariants_witness :
  within_limit Sample.shelf ∧ one_loan_per_pair Sample.shelf
  ∧ references_books Sample.shelf ∧ isbn_unique Sample.shelf
  ∧ let lib' :=
      library
        (run_requests Sample.fromisoformat Sample.isoformat Sample.strftime_Ymd
           Sample.text_column Sample.gateway
           Sample.fetchall Sample.order_by_borrow_date_desc Sample.unicode_lower
           [AddsBook "Refactoring" "Martin Fowler" "9780201485677" 2;
            Loan (Borrows "123456" 1); Searches "clean" "title"; Reports "123456";
            Pays "123456" 1 None; Loan (Returns "123456" 1);
            Refunds "txn_1" 5.00%Q None]
           (Sample.world Sample.shelf Sample.jan_01_0900 [true; false])) in
    within_limit lib' ∧ one_loan_per_pair lib' ∧ references_books lib' ∧ isbn_unique lib'.
Proof.
  pose proof shelf_within_limit as Hl. pose proof shelf_one_loan_per_pair as Ho.
  pose proof shelf_references_books as Hr. pose proof shelf_isbn_unique as Hu.
  destruct (service_keeps_loan_invariants Sample.fromisoformat Sample.isoformat
              Sample.strftime_Ymd Sample.text_column Sample.gateway
              Sample.fetchall Sample.order_by_borrow_date_desc Sample.unicode_lower
              [AddsBook "Refactoring" "Martin Fowler" "9780201485677" 2;
               Loan (Borrows "123456" 1); Searches "clean" "title"; Reports "123456";
               Pays "123456" 1 None; Loan (Returns "123456" 1);
               Refunds "txn_1" 5.00%Q None]
              (Sample.world Sample.shelf Sample.jan_01_0900 [true; false]))
    as (H1 & H2 & H3 & H4).
  refine (conj Hl (conj Ho (conj Hr (conj Hu _)))).
  exact (conj (H1 Hl) (conj (H2 Ho) (conj (H3 Hr) (H4 Hu)))).
Defined.

(** The record of the sample loan stays the first of the table when the
    book comes back. *)
Lemma records_are_kept_witness :
  borrow_records Sample.on_loan !! 0%nat
  = Some (mkBorrowRecord "123456" 1 Sample.jan_01_0900 Sample.jan_15_0900 None)
  ∧ ∃ r' : BorrowRecord,
      borrow_records
        (library
           (run_requests Sample.fromisoformat Sample.isoformat Sample.strftime_Ymd
              Sample.text_column Sample.gateway
              Sample.fetchall Sample.order_by_borrow_date_desc Sample.unicode_lower
              [Loan (Returns "123456" 1); Loan (Borrows "654321" 1)]
              (Sample.world Sample.on_loan Sample.jan_25_0900 []))) !! 0%nat
      = Some r'
      ∧ same_loan (mkBorrowRecord "123456" 1 Sample.jan_01_0900 Sample.jan_15_0900 None) r'.
Proof.
  split; [reflexivity|].
  exact (records_are_kept Sample.fromisoformat Sample.isoformat Sample.strftime_Ymd
           Sample.text_column Sample.gateway
           Sample.fetchall Sample.order_by_borrow_date_desc Sample.unicode_lower
           [Loan (Returns "123456" 1); Loan (Borrows "654321" 1)]
           (Sample.world Sample.on_loan Sample.jan_25_0900 []) 0%nat
           (mkBorrowRecord "123456" 1 Sample.jan_01_0900 Sample.jan_15_0900 None)
           eq_refl).
Defined.

(** The sample book stays book 1 when it is borrowed and another is added. *)
Lemma books_are_kept_witness :
  books Sample.shelf !! 1 = Some Sample.clean_code
  ∧ ∃ book' : Book,
      books
        (library
           (run_requests Sample.fromisoformat Sample.isoformat Sample.strftime_Ymd
              Sample.text_column Sample.gateway
              Sample.fetchall Sample.order_by_borrow_date_desc Sample.unicode_lower
              [Loan (Borrows "123456" 1);
               AddsBook "Refactoring" "Martin Fowler" "9780201485677" 2]
              (Sample.world Sample.shelf Sample.jan_01_0900 []))) !! 1
      = Some book'
      ∧ same_book Sample.clean_code book'.
Proof.
  split; [reflexivity|].
  exact (books_are_kept Sample.fromisoformat Sample.isoformat Sample.strftime_Ymd
           Sample.text_column Sample.gateway
           Sample.fetchall Sample.order_by_borrow_date_desc Sample.unicode_lower
           [Loan (Borrows "123456" 1);
            AddsBook "Refactoring" "Martin Fowler" "9780201485677" 2]
           (Sample.world Sample.shelf Sample.jan_01_0900 []) 1 Sample.clean_code eq_refl).
Defined.

(** A return of a book that is on the shelf, and a return of book 0. *)
Lemma return_validation_order_witness :
  invalid_patron_id "123456" = false ∧ 1 ≠ 0
  ∧ is_Some (books Sample.shelf !! 1)
  ∧ List.find (active_loan_of "123456" 1) (borrow_records Sample.shelf) = None
  ∧ return_book_by_patron Sample.fromisoformat Sample.text_column "123456" 1
      (Sample.world Sample.shelf Sample.jan_01_0900 [])
    = (Return (false, "No active borrow record found for this patron and book."),
       Sample.world Sample.shelf Sample.jan_01_0900 [])
  ∧ return_book_by_patron Sample.fromisoformat Sample.text_column "123456" 0
      (Sample.world Sample.shelf Sample.jan_01_0900 [])
    = (Return (false, "Invalid book ID."),
       Sample.world Sample.shelf Sample.jan_01_0900 []).
Proof.
  assert (Hid : 1 ≠ 0) by lia.
  assert (Hbook : is_Some (books Sample.shelf !! 1)) by (by eexists).
  destruct (return_validation_order Sample.fromisoformat Sample.text_column "123456" 1
              (Sample.world Sample.shelf Sample.jan_01_0900 []))
    as (_ & Hzero & _ & Hloan & _).
  refine (conj eq_refl (conj Hid (conj Hbook (conj eq_refl (conj _ _))))).
  - exact (Hloan eq_refl Hid Hbook eq_refl).
  - exact (Hzero eq_refl).
Defined.

(** The insert of a borrow fails; the increment of a return fails. *)
Lemma first_or_last_write_fails_witness :
  storage_faults (Sample.world Sample.shelf Sample.jan_01_0900 [false]) = [false]
  ∧ borrow_book_by_patron Sample.strftime_Ymd Sample.text_column "123456" 1
      (Sample.world Sample.shelf Sample.jan_01_0900 [false])
    = (Return (false, "Database error occurred while creating borrow record."),
       mkWorld Sample.shelf (fun _ => Sample.jan_01_0900) 1 [] [])
  ∧ storage_faults (Sample.world Sample.on_loan Sample.jan_25_0900 [true; false])
    = [true; false]
  ∧ ∃ w' : World,
      return_book_by_patron Sample.fromisoformat Sample.text_column "123456" 1
        (Sample.world Sample.on_loan Sample.jan_25_0900 [true; false])
      = (Return (false, "Database error occurred while updating book availability."), w')
      ∧ books (library w') = books Sample.on_loan
      ∧ List.filter (active_loan_of "123456" 1) (borrow_records (library w')) = [].
Proof.
  assert (Hav : 0 < bk_available_copies Sample.clean_code) by (vm_compute; reflexivity).
  assert (Hcount : active_loan_count "123456" Sample.shelf < 5)
    by (vm_compute; reflexivity).
  assert (Hid : 1 ≠ 0) by lia.
  destruct (first_or_last_write_fails Sample.fromisoformat Sample.strftime_Ymd
              Sample.text_column "123456" 1
              (Sample.world Sample.shelf Sample.jan_01_0900 [false])) as (Hborrow & _).
  destruct (first_or_last_write_fails Sample.fromisoformat Sample.strftime_Ymd
              Sample.text_column "123456" 1
              (Sample.world Sample.on_loan Sample.jan_25_0900 [true; false]))
    as (_ & Hreturn).
  refine (conj eq_refl (conj _ (conj eq_refl _))).
  - exact (Hborrow Sample.clean_code [] eq_refl eq_refl Hav Hcount eq_refl eq_refl).
  - destruct (Hreturn (mkBook "Clean Code" "Robert Martin" "9780132350884" 1 0)
                (mkBorrowRecord "123456" 1 Sample.jan_01_0900 Sample.jan_15_0900 None)
                Sample.jan_15_0900 [] eq_refl Hid eq_refl eq_refl eq_refl eq_refl)
      as (w' & Hret & Hbooks & _ & Hnone & _).
    exists w'. exact (conj Hret (conj Hbooks Hnone)).
Defined.

(** The sample book borrowed and brought back at once: the shelf is as it
    was, and no fee is charged. *)
Lemma borrow_then_return_witness :
  borrow_book_by_patron Sample.strftime_Ymd Sample.text_column "123456" 1
    (Sample.world Sample.shelf Sample.jan_01_0900 [])
  = (Return (true, "Successfully borrowed " +:+ dq +:+ "Clean Code" +:+ dq
                   +:+ ". Due date: 2025-01-15."),
     mkWorld Sample.on_loan (fun _ => Sample.jan_01_0900) 1 [] [])
  ∧ ∃ (book : Book) (msg' : string) (w2 : World),
      books Sample.shelf !! 1 = Some book
      ∧ return_book_by_patron Sample.fromisoformat Sample.text_column "123456" 1
          (mkWorld Sample.on_loan (fun _ => Sample.jan_01_0900) 1 [] [])
        = (Return (true, msg'), w2)
      ∧ books (library w2) = books Sample.shelf
      ∧ msg' = "Book returned: " +:+ dq +:+ bk_title book +:+ dq +:+ ". No late fee.".
Proof.
  assert (H : borrow_book_by_patron Sample.strftime_Ymd Sample.text_column "123456" 1
                (Sample.world Sample.shelf Sample.jan_01_0900 [])
              = (Return (true, "Successfully borrowed " +:+ dq +:+ "Clean Code" +:+ dq
                               +:+ ". Due date: 2025-01-15."),
                 mkWorld Sample.on_loan (fun _ => Sample.jan_01_0900) 1 [] []))
    by (vm_compute; reflexivity).
  assert (Hid : 1 ≠ 0) by lia.
  assert (Hsoon : Sample.jan_01_0900 < Sample.jan_01_0900 + timedelta_of_days 15)
    by (vm_compute; reflexivity).
  split; [exact H|].
  destruct (borrow_then_return Sample.fromisoformat Sample.strftime_Ymd Sample.text_column
              "123456" 1 _ _ _ H Hid eq_refl eq_refl eq_refl)
    as (book & msg' & w2 & Hbook & Hret & Hbooks & _ & Hmsg).
  exists book, msg', w2.
  exact (conj Hbook (conj Hret (conj Hbooks (Hmsg Hsoon)))).
Defined.

(** The single copy cannot be borrowed twice, and the loan cannot be given
    back twice. *)
Lemma loan_not_repeated_witness :
  borrow_book_by_patron Sample.strftime_Ymd Sample.text_column "123456" 1
    (Sample.world Sample.shelf Sample.jan_01_0900 [])
  = (Return (true, "Successfully borrowed " +:+ dq +:+ "Clean Code" +:+ dq
                   +:+ ". Due date: 2025-01-15."),
     mkWorld Sample.on_loan (fun _ => Sample.jan_01_0900) 1 [] [])
  ∧ ∃ book : Book,
      books Sample.shelf !! 1 = Some book
      ∧ borrow_book_by_patron Sample.strftime_Ymd Sample.text_column "123456" 1
          (mkWorld Sample.on_loan (fun _ => Sample.jan_01_0900) 1 [] [])
        = (Return (false,
                   if bk_available_copies book =? 1
                   then "This book is currently not available."
                   else if active_loan_count "123456" Sample.shelf =? 4
                   then "You have reached the maximum borrowing limit of 5 books."
                   else "You already have this book checked out."),
           mkWorld Sample.on_loan (fun _ => Sample.jan_01_0900) 1 [] []).
Proof.
  assert (H : borrow_book_by_patron Sample.strftime_Ymd Sample.text_column "123456" 1
                (Sample.world Sample.shelf Sample.jan_01_0900 [])
              = (Return (true, "Successfully borrowed " +:+ dq +:+ "Clean Code" +:+ dq
                               +:+ ". Due date: 2025-01-15."),
                 mkWorld Sample.on_loan (fun _ => Sample.jan_01_0900) 1 [] []))
    by (vm_compute; reflexivity).
  split; [exact H|].
  destruct (loan_not_repeated Sample.fromisoformat Sample.strftime_Ymd Sample.text_column
              "123456" 1
              ("Successfully borrowed " +:+ dq +:+ "Clean Code" +:+ dq
               +:+ ". Due date: 2025-01-15.")
              (Sample.world Sample.shelf Sample.jan_01_0900 [])
              (mkWorld Sample.on_loan (fun _ => Sample.jan_01_0900) 1 [] []))
    as (Hborrow & _).
  exact (Hborrow H).
Defined.

(** Due on January 15th: the fee on January 25th and on February 24th. *)
Lemma late_fee_bounds_witness :
  resolve Sample.fromisoformat (Str "2025-01-15T09:00:00") = Some Sample.jan_15_0900
  ∧ Sample.jan_25_0900 <= Sample.feb_24_0900
  ∧ ∃ q q' : FeeQuote,
      calculate_late_fee_for_book Sample.fromisoformat Sample.text_column "123456" 1
        (Some (Some (Str "2025-01-15T09:00:00"))) (Some (DT Sample.jan_25_0900))
        (Sample.world Sample.on_loan Sample.jan_25_0900 [])
      = (Return q, Sample.world Sample.on_loan Sample.jan_25_0900 [])
      ∧ calculate_late_fee_for_book Sample.fromisoformat Sample.text_column "123456" 1
          (Some (Some (Str "2025-01-15T09:00:00"))) (Some (DT Sample.feb_24_0900))
          (Sample.world Sample.on_loan Sample.jan_25_0900 [])
        = (Return q', Sample.world Sample.on_loan Sample.jan_25_0900 [])
      ∧ days_overdue q <= days_overdue q' ∧ (fee_amount q <= fee_amount q')%Q.
Proof.
  assert (Hlater : Sample.jan_25_0900 <= Sample.feb_24_0900) by (vm_compute; discriminate).
  destruct (late_fee_bounds Sample.fromisoformat Sample.text_column "123456" 1
              (Str "2025-01-15T09:00:00") Sample.jan_15_0900 Sample.jan_25_0900
              Sample.feb_24_0900 (Sample.world Sample.on_loan Sample.jan_25_0900 [])
              eq_refl)
    as (q & q' & Hq & Hq' & _ & _ & _ & _ & Hmono).
  refine (conj eq_refl (conj Hlater _)).
  exists q, q'. exact (conj Hq (conj Hq' (Hmono Hlater))).
Defined.

(** The sample loan, 10 days overdue, is paid: the gateway is asked for
    6.50. *)
Lemma pay_charges_the_fee_witness :
  invalid_patron_id "123456" = false
  ∧ Sample.jan_15_0900 + timedelta_of_days 1 <= Sample.jan_25_0900
  ∧ ∃ w' : World,
      pay_late_fees Sample.fromisoformat Sample.text_column Sample.gateway "123456" 1 None
        (Sample.world Sample.on_loan Sample.jan_25_0900 [])
      = (Return (true, "Payment successful! Success", Some "txn_1"), w')
      ∧ gateway_calls w'
        = [ProcessPayment "123456" 6.50%Q "Late fees for 'Clean Code'"].
Proof.
  assert (Hlate : Sample.jan_15_0900 + timedelta_of_days 1 <= Sample.jan_25_0900)
    by (vm_compute; discriminate).
  destruct (pay_charges_the_fee Sample.fromisoformat Sample.text_column Sample.gateway
              "123456" 1 None
              (mkBorrowRecord "123456" 1 Sample.jan_01_0900 Sample.jan_15_0900 None)
              Sample.jan_15_0900
              (mkBook "Clean Code" "Robert Martin" "9780132350884" 1 0)
              (Sample.world Sample.on_loan Sample.jan_25_0900 [])
              eq_refl eq_refl eq_refl Hlate eq_refl)
    as (w' & Hpay & Hcalls & _).
  refine (conj eq_refl (conj Hlate _)).
  exists w'. exact (conj Hpay Hcalls).
Defined.

(** The profile page asked for with a patron id of two digits. *)
Lemma profile_shows_report_witness :
  "12" ≠ ""
  ∧ method (mkRequest "GET" ∅ {[ "patron_id" := "12" ]}) ≠ "POST"
  ∧ args (mkRequest "GET" ∅ {[ "patron_id" := "12" ]}) !! "patron_id" = Some "12"
  ∧ invalid_patron_id "12" = true
  ∧ profile Sample.fromisoformat Sample.isoformat Sample.text_column
      Sample.fetchall Sample.order_by_borrow_date_desc
      (mkRequest "GET" ∅ {[ "patron_id" := "12" ]})
      (Sample.world Sample.shelf Sample.jan_01_0900 [])
    = (Return (mkPage "patron_profile.html" (Some "12")
                 (Some (ReportError "Invalid patron ID. Must be exactly 6 digits."))),
       Sample.world Sample.shelf Sample.jan_01_0900 []).
Proof.
  assert (Hid : "12" ≠ "") by discriminate.
  assert (Hm : method (mkRequest "GET" ∅ {[ "patron_id" := "12" ]}) ≠ "POST")
    by discriminate.
  assert (Hargs : args (mkRequest "GET" ∅ {[ "patron_id" := "12" ]}) !! "patron_id"
                  = Some "12") by (vm_compute; reflexivity).
  destruct (profile_shows_report Sample.fromisoformat Sample.isoformat Sample.text_column
              Sample.fetchall Sample.order_by_borrow_date_desc
              (mkRequest "GET" ∅ {[ "patron_id" := "12" ]}) "12"
              (Sample.world Sample.shelf Sample.jan_01_0900 []))
    as (_ & _ & _ & H).
  destruct (H Hid (or_intror (conj Hm Hargs))) as (_ & Herror).
  refine (conj Hid (conj Hm (conj Hargs (conj eq_refl _)))).
  exact (Herror eq_refl).
Defined.

(** Over a storage that does not fail: a book is added, the sample book is
    borrowed and brought back. *)
Lemma reliable_storage_keeps_count_witness :
  reliable (Sample.world Sample.shelf Sample.jan_01_0900 [])
  ∧ valid_state Sample.shelf ∧ one_loan_per_pair Sample.shelf
  ∧ references_books Sample.shelf
  ∧ let lib' :=
      library
        (run_requests Sample.fromisoformat Sample.isoformat Sample.strftime_Ymd
           Sample.text_column Sample.gateway
           Sample.fetchall Sample.order_by_borrow_date_desc Sample.unicode_lower
           [AddsBook "Refactoring" "Martin Fowler" "9780201485677" 2;
            Loan (Borrows "123456" 1); Loan (Borrows "123456" 2);
            Loan (Returns "123456" 1)]
           (Sample.world Sample.shelf Sample.jan_01_0900 [])) in
    valid_state lib' ∧ one_loan_per_pair lib' ∧ references_books lib'.
Proof.
  assert (Hrel : reliable (Sample.world Sample.shelf Sample.jan_01_0900 []))
    by (by constructor).
  pose proof (shelf_valid Sample.jan_01_0900 []) as Hv.
  pose proof shelf_one_loan_per_pair as Ho. pose proof shelf_references_books as Hr.
  refine (conj Hrel (conj Hv (conj Ho (conj Hr _)))).
  exact (reliable_storage_keeps_count Sample.fromisoformat Sample.isoformat
           Sample.strftime_Ymd Sample.text_column Sample.gateway
           Sample.fetchall Sample.order_by_borrow_date_desc Sample.unicode_lower
           [AddsBook "Refactoring" "Martin Fowler" "9780201485677" 2;
            Loan (Borrows "123456" 1); Loan (Borrows "123456" 2);
            Loan (Returns "123456" 1)]
           (Sample.world Sample.shelf Sample.jan_01_0900 []) Hrel Hv Ho Hr).
Defined.

(** The checks pass and the storage works: the borrow succeeds. *)
Lemma success_conditions_witness :
  passes_validation "123456" 1 Sample.shelf = true
  ∧ hd true (storage_faults (Sample.world Sample.shelf Sample.jan_01_0900 [])) = true
  ∧ hd true (tl (storage_faults (Sample.world Sample.shelf Sample.jan_01_0900 []))) = true
  ∧ ∃ (msg : string) (w' : World),
      borrow_book_by_patron Sample.strftime_Ymd Sample.text_column "123456" 1
        (Sample.world Sample.shelf Sample.jan_01_0900 [])
      = (Return (true, msg), w').
Proof.
  destruct (success_conditions Sample.fromisoformat Sample.strftime_Ymd Sample.text_column
              "123456" 1 (Sample.world Sample.shelf Sample.jan_01_0900 []))
    as ([_ Hborrow] & _).
  refine (conj eq_refl (conj eq_refl (conj eq_refl _))).
  exact (Hborrow (conj eq_refl (conj eq_refl eq_refl))).
Defined.

(** The report of the sample patron on March 1st: one active loan, 45 days
    overdue and at the cap, and a total of 15.00. *)
Lemma report_totals_witness :
  get_patron_status_report Sample.fromisoformat Sample.isoformat Sample.text_column
    Sample.fetchall Sample.order_by_borrow_date_desc
    "123456" (Sample.world Sample.on_loan Sample.mar_01_1200 [])
  = (Return (Report (mkStatusReport
               [mkCurrentLoan 1 "Clean Code" "Robert Martin" "2025-01-01T09:00:00"
                  "2025-01-15T09:00:00" true 45 15.00%Q]
               1 15.00%Q
               [mkHistoryEntry 1 "Clean Code" "Robert Martin" "9780132350884"
                  "2025-01-01T09:00:00" "2025-01-15T09:00:00" None 45 15.00%Q]
               "123456")),
     mkWorld Sample.on_loan (fun _ => Sample.mar_01_1200) 2 [] [])
  ∧ (15.00 == inject_Z (fee_cents 45 + 0) / 100)%Q
  ∧ (0 <= 15.00)%Q
  ∧ (15.00 <= 15.00 * inject_Z 1)%Q.
Proof.
  assert (H : get_patron_status_report Sample.fromisoformat Sample.isoformat
                Sample.text_column Sample.fetchall Sample.order_by_borrow_date_desc
                "123456" (Sample.world Sample.on_loan Sample.mar_01_1200 [])
              = (Return (Report (mkStatusReport
                           [mkCurrentLoan 1 "Clean Code" "Robert Martin"
                              "2025-01-01T09:00:00" "2025-01-15T09:00:00" true 45 15.00%Q]
                           1 15.00%Q
                           [mkHistoryEntry 1 "Clean Code" "Robert Martin" "9780132350884"
                              "2025-01-01T09:00:00" "2025-01-15T09:00:00" None 45 15.00%Q]
                           "123456")),
                 mkWorld Sample.on_loan (fun _ => Sample.mar_01_1200) 2 [] []))
    by (vm_compute; reflexivity).
  split; [exact H|].
  destruct (report_totals _ _ _ _ _ _ _ _ _ H) as (_ & _ & _ & Hcents & Hmin & Hmax).
  exact (conj Hcents (conj Hmin Hmax)).
Defined.
